(** * cbdyncluster2: the container-backed node lifecycle driver

    A shallow embedding of [deployment/dockerdeploy/imageprovider.go] and
    [deployment/dockerdeploy/controller.go], followed by the properties of the
    design document that are about them.

    Go strings are byte strings and are modelled by [string]; a Go [int] is
    modelled by [Z]; a Go map by a [gmap]; a nil-able pointer by [option]. *)

From Stdlib Require Import ZArith Bool Ascii String List Lia DecimalString.
From Stdlib Require DecimalZ.
From stdpp Require Import base option list strings gmap.

Local Open Scope Z_scope.

(** * Part I: the embedding *)

(** ** Three-way comparators

    A Go comparator returns a negative number, zero or a positive number.
    [cmp_order] says that such a function is a total preorder presented as a
    three-way comparison with results -1, 0 and +1. *)

Record cmp_order {A : Type} (cmp : A -> A -> Z) : Prop := CmpOrder {
  cmp_range : forall x y, cmp x y = -1 \/ cmp x y = 0 \/ cmp x y = 1;
  cmp_antisym : forall x y, cmp y x = - cmp x y;
  cmp_trans : forall x y z, cmp x y <= 0 -> cmp y z <= 0 -> cmp x z <= 0
}.

(** [then_cmp c1 c2] is Go's [if c := c1(x, y); c != 0 { return c }]
    followed by [c2]. *)
Definition then_cmp {A : Type} (c1 c2 : A -> A -> Z) (x y : A) : Z :=
  if negb (c1 x y =? 0) then c1 x y else c2 x y.

(** A comparator on [B] pulled back along a projection [f : A -> B]. *)
Definition on_cmp {A B : Type} (f : A -> B) (cmp : B -> B -> Z) (x y : A) : Z :=
  cmp (f x) (f y).

(** ** Go string primitives *)

Module GoString.

(** [len(v)] *)
Definition len (v : string) : nat := String.length v.

(** [v[a:b]] and [v[a:]] (for indices within bounds). *)
Definition slice (v : string) (a b : nat) : string :=
  String.substring a (b - a) v.
Definition slice_from (v : string) (a : nat) : string :=
  String.substring a (len v - a) v.

(** The final [i] of [i := 0; for i < len(v) && p(v[i]) { i++ }]. *)
Fixpoint scan (p : ascii -> bool) (v : string) : nat :=
  match v with
  | String c v' => if p c then S (scan p v') else O
  | EmptyString => O
  end.

(** ['0' <= c && c <= '9'] *)
Definition is_digit (c : ascii) : bool :=
  Ascii.leb "0" c && Ascii.leb c "9".

(** [x < y] on strings: bytewise lexicographic order. *)
Definition lt (x y : string) : bool := String.ltb x y.

End GoString.

(** ** golang.org/x/mod/semver

    [CompareImageDefs] calls [semver.Compare]; the package is a dependency of
    the repository.  The functions below follow its [semver.go]: [parse] and
    its helpers, [compareInt], [comparePrerelease] and [Compare]. *)

Module semver.
Import GoString.

Record parsed := Parsed {
  major : string;
  minor : string;
  patch : string;
  short : string;
  prerelease : string;
  build : string
}.

Definition isIdentChar (c : ascii) : bool :=
  (Ascii.leb "A" c && Ascii.leb c "Z")
  || (Ascii.leb "a" c && Ascii.leb c "z")
  || (Ascii.leb "0" c && Ascii.leb c "9")
  || Ascii.eqb c "-".

(** [isBadNum]: all digits, more than one of them, and a leading zero. *)
Definition isBadNum (v : string) : bool :=
  let i := scan is_digit v in
  Nat.eqb i (len v) && Nat.ltb 1 i && String.prefix "0" v.

Definition isNum (v : string) : bool :=
  let i := scan is_digit v in
  Nat.eqb i (len v).

(** [parseInt] returns [(t, rest)], or [None] for [ok = false]. *)
Definition parseInt (v : string) : option (string * string) :=
  match v with
  | EmptyString => None
  | String c v' =>
      if negb (is_digit c) then None
      else
        let i := S (scan is_digit v') in
        if Ascii.eqb c "0" && negb (Nat.eqb i 1) then None
        else Some (slice v 0 i, slice_from v i)
  end.

(** The loop of [parsePrerelease]: [rest] is [v[i:]]; the result is the final
    [(i, start)], or [None] where the Go loop returns [ok = false]. *)
Fixpoint parsePrerelease_loop (v rest : string) (i start : nat)
  : option (nat * nat) :=
  match rest with
  | EmptyString => Some (i, start)
  | String c rest' =>
      if Ascii.eqb c "+" then Some (i, start)
      else if negb (isIdentChar c) && negb (Ascii.eqb c ".") then None
      else if Ascii.eqb c "." then
        if Nat.eqb start i || isBadNum (slice v start i) then None
        else parsePrerelease_loop v rest' (S i) (S i)
      else parsePrerelease_loop v rest' (S i) start
  end.

Definition parsePrerelease (v : string) : option (string * string) :=
  match v with
  | EmptyString => None
  | String c v' =>
      if negb (Ascii.eqb c "-") then None
      else
        match parsePrerelease_loop v v' 1 1 with
        | None => None
        | Some (i, start) =>
            if Nat.eqb start i || isBadNum (slice v start i) then None
            else Some (slice v 0 i, slice_from v i)
        end
  end.

Fixpoint parseBuild_loop (rest : string) (i start : nat) : option (nat * nat) :=
  match rest with
  | EmptyString => Some (i, start)
  | String c rest' =>
      if negb (isIdentChar c) && negb (Ascii.eqb c ".") then None
      else if Ascii.eqb c "." then
        if Nat.eqb start i then None
        else parseBuild_loop rest' (S i) (S i)
      else parseBuild_loop rest' (S i) start
  end.

Definition parseBuild (v : string) : option (string * string) :=
  match v with
  | EmptyString => None
  | String c v' =>
      if negb (Ascii.eqb c "+") then None
      else
        match parseBuild_loop v' 1 1 with
        | None => None
        | Some (i, start) =>
            if Nat.eqb start i then None
            else Some (slice v 0 i, slice_from v i)
        end
  end.

(** The tail of [parse], after the patch number: optional prerelease, optional
    build, then nothing. *)
Definition parse_suffix (ma mi pa v : string) : option parsed :=
  match (if String.prefix "-" v
         then parsePrerelease v
         else Some (EmptyString, v)) with
  | None => None
  | Some (pre, v) =>
      match (if String.prefix "+" v
             then parseBuild v
             else Some (EmptyString, v)) with
      | None => None
      | Some (bld, v) =>
          if String.eqb v EmptyString then Some (Parsed ma mi pa EmptyString pre bld)
          else None
      end
  end.

Definition parse (v : string) : option parsed :=
  match v with
  | EmptyString => None
  | String c v1 =>
      if negb (Ascii.eqb c "v") then None
      else
        match parseInt v1 with
        | None => None
        | Some (ma, v) =>
            match v with
            | EmptyString => Some (Parsed ma "0" "0" ".0.0" EmptyString EmptyString)
            | String c v2 =>
                if negb (Ascii.eqb c ".") then None
                else
                  match parseInt v2 with
                  | None => None
                  | Some (mi, v) =>
                      match v with
                      | EmptyString => Some (Parsed ma mi "0" ".0" EmptyString EmptyString)
                      | String c v3 =>
                          if negb (Ascii.eqb c ".") then None
                          else
                            match parseInt v3 with
                            | None => None
                            | Some (pa, v) => parse_suffix ma mi pa v
                            end
                      end
                  end
            end
        end
  end.

Definition compareInt (x y : string) : Z :=
  if String.eqb x y then 0
  else if Nat.ltb (len x) (len y) then -1
  else if Nat.ltb (len y) (len x) then 1
  else if lt x y then -1
  else 1.

Definition nextIdent (x : string) : string * string :=
  let i := scan (fun c => negb (Ascii.eqb c ".")) x in
  (slice x 0 i, slice_from x i).

(** The comparison of two identifiers that differ, inside the loop of
    [comparePrerelease]. *)
Definition compareIdent (dx dy : string) : Z :=
  let ix := isNum dx in
  let iy := isNum dy in
  if negb (Bool.eqb ix iy) then (if ix then -1 else 1)
  else if ix && Nat.ltb (len dx) (len dy) then -1
  else if ix && Nat.ltb (len dy) (len dx) then 1
  else if lt dx dy then -1
  else 1.

(** The loop of [comparePrerelease], which runs while [x] and [y] are not
    empty, and the
    statement after it.  Every iteration shortens [x]; [fuel] bounds the
    number of iterations and [len x] is enough, so that at fuel zero [x] is
    empty and the loop has ended. *)
Fixpoint comparePrerelease_loop (fuel : nat) (x y : string) : Z :=
  match fuel with
  | O => if String.eqb x EmptyString then -1 else 1
  | S fuel' =>
      if negb (String.eqb x EmptyString) && negb (String.eqb y EmptyString) then
        let x := slice_from x 1 in
        let y := slice_from y 1 in
        let '(dx, x) := nextIdent x in
        let '(dy, y) := nextIdent y in
        if negb (String.eqb dx dy) then compareIdent dx dy
        else comparePrerelease_loop fuel' x y
      else if String.eqb x EmptyString then -1 else 1
  end.

Definition comparePrerelease (x y : string) : Z :=
  if String.eqb x y then 0
  else if String.eqb x EmptyString then 1
  else if String.eqb y EmptyString then -1
  else comparePrerelease_loop (len x) x y.

Definition Compare (v w : string) : Z :=
  match parse v, parse w with
  | None, None => 0
  | None, Some _ => -1
  | Some _, None => 1
  | Some pv, Some pw =>
      let c := compareInt (major pv) (major pw) in
      if negb (c =? 0) then c else
      let c := compareInt (minor pv) (minor pw) in
      if negb (c =? 0) then c else
      let c := compareInt (patch pv) (patch pw) in
      if negb (c =? 0) then c else
      comparePrerelease (prerelease pv) (prerelease pw)
  end.

End semver.

(** ** imageprovider.go *)

Record ImageDef := {
  Version : string;
  BuildNo : Z;
  UseCommunityEdition : bool;
  UseServerless : bool;
  UseColumnar : bool
}.

Record ImageRef := { ImagePath : string }.

Definition CompareImageDefs (a b : ImageDef) : Z :=
  let c := semver.Compare ("v" +:+ Version a) ("v" +:+ Version b) in
  if negb (c =? 0) then c
  else if BuildNo a <? BuildNo b then -1
  else if BuildNo a >? BuildNo b then 1
  else if UseCommunityEdition a && negb (UseCommunityEdition b) then -1
  else if negb (UseCommunityEdition a) && UseCommunityEdition b then 1
  else if negb (UseServerless a) && UseServerless b then -1
  else if UseServerless a && negb (UseServerless b) then 1
  else if negb (UseColumnar a) && UseColumnar b then -1
  else if UseColumnar a && negb (UseColumnar b) then 1
  else 0.

(** ** Order keys

    Comparators on keys, against which the Go comparators are checked. *)

Definition cmp_of (c : comparison) : Z :=
  match c with Lt => -1 | Eq => 0 | Gt => 1 end.

Definition strcmp (x y : string) : Z := cmp_of (String.compare x y).
Definition natcmp (n m : nat) : Z := cmp_of (Nat.compare n m).
Definition zcmp (n m : Z) : Z := cmp_of (Z.compare n m).

(** [false] before [true]. *)
Definition boolcmp (a b : bool) : Z :=
  if negb a && b then -1 else if a && negb b then 1 else 0.

(** Lexicographic order on lists; a proper prefix is smaller. *)
Fixpoint lex_list {A : Type} (cmp : A -> A -> Z) (l m : list A) : Z :=
  match l, m with
  | [], [] => 0
  | [], _ :: _ => -1
  | _ :: _, [] => 1
  | a :: l', b :: m' =>
      if negb (cmp a b =? 0) then cmp a b else lex_list cmp l' m'
  end.

(** [None] below every [Some]. *)
Definition opt_low {A : Type} (cmp : A -> A -> Z) (x y : option A) : Z :=
  match x, y with
  | None, None => 0
  | None, Some _ => -1
  | Some _, None => 1
  | Some a, Some b => cmp a b
  end.

(** [None] above every [Some]. *)
Definition opt_high {A : Type} (cmp : A -> A -> Z) (x y : option A) : Z :=
  match x, y with
  | None, None => 0
  | None, Some _ => 1
  | Some _, None => -1
  | Some a, Some b => cmp a b
  end.

(** The dot-separated fields of a string. *)
Fixpoint split_dots (s : string) : list string :=
  match s with
  | EmptyString => [EmptyString]
  | String c s' =>
      if Ascii.eqb c "." then EmptyString :: split_dots s'
      else
        match split_dots s' with
        | d :: ds => String c d :: ds
        | [] => [String c EmptyString]
        end
  end.

(** The identifiers that remain in [x], a string that is empty or starts with
    a separator, during the loop of [semver.comparePrerelease]. *)
Definition restKey (x : string) : list string :=
  match x with
  | EmptyString => []
  | String _ r => split_dots r
  end.

(** The key of a prerelease string: [None] for a release. *)
Definition preKey (x : string) : option (list string) :=
  match x with
  | EmptyString => None
  | String _ r => Some (split_dots r)
  end.

(** A prerelease string is empty or starts with a hyphen. *)
Definition pre_ok (x : string) : Prop :=
  x = EmptyString \/ exists r, x = String "-" r.

(** The order of two prerelease identifiers: numeric ones first, by length
    and then bytewise; the others bytewise. *)
Definition identCmp : string -> string -> Z :=
  then_cmp (on_cmp (fun d => if semver.isNum d then 0%nat else 1%nat) natcmp)
    (then_cmp (on_cmp (fun d => if semver.isNum d then GoString.len d else 0%nat) natcmp)
       strcmp).

Definition preCmp : option (list string) -> option (list string) -> Z :=
  opt_high (lex_list identCmp).

(** Shortlex order, the order of [semver.compareInt]. *)
Definition shortlex : string -> string -> Z :=
  then_cmp (on_cmp GoString.len natcmp) strcmp.

Definition versionKey : Type := string * string * string * option (list string).

Definition versionKeyCmp : versionKey -> versionKey -> Z :=
  then_cmp (on_cmp (fun k => k.1.1.1) shortlex)
    (then_cmp (on_cmp (fun k => k.1.1.2) shortlex)
       (then_cmp (on_cmp (fun k => k.1.2) shortlex)
          (on_cmp (fun k => k.2) preCmp))).

Definition parsedKey (p : semver.parsed) : versionKey :=
  (semver.major p, semver.minor p, semver.patch p, preKey (semver.prerelease p)).

Definition semverKey (v : string) : option versionKey :=
  parsedKey <$> semver.parse v.

(** The order of [CompareImageDefs] as a chain of keys. *)
Definition imageDefCmp : ImageDef -> ImageDef -> Z :=
  then_cmp (on_cmp (fun a => semverKey ("v" +:+ Version a)) (opt_low versionKeyCmp))
    (then_cmp (on_cmp BuildNo zcmp)
       (then_cmp (on_cmp (fun a => negb (UseCommunityEdition a)) boolcmp)
          (then_cmp (on_cmp UseServerless boolcmp)
             (on_cmp UseColumnar boolcmp)))).

Definition image_less (a b : ImageDef) : Prop := CompareImageDefs a b = -1.
Definition image_equal (a b : ImageDef) : Prop := CompareImageDefs a b = 0.
Definition image_greater (a b : ImageDef) : Prop := CompareImageDefs a b = 1.

(** Three image descriptors, in increasing order. *)
Definition image_7_0_5 : ImageDef :=
  {| Version := "7.0.5"; BuildNo := 9000; UseCommunityEdition := false;
     UseServerless := true; UseColumnar := true |}.
Definition image_7_1_0_ce : ImageDef :=
  {| Version := "7.1.0"; BuildNo := 12; UseCommunityEdition := true;
     UseServerless := false; UseColumnar := false |}.
Definition image_7_1_0_ee : ImageDef :=
  {| Version := "7.1.0"; BuildNo := 12; UseCommunityEdition := false;
     UseServerless := false; UseColumnar := false |}.

(** ** Go values used by controller.go *)

(** A Go [error], by its message. *)
Definition error : Type := string.

(** [errors.New] and [errors.Wrap] of github.com/pkg/errors. *)
Definition errors_New (message : string) : error := message.
Definition errors_Wrap (err : error) (message : string) : error :=
  message +:+ ": " +:+ err.

(** The result [(v, err)] of a Go function that returns [v] with a nil error
    or a zero value with an error. *)
Inductive result (A : Type) : Type :=
| Ok (a : A)
| Err (err : error).
Arguments Ok {A} a.
Arguments Err {A} err.

(** How a call ends: it returns, it panics, or the model ran out of fuel
    (loops without a bound take fuel). *)
Inductive outcome (A : Type) : Type :=
| Returned (a : A)
| Panicked (msg : string)
| OutOfFuel.
Arguments Returned {A} a.
Arguments Panicked {A} msg.
Arguments OutOfFuel {A}.

Module time.
(** A [time.Time], by the instant it denotes, in nanoseconds since the Unix
    epoch; [Time.Equal] is equality of instants. *)
Definition Time : Type := Z.
(** [time.Time{}]: January 1, year 1, 00:00:00 UTC. *)
Definition zero : Time := -62135596800 * 1000000000.
End time.

Module DockerNodeState.
Record t := Build { Expiry : time.Time }.
End DockerNodeState.

Module DockerNodeStateJson.
Record t := Build { Expiry : time.Time }.
End DockerNodeStateJson.

Module NodeInfo.
Record t := Build {
  ContainerID : string;
  NodeID : string;
  ClusterID : string;
  Name : string;
  Creator : string;
  Owner : string;
  Purpose : string;
  Expiry : time.Time;
  IPAddress : string;
  InitialServerVersion : string
}.
Definition with_Expiry (node : t) (expiry : time.Time) : t :=
  Build (ContainerID node) (NodeID node) (ClusterID node) (Name node)
    (Creator node) (Owner node) (Purpose node) expiry (IPAddress node)
    (InitialServerVersion node).
End NodeInfo.

(** ** encoding/json, for the one type the controller encodes

    What [json.Unmarshal] finds in a document that it decodes into a
    [*DockerNodeStateJson]: a document it rejects, the literal [null], or an
    object, with the time of its [Expiry] member when it has one. *)
Inductive json_doc : Type :=
| JInvalid (err : error)
| JNull
| JObject (expiry : option time.Time).

(** The codec: [json_Marshal] is [json.Marshal] at [*DockerNodeStateJson]
    (it fails when the time has no RFC 3339 form), [json_decode] reads a
    document. *)
Class Json := {
  json_Marshal : DockerNodeStateJson.t -> result (list Byte.byte);
  json_decode : list Byte.byte -> json_doc
}.

(** [json.Unmarshal(data, &v)] for [v : *DockerNodeStateJson]: [null] sets the
    pointer to nil; an object is decoded into the struct the pointer refers
    to, which is allocated when the pointer is nil, and members that the
    object does not have keep their value. *)
Definition json_Unmarshal {J : Json} (data : list Byte.byte)
    (v : option DockerNodeStateJson.t)
  : option error * option DockerNodeStateJson.t :=
  match json_decode data with
  | JInvalid err => (Some err, v)
  | JNull => (None, None)
  | JObject expiry =>
      let cur := default (DockerNodeStateJson.Build time.zero) v in
      (None, Some (DockerNodeStateJson.Build
                     (default (DockerNodeStateJson.Expiry cur) expiry)))
  end.

(** ** archive/tar *)

(** An entry written with [WriteHeader] and [Write]. *)
Record tar_file := TarFile {
  tar_Name : string;
  tar_Size : Z;
  tar_Data : list Byte.byte
}.

(** What a [tar.Reader] yields on a response body: [Next] returns [io.EOF],
    or another error, or a header, after which [io.ReadAll] returns the
    entry's bytes or an error. *)
Inductive tar_stream : Type :=
| TarEOF
| TarFail (err : error)
| TarNext (name : string) (body : result (list Byte.byte)) (rest : tar_stream).

(** ** The Docker API, as far as the controller uses it *)

Record EndpointSettings := { IPAddress : string }.

(** [Networks] is a Go map; the list gives its entries in the order in which
    a [range] statement visits them, which Go leaves unspecified. *)
Record SummaryNetworkSettings := {
  Networks : list (string * option EndpointSettings)
}.

Record Container := {
  ID : string;
  Labels : gmap string string;
  NetworkSettings : option SummaryNetworkSettings
}.

Record IPAMConfig := {
  Subnet : string;
  IPRange : string;
  Gateway : string
}.

Record NetworkResource := { IPAM_Config : list IPAMConfig }.

(** The calls on [DockerCli], on a backend with states [W].  [Exec] is
    [dockerExecAndPipe], which runs a command inside a container; [Sleep] is
    [time.Sleep(100 * time.Millisecond)], during which the backend goes on. *)
Class DockerCli (W : Type) := {
  ContainerList : W -> result (list Container) * W;
  CopyToContainer : string -> string -> list tar_file -> W -> option error * W;
  CopyFromContainer : string -> string -> W -> result tar_stream * W;
  ContainerStop : string -> W -> option error * W;
  ContainerRemove : string -> W -> option error * W;
  NetworkInspect : string -> W -> result NetworkResource * W;
  Exec : string -> list string -> W -> option error * W;
  Sleep : W -> W
}.

(** ** The logger *)

Inductive Field : Type :=
| zap_String (key val : string)
| zap_Strings (key : string) (vals : list string)
| zap_Bool (key : string) (val : bool)
| zap_State (key : string) (val : DockerNodeState.t)
| zap_Error (key : string) (err : error).

Record LogEntry := { log_msg : string; log_fields : list Field }.

(** ** The controller's monad: a backend state and the log, with panics *)

Record state (W : Type) := State { world : W; logged : list LogEntry }.
Arguments State {W} world logged.
Arguments world {W} s.
Arguments logged {W} s.

Definition M (W A : Type) : Type := state W -> outcome (A * state W).

Definition ret {W A : Type} (a : A) : M W A := fun st => Returned (a, st).

Definition bind {W A B : Type} (m : M W A) (k : A -> M W B) : M W B :=
  fun st =>
    match m st with
    | Returned (a, st') => k a st'
    | Panicked msg => Panicked msg
    | OutOfFuel => OutOfFuel
    end.

#[global] Instance M_ret {W : Type} : MRet (M W) := fun A => ret.
#[global] Instance M_bind {W : Type} : MBind (M W) := fun A B k m => bind m k.

(** A call of the function [f] of the Docker client. *)
Definition docker {W A : Type} (f : W -> A * W) : M W A :=
  fun st => let '(a, w) := f (world st) in Returned (a, State w (logged st)).

(** [Logger.Debug(msg, fields...)] *)
Definition Debug {W : Type} (msg : string) (fields : list Field) : M W unit :=
  fun st => Returned (tt, State (world st) (logged st ++ [Build_LogEntry msg fields])).

(** The outcome of a function that has no effect. *)
Definition lift {W A : Type} (o : outcome A) : M W A :=
  fun st =>
    match o with
    | Returned a => Returned (a, st)
    | Panicked msg => Panicked msg
    | OutOfFuel => OutOfFuel
    end.

Record Controller := { NetworkName : string }.

(** ** controller.go *)

Section ControllerCode.
Context {J : Json} {W : Type} {D : DockerCli W}.

(** [container.Labels[key]]: the empty string when the key is absent. *)
Definition label (container : Container) (key : string) : string :=
  default EmptyString (Labels container !! key).

Definition parseContainerInfo (c : Controller) (container : Container)
  : outcome (option NodeInfo.t) :=
  let clusterID := label container "com.couchbase.dyncluster.cluster_id" in
  let nodeID := label container "com.couchbase.dyncluster.node_id" in
  let nodeName := label container "com.couchbase.dyncluster.node_name" in
  let creator := label container "com.couchbase.dyncluster.creator" in
  let purpose := label container "com.couchbase.dyncluster.purpose" in
  let initialServerVersion :=
    label container "com.couchbase.dyncluster.initial_server_version" in
  if String.eqb clusterID EmptyString then Returned None
  else
    match NetworkSettings container with
    | None => Panicked "invalid memory address or nil pointer dereference"
    | Some settings =>
        let pickedNetwork :=
          fold_left (fun _ '(_, network) => network) (Networks settings) None in
        match pickedNetwork with
        | None => Panicked "invalid memory address or nil pointer dereference"
        | Some picked =>
            Returned (Some (NodeInfo.Build (ID container) nodeID clusterID
                              nodeName creator EmptyString purpose time.zero
                              (IPAddress picked) initialServerVersion))
        end
    end.

Definition WriteNodeState (c : Controller) (containerID : string)
    (state : DockerNodeState.t) : M W (option error) :=
  Debug "writing node state"
    [zap_String "container" containerID; zap_State "state" state];;
  let jsonState := DockerNodeStateJson.Build (DockerNodeState.Expiry state) in
  match json_Marshal jsonState with
  | Err err =>
      mret (Some (errors_Wrap err "failed to marshal dyncluster node state"))
  | Ok jsonBytes =>
      let tarBuf :=
        [TarFile "cbdyncluster/state" (Z.of_nat (length jsonBytes)) jsonBytes] in
      err ← docker (CopyToContainer containerID "/var/" tarBuf);
      match err with
      | Some err =>
          mret (Some (errors_Wrap err "failed to write dyncluster node state"))
      | None => mret None
      end
  end.

(** The loop of [ReadNodeState] over the entries of the archive. *)
Fixpoint ReadNodeState_loop (tarRdr : tar_stream)
    (nodeStateJson : option DockerNodeStateJson.t)
  : result (option DockerNodeStateJson.t) :=
  match tarRdr with
  | TarEOF => Ok nodeStateJson
  | TarFail err =>
      Err (errors_Wrap err "failed to read dyncluster node state file")
  | TarNext name body rest =>
      if negb (String.eqb name "cbdyncluster/state")
      then ReadNodeState_loop rest nodeStateJson
      else
        match body with
        | Err err =>
            Err (errors_Wrap err "failed to read dyncluster node state data")
        | Ok stateBytes =>
            match json_Unmarshal stateBytes nodeStateJson with
            | (Some err, _) =>
                Err (errors_Wrap err "failed to parse dyncluster node state data")
            | (None, nodeStateJson) => ReadNodeState_loop rest nodeStateJson
            end
        end
  end.

Definition ReadNodeState (c : Controller) (containerID : string)
  : M W (result (option DockerNodeState.t)) :=
  Debug "reading node state" [zap_String "container" containerID];;
  r ← docker (CopyFromContainer containerID "/var/cbdyncluster");
  match r with
  | Err err => mret (Err (errors_Wrap err "failed to read dyncluster node state"))
  | Ok resp =>
      match ReadNodeState_loop resp None with
      | Err err => mret (Err err)
      | Ok None => mret (Ok None)
      | Ok (Some nodeStateJson) =>
          mret (Ok (Some (DockerNodeState.Build
                            (DockerNodeStateJson.Expiry nodeStateJson))))
      end
  end.

(** The loop of [ListNodes] over the containers. *)
Fixpoint ListNodes_loop (c : Controller) (containers : list Container)
    (nodes : list NodeInfo.t) : M W (list NodeInfo.t) :=
  match containers with
  | [] => mret nodes
  | container :: containers =>
      node ← lift (parseContainerInfo c container);
      match node with
      | None => ListNodes_loop c containers nodes
      | Some node =>
          r ← ReadNodeState c (NodeInfo.ContainerID node);
          let node :=
            match r with
            | Ok (Some nodeState) =>
                NodeInfo.with_Expiry node (DockerNodeState.Expiry nodeState)
            | _ => node
            end in
          ListNodes_loop c containers (nodes ++ [node])
      end
  end.

Definition ListNodes (c : Controller) : M W (result (list NodeInfo.t)) :=
  Debug "listing nodes" [];;
  r ← docker ContainerList;
  match r with
  | Err err => mret (Err (errors_Wrap err "failed to list containers"))
  | Ok containers =>
      Debug "received initial container list, reading states" [];;
      nodes ← ListNodes_loop c containers [];
      mret (Ok nodes)
  end.

(** The inner loop of [RemoveNode] that sets [foundNode]. *)
Definition foundNode (nodes : list NodeInfo.t) (containerID : string) : bool :=
  fold_left
    (fun found node =>
       if String.eqb (NodeInfo.ContainerID node) containerID then true else found)
    nodes false.

(** The loop of [RemoveNode] that waits for the removal: [Some err] when the
    function returns from inside the loop, [None] when the loop ends. *)
Fixpoint RemoveNode_wait (fuel : nat) (c : Controller) (containerID : string)
  : M W (option error) :=
  match fuel with
  | O => fun _ => OutOfFuel
  | S fuel =>
      r ← ListNodes c;
      match r with
      | Err err => mret (Some (errors_Wrap err "failed to list nodes"))
      | Ok nodes =>
          if foundNode nodes containerID
          then docker (fun w => (tt, Sleep w));; RemoveNode_wait fuel c containerID
          else mret None
      end
  end.

Definition RemoveNode (fuel : nat) (c : Controller) (containerID : string)
  : M W (option error) :=
  let logger := [zap_String "container" containerID] in
  Debug "removing node" logger;;
  Debug "stopping container" logger;;
  err ← docker (ContainerStop containerID);
  match err with
  | Some err => mret (Some (errors_Wrap err "failed to stop container"))
  | None =>
      Debug "removing container" logger;;
      docker (ContainerRemove containerID);;
      Debug "waiting for container to disappear" logger;;
      r ← RemoveNode_wait fuel c containerID;
      match r with
      | Some err => mret (Some err)
      | None => Debug "node has been removed!" logger;; mret None
      end
  end.

Definition execCmd (c : Controller) (containerID : string) (cmd : list string)
  : M W (option error) :=
  Debug "executing cmd"
    [zap_String "containerID" containerID; zap_Strings "cmd" cmd];;
  docker (Exec containerID cmd).

Definition execIptables (c : Controller) (containerID : string)
    (args : list string) : M W (option error) :=
  err ← execCmd c containerID ("iptables" :: args);
  match err with
  | None => mret None
  | Some _ =>
      Debug "failed to execute iptables, attempting to install" [];;
      err ← execCmd c containerID ["apt-get"; "update"];
      match err with
      | Some err => mret (Some (errors_Wrap err "failed to update apt"))
      | None =>
          err ← execCmd c containerID ["apt-get"; "-y"; "install"; "iptables"];
          match err with
          | Some err => mret (Some (errors_Wrap err "failed to install iptables"))
          | None =>
              err ← execCmd c containerID ("iptables" :: args);
              match err with
              | Some err =>
                  mret (Some (errors_Wrap err "failed to execute iptables command"))
              | None => mret None
              end
          end
      end
  end.

(** The two rules of [SetTrafficControl] for [blocked]. *)
Definition SetTrafficControl_block (c : Controller) (containerID : string)
    (ipRange gatewayIP : string) : M W (option error) :=
  err ← execIptables c containerID ["-I"; "INPUT"; "-s"; ipRange; "-j"; "DROP"];
  match err with
  | Some err => mret (Some (errors_Wrap err "failed to create iptables rule"))
  | None =>
      err ← execIptables c containerID
              ["-I"; "INPUT"; "-s"; gatewayIP; "-j"; "ACCEPT"];
      match err with
      | Some err => mret (Some (errors_Wrap err "failed to create iptables rule"))
      | None => mret None
      end
  end.

Definition SetTrafficControl (c : Controller) (containerID : string)
    (blocked : bool) : M W (option error) :=
  let logger := [zap_String "container" containerID] in
  Debug "setting up traffic control" (logger ++ [zap_Bool "blocked" blocked]);;
  r ← docker (NetworkInspect (NetworkName c));
  match r with
  | Err err => mret (Some (errors_Wrap err "failed to inspect network"))
  | Ok netInfo =>
      if Nat.ltb (length (IPAM_Config netInfo)) 1
      then mret (Some (errors_New
                         "more than one ipam config, cannot identify node subnet"))
      else
        match IPAM_Config netInfo !! 0%nat with
        | None => fun _ => Panicked "index out of range"
        | Some ipamConfig =>
            let gatewayIP := Gateway ipamConfig in
            let ipRange :=
              if negb (String.eqb (IPRange ipamConfig) EmptyString)
              then IPRange ipamConfig else Subnet ipamConfig in
            if String.eqb ipRange EmptyString || String.eqb gatewayIP EmptyString
            then mret (Some (errors_New "failed to identify subnet or gateway ip"))
            else
              err ← execIptables c containerID ["-F"];
              match err with
              | Some err => mret (Some (errors_Wrap err "failed to clear iptables"))
              | None =>
                  err ← (if blocked
                         then SetTrafficControl_block c containerID ipRange gatewayIP
                         else mret None);
                  match err with
                  | Some err => mret (Some err)
                  | None =>
                      err ← execIptables c containerID ["-S"];
                      match err with
                      | Some err =>
                          Debug "failed to print iptables state" [zap_Error "error" err]
                      | None => mret tt
                      end;;
                      Debug "traffic control has been set up!" logger;;
                      mret None
                  end
              end
        end
  end.

End ControllerCode.

(** ** A reference backend

    An in-memory Docker daemon: containers with labels, a file system and a
    packet filter, and the networks with their address blocks.  It follows
    the Docker Engine API for the calls of [DockerCli]. *)

Module MemDaemon.

(** The packet filter of a container: the rules of its INPUT chain, the
    first rule first. *)
Inductive Target := ACCEPT | DROP.
Record Rule := { rule_source : string; rule_target : Target }.

Record MemContainer := {
  info : Container;
  running : bool;
  autoRemove : bool;
  files : gmap string (list Byte.byte);
  iptablesInstalled : bool;
  inputChain : list Rule
}.

Record t := {
  containers : list MemContainer;
  networks : gmap string NetworkResource
}.

Definition has_id (containerID : string) (mc : MemContainer) : bool :=
  String.eqb (ID (info mc)) containerID.

Definition find_container (d : t) (containerID : string) : option MemContainer :=
  List.find (has_id containerID) (containers d).

Definition update_container (d : t) (containerID : string)
    (f : MemContainer -> MemContainer) : t :=
  {| containers :=
       map (fun mc => if has_id containerID mc then f mc else mc) (containers d);
     networks := networks d |}.

Definition remove_container (d : t) (containerID : string) : t :=
  {| containers :=
       List.filter (fun mc => negb (has_id containerID mc)) (containers d);
     networks := networks d |}.

Definition no_such_container (containerID : string) : error :=
  "No such container: " +:+ containerID.

(** *** Paths *)

Fixpoint strip_prefix (p s : string) : option string :=
  match p with
  | EmptyString => Some s
  | String a p' =>
      match s with
      | EmptyString => None
      | String b s' => if Ascii.eqb a b then strip_prefix p' s' else None
      end
  end.

Fixpoint basename_from (acc s : string) : string :=
  match s with
  | EmptyString => acc
  | String c s' =>
      if Ascii.eqb c "/" then basename_from EmptyString s'
      else basename_from (acc +:+ String c EmptyString) s'
  end.

(** The last element of a path. *)
Definition basename (path : string) : string := basename_from EmptyString path.

Fixpoint ends_with_slash (s : string) : bool :=
  match s with
  | EmptyString => false
  | String c EmptyString => Ascii.eqb c "/"
  | String _ s' => ends_with_slash s'
  end.

Definition path_join (dir name : string) : string :=
  if ends_with_slash dir then dir +:+ name else dir +:+ "/" +:+ name.

(** *** The file system of a container *)

(** The files below the directory [srcPath], with their paths relative to
    it. *)
Definition files_below (srcPath : string) (fs : gmap string (list Byte.byte))
  : list (string * list Byte.byte) :=
  omap (fun '(path, data) =>
          rel ← strip_prefix (srcPath +:+ "/") path; Some (rel, data))
    (map_to_list fs).

Definition is_dir (fs : gmap string (list Byte.byte)) (path : string) : bool :=
  match files_below path fs with
  | [] => false
  | _ :: _ => true
  end.

(** Whether a regular file lies on the way to [path]. *)
Definition below_file (fs : gmap string (list Byte.byte)) (path : string) : bool :=
  existsb (fun '(k, _) =>
             match strip_prefix (k +:+ "/") path with
             | Some _ => true
             | None => false
             end)
    (map_to_list fs).

(** Extraction of an archive into the directory [dstPath], which is taken to
    exist; directories are not recorded, a directory exists when a file lies
    below it.  A file replaces a file; it replaces no directory and has no
    file as an ancestor. *)
Definition extract_file (dstPath : string) (f : tar_file)
    (fs : gmap string (list Byte.byte)) : result (gmap string (list Byte.byte)) :=
  let path := path_join dstPath (tar_Name f) in
  if is_dir fs path then Err ("cannot overwrite directory " +:+ path)
  else if below_file fs path then Err ("not a directory: " +:+ path)
  else Ok (<[path := tar_Data f]> fs).

Fixpoint extract (dstPath : string) (archive : list tar_file)
    (fs : gmap string (list Byte.byte)) : result (gmap string (list Byte.byte)) :=
  match archive with
  | [] => Ok fs
  | f :: archive =>
      match extract_file dstPath f fs with
      | Err err => Err err
      | Ok fs => extract dstPath archive fs
      end
  end.

(** The archive of [srcPath]: a file as one entry under its base name; a
    directory as an entry for itself and one for every file below, named from
    the base name of the directory. *)
Definition archive_of (srcPath : string) (fs : gmap string (list Byte.byte))
  : option tar_stream :=
  match fs !! srcPath with
  | Some data => Some (TarNext (basename srcPath) (Ok data) TarEOF)
  | None =>
      match files_below srcPath fs with
      | [] => None
      | below =>
          Some (TarNext (basename srcPath +:+ "/") (Ok [])
                  (foldr (fun '(rel, data) rest =>
                            TarNext (basename srcPath +:+ "/" +:+ rel) (Ok data) rest)
                     TarEOF below))
      end
  end.

(** *** Commands inside a container *)

Definition parse_target (s : string) : option Target :=
  if String.eqb s "ACCEPT" then Some ACCEPT
  else if String.eqb s "DROP" then Some DROP
  else None.

Fixpoint cmd_eqb (a b : list string) : bool :=
  match a, b with
  | [], [] => true
  | x :: a, y :: b => String.eqb x y && cmd_eqb a b
  | _, _ => false
  end.

(** [iptables] with the arguments the controller passes: [-F] flushes,
    [-I INPUT -s source -j target] inserts a rule at the head of the chain,
    [-S] prints. *)
Definition iptables (args : list string) (chain : list Rule)
  : result (list Rule) :=
  if cmd_eqb args ["-F"] then Ok []
  else if cmd_eqb args ["-S"] then Ok chain
  else
    match args with
    | [i; table; s; source; j; target] =>
        if String.eqb i "-I" && String.eqb table "INPUT"
           && String.eqb s "-s" && String.eqb j "-j"
        then
          match parse_target target with
          | Some tgt =>
              Ok ({| rule_source := source; rule_target := tgt |} :: chain)
          | None => Err "iptables: bad target"
          end
        else Err "iptables: bad arguments"
    | _ => Err "iptables: bad arguments"
    end.

Definition run (cmd : list string) (mc : MemContainer)
  : option error * MemContainer :=
  match cmd with
  | [] => (Some "exec: no command", mc)
  | prog :: args =>
      if String.eqb prog "iptables" then
        if negb (iptablesInstalled mc)
        then (Some "exec: iptables: executable file not found in $PATH", mc)
        else
          match iptables args (inputChain mc) with
          | Err err => (Some err, mc)
          | Ok chain =>
              (None, {| info := info mc; running := running mc;
                        autoRemove := autoRemove mc; files := files mc;
                        iptablesInstalled := iptablesInstalled mc;
                        inputChain := chain |})
          end
      else if cmd_eqb cmd ["apt-get"; "update"] then (None, mc)
      else if cmd_eqb cmd ["apt-get"; "-y"; "install"; "iptables"] then
        (None, {| info := info mc; running := running mc;
                  autoRemove := autoRemove mc; files := files mc;
                  iptablesInstalled := true; inputChain := inputChain mc |})
      else (Some "exec: command not found", mc)
  end.

(** The fate of a packet on the INPUT chain: the first rule whose source
    matches decides; the policy of the chain is ACCEPT.  [src_match source
    addr] says whether the source specification of a rule matches the source
    address of the packet. *)
Fixpoint verdict (src_match : string -> string -> bool) (chain : list Rule)
    (addr : string) : Target :=
  match chain with
  | [] => ACCEPT
  | rule :: chain =>
      if src_match (rule_source rule) addr then rule_target rule
      else verdict src_match chain addr
  end.

(** *** The calls *)

Definition mem_ContainerList (d : t) : result (list Container) * t :=
  (Ok (map info (containers d)), d).

Definition mem_CopyToContainer (containerID dstPath : string)
    (archive : list tar_file) (d : t) : option error * t :=
  match find_container d containerID with
  | None => (Some (no_such_container containerID), d)
  | Some mc =>
      match extract dstPath archive (files mc) with
      | Err err => (Some err, d)
      | Ok fs =>
          (None,
           update_container d containerID
             (fun mc => {| info := info mc; running := running mc;
                           autoRemove := autoRemove mc; files := fs;
                           iptablesInstalled := iptablesInstalled mc;
                           inputChain := inputChain mc |}))
      end
  end.

Definition mem_CopyFromContainer (containerID srcPath : string) (d : t)
  : result tar_stream * t :=
  match find_container d containerID with
  | None => (Err (no_such_container containerID), d)
  | Some mc =>
      match archive_of srcPath (files mc) with
      | None =>
          (Err ("Could not find the file " +:+ srcPath +:+ " in container "
                +:+ containerID), d)
      | Some resp => (Ok resp, d)
      end
  end.

(** Stopping a stopped container succeeds; a container created with
    [AutoRemove] is removed when it stops.  This daemon tears a container
    down within the call, where Docker does it in the background, which is
    what the wait of [RemoveNode] is for: what a removal leaves behind on a
    daemon that is slower is not to be read off this model. *)
Definition mem_ContainerStop (containerID : string) (d : t) : option error * t :=
  match find_container d containerID with
  | None => (Some (no_such_container containerID), d)
  | Some mc =>
      if autoRemove mc then (None, remove_container d containerID)
      else
        (None,
         update_container d containerID
           (fun mc => {| info := info mc; running := false;
                         autoRemove := autoRemove mc; files := files mc;
                         iptablesInstalled := iptablesInstalled mc;
                         inputChain := inputChain mc |}))
  end.

Definition mem_ContainerRemove (containerID : string) (d : t) : option error * t :=
  match find_container d containerID with
  | None => (Some (no_such_container containerID), d)
  | Some mc =>
      if running mc
      then (Some "You cannot remove a running container", d)
      else (None, remove_container d containerID)
  end.

Definition mem_NetworkInspect (name : string) (d : t)
  : result NetworkResource * t :=
  match networks d !! name with
  | None => (Err ("network " +:+ name +:+ " not found"), d)
  | Some net => (Ok net, d)
  end.

Definition mem_Exec (containerID : string) (cmd : list string) (d : t)
  : option error * t :=
  match find_container d containerID with
  | None => (Some (no_such_container containerID), d)
  | Some mc =>
      if negb (running mc) then (Some "Container is not running", d)
      else
        let '(err, mc') := run cmd mc in
        (err, update_container d containerID (fun _ => mc'))
  end.

#[global] Instance cli : DockerCli t := {
  ContainerList := mem_ContainerList;
  CopyToContainer := mem_CopyToContainer;
  CopyFromContainer := mem_CopyFromContainer;
  ContainerStop := mem_ContainerStop;
  ContainerRemove := mem_ContainerRemove;
  NetworkInspect := mem_NetworkInspect;
  Exec := mem_Exec;
  Sleep := fun d => d
}.

End MemDaemon.

(** ** A reference codec

    A codec for [Json] whose documents are [null], [{}] and an object with
    the one member [Expiry], the instant in decimal.  As [json.Marshal] does,
    it refuses a time whose year is outside of the range [0,9999]. *)

Module NanoCodec.

Definition quote : string := String "034" EmptyString.

Definition member : string := "{" +:+ quote +:+ "Expiry" +:+ quote +:+ ":".

(** The first instant of the year 0 and of the year 10000. *)
Definition year_0 : time.Time := -62167219200 * 1000000000.
Definition year_10000 : time.Time := 253402300800 * 1000000000.

Definition Marshal (v : DockerNodeStateJson.t) : result (list Byte.byte) :=
  let t := DockerNodeStateJson.Expiry v in
  if (t <? year_0) || (year_10000 <=? t)
  then Err "Time.MarshalJSON: year outside of range [0,9999]"
  else Ok (list_byte_of_string
             (member +:+ DecimalString.NilZero.string_of_int (Z.to_int t) +:+ "}")).

Fixpoint strip_suffix_brace (s : string) : option string :=
  match s with
  | EmptyString => None
  | String c EmptyString => if Ascii.eqb c "}" then Some EmptyString else None
  | String c s' => String c <$> strip_suffix_brace s'
  end.

Definition decode (data : list Byte.byte) : json_doc :=
  let s := string_of_list_byte data in
  if String.eqb s "null" then JNull
  else if String.eqb s "{}" then JObject None
  else
    match MemDaemon.strip_prefix member s ≫= strip_suffix_brace with
    | None => JInvalid "invalid character"
    | Some digits =>
        match DecimalString.NilZero.int_of_string digits with
        | None => JInvalid "invalid character"
        | Some i => JObject (Some (Z.of_int i))
        end
    end.

#[global] Instance json : Json := {
  json_Marshal := Marshal;
  json_decode := decode
}.

End NanoCodec.

(** ** A backend with a canned archive

    A backend whose state is the answer it gives to every
    [CopyFromContainer]; the other calls fail. *)

Module Canned.

Definition unsupported : error := "not supported".

#[global] Instance cli : DockerCli (result tar_stream) := {
  ContainerList := fun w => (Err unsupported, w);
  CopyToContainer := fun _ _ _ w => (Some unsupported, w);
  CopyFromContainer := fun _ _ w => (w, w);
  ContainerStop := fun _ w => (Some unsupported, w);
  ContainerRemove := fun _ w => (Some unsupported, w);
  NetworkInspect := fun _ w => (Err unsupported, w);
  Exec := fun _ _ w => (Some unsupported, w);
  Sleep := fun w => w
}.

Definition start (resp : tar_stream) : state (result tar_stream) :=
  State (Ok resp) [].

End Canned.

(** ** Example states of the reference backend *)

Module Examples.
Import MemDaemon.

Definition ctrl : Controller := {| NetworkName := "dyncluster" |}.

Definition node_labels : gmap string string :=
  <["com.couchbase.dyncluster.cluster_id" := "cluster-a"]>
    (<["com.couchbase.dyncluster.node_id" := "node-1"]>
       (<["com.couchbase.dyncluster.purpose" := "test"]> ∅)).

Definition attached : option SummaryNetworkSettings :=
  Some {| Networks := [("dyncluster", Some {| IPAddress := "172.18.0.2" |})] |}.

(** A managed node, a container of somebody else, and a labelled container
    that is attached to no network. *)
Definition node1 : MemContainer :=
  {| info := {| ID := "c1"; Labels := node_labels; NetworkSettings := attached |};
     running := true; autoRemove := true; files := ∅;
     iptablesInstalled := false; inputChain := [] |}.

Definition foreign : MemContainer :=
  {| info := {| ID := "c0"; Labels := ∅; NetworkSettings := attached |};
     running := true; autoRemove := false; files := ∅;
     iptablesInstalled := true; inputChain := [] |}.

Definition detached : MemContainer :=
  {| info := {| ID := "c2"; Labels := node_labels;
                NetworkSettings := Some {| Networks := [] |} |};
     running := false; autoRemove := false; files := ∅;
     iptablesInstalled := false; inputChain := [] |}.

Definition one_block : NetworkResource :=
  {| IPAM_Config :=
       [{| Subnet := "172.18.0.0/16"; IPRange := EmptyString; Gateway := "172.18.0.1" |}] |}.

Definition two_blocks : NetworkResource :=
  {| IPAM_Config :=
       [{| Subnet := "172.18.0.0/16"; IPRange := EmptyString; Gateway := "172.18.0.1" |};
        {| Subnet := "172.19.0.0/16"; IPRange := EmptyString; Gateway := "172.19.0.1" |}] |}.

Definition daemon : MemDaemon.t :=
  {| containers := [foreign; node1];
     networks := <["dyncluster" := one_block]> ∅ |}.

Definition daemon_two_blocks : MemDaemon.t :=
  {| containers := [foreign; node1];
     networks := <["dyncluster" := two_blocks]> ∅ |}.

Definition daemon_detached : MemDaemon.t :=
  {| containers := [node1; detached];
     networks := <["dyncluster" := one_block]> ∅ |}.

Definition start (d : MemDaemon.t) : state MemDaemon.t := State d [].

Definition expiry : DockerNodeState.t := DockerNodeState.Build 1700000000000000000.

(** Which source specifications of the example network match an address:
    an address matches itself, and the subnet matches what starts with its
    first two numbers. *)
Definition src_match (source addr : string) : bool :=
  String.eqb source addr
  || (String.eqb source "172.18.0.0/16" && String.prefix "172.18." addr).

End Examples.

(** ** Example archives *)

Module Archives.

Definition valid_state : list Byte.byte :=
  list_byte_of_string
    (NanoCodec.member +:+ "1700000000000000000" +:+ "}").
Definition later_state : list Byte.byte :=
  list_byte_of_string
    (NanoCodec.member +:+ "1800000000000000000" +:+ "}").
Definition null_state : list Byte.byte := list_byte_of_string "null".
Definition empty_object : list Byte.byte := list_byte_of_string "{}".
Definition garbage : list Byte.byte := list_byte_of_string "garbage".

(** The archive of a state directory that holds another file only. *)
Definition without_state : tar_stream :=
  TarNext "cbdyncluster/" (Ok [])
    (TarNext "cbdyncluster/notes" (Ok garbage) TarEOF).

Definition only_valid : tar_stream :=
  TarNext "cbdyncluster/state" (Ok valid_state) TarEOF.

Definition only_empty_object : tar_stream :=
  TarNext "cbdyncluster/state" (Ok empty_object) TarEOF.

Definition valid_then_null : tar_stream :=
  TarNext "cbdyncluster/" (Ok [])
    (TarNext "cbdyncluster/state" (Ok valid_state)
       (TarNext "cbdyncluster/state" (Ok null_state) TarEOF)).

Definition valid_then_later : tar_stream :=
  TarNext "cbdyncluster/state" (Ok valid_state)
    (TarNext "cbdyncluster/state" (Ok later_state) TarEOF).

Definition garbage_then_valid : tar_stream :=
  TarNext "cbdyncluster/state" (Ok garbage)
    (TarNext "cbdyncluster/state" (Ok valid_state) TarEOF).

Definition valid_then_empty_object : tar_stream :=
  TarNext "cbdyncluster/state" (Ok valid_state)
    (TarNext "cbdyncluster/state" (Ok empty_object) TarEOF).

End Archives.

(** ** Vocabulary of the properties *)

Definition state_file : string := "cbdyncluster/state".
Definition cluster_id_label : string := "com.couchbase.dyncluster.cluster_id".

(** The network endpoints attached to a container. *)
Definition endpoints (container : Container)
  : list (string * option EndpointSettings) :=
  match NetworkSettings container with
  | None => []
  | Some settings => Networks settings
  end.

(** What [ListNodes] keeps of a container: a node with the container's
    identifier and its cluster label, which is not empty. *)
Definition node_of (containers : list Container) (node : NodeInfo.t) : Prop :=
  NodeInfo.ClusterID node <> EmptyString
  /\ exists container,
       container ∈ containers
       /\ ID container = NodeInfo.ContainerID node
       /\ Labels container !! cluster_id_label = Some (NodeInfo.ClusterID node).

(** Whether an archive has an entry of the given name. *)
Fixpoint has_entry (name : string) (resp : tar_stream) : bool :=
  match resp with
  | TarEOF | TarFail _ => false
  | TarNext name' _ rest => String.eqb name' name || has_entry name rest
  end.

(** Whether the archive arrives whole: the reader reaches [io.EOF]. *)
Fixpoint delivered (resp : tar_stream) : bool :=
  match resp with
  | TarEOF => true
  | TarFail _ => false
  | TarNext _ _ rest => delivered rest
  end.

(** The bodies of the entries of the given name, in archive order. *)
Fixpoint entries_named (name : string) (resp : tar_stream)
  : list (result (list Byte.byte)) :=
  match resp with
  | TarEOF | TarFail _ => []
  | TarNext name' body rest =>
      if String.eqb name' name then body :: entries_named name rest
      else entries_named name rest
  end.

(** Whether an entry is read and decoded without an error. *)
Definition decodes {J : Json} (body : result (list Byte.byte)) : Prop :=
  match body with
  | Err _ => False
  | Ok data =>
      match json_decode data with
      | JInvalid _ => False
      | _ => True
      end
  end.

(** What [ReadNodeState] returns for a resource whose state file holds the
    one document [data]: what [json.Unmarshal] makes of it, into a nil
    pointer. *)
Definition read_back {J : Json} (data : list Byte.byte)
  : result (option DockerNodeState.t) :=
  match json_decode data with
  | JInvalid err =>
      Err (errors_Wrap err "failed to parse dyncluster node state data")
  | JNull => Ok None
  | JObject expiry =>
      Ok (Some (DockerNodeState.Build (default time.zero expiry)))
  end.

(** The commands passed to [execCmd], by the log. *)
Definition commands_of (entries : list LogEntry) : list (list string) :=
  omap (fun entry =>
          if String.eqb (log_msg entry) "executing cmd" then
            match log_fields entry with
            | [_; zap_Strings _ cmd] => Some cmd
            | _ => None
            end
          else None)
    entries.

Definition executed {W : Type} (st : state W) : list (list string) :=
  commands_of (logged st).

(** The result of a call, without the state. *)
Definition result_of {A S : Type} (o : outcome (A * S)) : outcome A :=
  match o with
  | Returned (a, _) => Returned a
  | Panicked msg => Panicked msg
  | OutOfFuel => OutOfFuel
  end.

(** What [CopyFromContainer] hands over for a resource without a state file:
    an archive without an entry of that name, or an error. *)
Definition no_state_entry (r : result tar_stream) : Prop :=
  match r with
  | Ok resp => has_entry state_file resp = false
  | Err _ => True
  end.

(** The backend delivers the archive: the call succeeds and the archive
    arrives whole. *)
Definition archive_delivered (r : result tar_stream) : Prop :=
  match r with
  | Ok resp => delivered resp = true
  | Err _ => False
  end.

(** The backend after the commands [cmds] ran in the container, one after
    the other, and the error of a command. *)
Definition exec_after {W : Type} {D : DockerCli W} (containerID : string)
    (cmds : list (list string)) (w : W) : W :=
  fold_left (fun w cmd => (Exec containerID cmd w).2) cmds w.

Definition exec_error {W : Type} {D : DockerCli W} (containerID : string)
    (cmd : list string) (w : W) : option error :=
  (Exec containerID cmd w).1.

Definition apt_update : list string := ["apt-get"; "update"].
Definition apt_install : list string := ["apt-get"; "-y"; "install"; "iptables"].

(** The state in which [RemoveNode] starts to wait, when the stop request
    succeeded: the removal is requested, whatever its result. *)
Definition removal_requested {W : Type} {D : DockerCli W}
    (containerID : string) (st : state W) : state W :=
  let logger := [zap_String "container" containerID] in
  State (ContainerRemove containerID (ContainerStop containerID (world st)).2).2
    ((((logged st ++ [Build_LogEntry "removing node" logger])
         ++ [Build_LogEntry "stopping container" logger])
        ++ [Build_LogEntry "removing container" logger])
       ++ [Build_LogEntry "waiting for container to disappear" logger]).

(** [waits c containerID n st st']: from [st], [n] rounds of the wait of
    [RemoveNode] pass, in each of which the listing succeeds and shows the
    identifier and the controller sleeps, and lead to [st']. *)
Inductive waits {W : Type} {D : DockerCli W} {J : Json} (c : Controller)
    (containerID : string) : nat -> state W -> state W -> Prop :=
| waits_O st : waits c containerID O st st
| waits_S n st nodes st1 st' :
    ListNodes c st = Returned (Ok nodes, st1) ->
    foundNode nodes containerID = true ->
    waits c containerID n (State (Sleep (world st1)) (logged st1)) st' ->
    waits c containerID (S n) st st'.

(** The container [mc] is the one with the identifier [containerID] in the
    reference backend, and it is running. *)
Definition at_container (st : state MemDaemon.t) (containerID : string)
    (mc : MemDaemon.MemContainer) : Prop :=
  MemDaemon.find_container (world st) containerID = Some mc
  /\ MemDaemon.running mc = true.

(** The node-addressing range of an address block: the allocation range when
    there is one, the subnet otherwise. *)
Definition node_range (block : IPAMConfig) : string :=
  if negb (String.eqb (IPRange block) EmptyString) then IPRange block else Subnet block.

(** ** Vocabulary of further properties *)

(** Whether a container carries a cluster label that is not empty. *)
Definition labelled (container : Container) : bool :=
  negb (String.eqb (label container cluster_id_label) EmptyString).

(** [node] is what [ListNodes] makes of [container]: the node that
    [parseContainerInfo] returns, with some expiry. *)
Definition listed_as (c : Controller) (container : Container)
    (node : NodeInfo.t) : Prop :=
  exists node0,
    parseContainerInfo c container = Returned (Some node0)
    /\ node = NodeInfo.with_Expiry node0 (NodeInfo.Expiry node).

(** The reference backend away from the container [containerID]: the
    networks and the other containers are the same in [d] and [d']. *)
Definition same_elsewhere (containerID : string) (d d' : MemDaemon.t) : Prop :=
  MemDaemon.networks d' = MemDaemon.networks d
  /\ forall other, other <> containerID ->
       MemDaemon.find_container d' other = MemDaemon.find_container d other.

(** A backend on which a node never goes away: the listing always shows the
    same labelled container, and stop and removal requests are accepted. *)
Module Stuck.

Definition node : Container :=
  {| ID := "c1";
     Labels := <["com.couchbase.dyncluster.cluster_id" := "cluster-a"]> ∅;
     NetworkSettings :=
       Some {| Networks := [("dyncluster", Some {| IPAddress := "172.18.0.2" |})] |} |}.

#[global] Instance cli : DockerCli unit := {
  ContainerList := fun w => (Ok [node], w);
  CopyToContainer := fun _ _ _ w => (None, w);
  CopyFromContainer := fun _ _ w => (Err "no such path", w);
  ContainerStop := fun _ w => (None, w);
  ContainerRemove := fun _ w => (None, w);
  NetworkInspect := fun _ w => (Err "no such network", w);
  Exec := fun _ _ w => (Some "not running", w);
  Sleep := fun w => w
}.

Definition start : state unit := State tt [].

End Stuck.

(** A backend on which a container of somebody else never goes away: the
    listing always shows the same container without a cluster label, and
    stop and removal requests are accepted. *)
Module Lingering.

Definition foreign : Container :=
  {| ID := "c0";
     Labels := ∅;
     NetworkSettings :=
       Some {| Networks := [("bridge", Some {| IPAddress := "172.17.0.2" |})] |} |}.

Definition cli : DockerCli unit := {|
  ContainerList := fun w => (Ok [foreign], w);
  CopyToContainer := fun _ _ _ w => (None, w);
  CopyFromContainer := fun _ _ w => (Err "no such path", w);
  ContainerStop := fun _ w => (None, w);
  ContainerRemove := fun _ w => (None, w);
  NetworkInspect := fun _ w => (Err "no such network", w);
  Exec := fun _ _ w => (Some "not running", w);
  Sleep := fun w => w
|}.

Definition start : state unit := State tt [].

End Lingering.

(** What [NetworkInspect] returns when [SetTrafficControl] cannot resolve
    the addresses: an error, no address block, or a first block without a
    node range or without a gateway. *)
Definition unresolved (r : result NetworkResource) : Prop :=
  match r with
  | Err _ => True
  | Ok netInfo =>
      match IPAM_Config netInfo with
      | [] => True
      | block :: _ =>
          node_range block = EmptyString \/ Gateway block = EmptyString
      end
  end.

(** The expiry that [ListNodes] takes from [ReadNodeState] for a container:
    the stored one, and the zero time when the read fails or finds no
    state. *)
Definition stored_expiry {J : Json} {W : Type} {D : DockerCli W}
    (c : Controller) (st : state W) (containerID : string) : time.Time :=
  match result_of (ReadNodeState c containerID st) with
  | Returned (Ok (Some nodeState)) => DockerNodeState.Expiry nodeState
  | _ => time.zero
  end.

(** A backend whose reads of the state directory leave it as it is. *)
Definition reads_keep {W : Type} {D : DockerCli W} : Prop :=
  forall containerID w,
    (CopyFromContainer containerID "/var/cbdyncluster" w).2 = w.

(** The expiry that [ListNodes] takes for a container whose state file holds
    the one document [data]. *)
Definition read_back_expiry {J : Json} (data : list Byte.byte) : time.Time :=
  match read_back data with
  | Ok (Some nodeState) => DockerNodeState.Expiry nodeState
  | _ => time.zero
  end.

(** An image descriptor whose version carries the prefix that
    [CompareImageDefs] adds itself. *)
Definition image_v7_1_0 : ImageDef :=
  {| Version := "v7.1.0"; BuildNo := 12; UseCommunityEdition := false;
     UseServerless := false; UseColumnar := false |}.

(** Two descriptors that differ in the build metadata of the version only. *)
Definition image_7_1_0_build_a : ImageDef :=
  {| Version := "7.1.0+a"; BuildNo := 12; UseCommunityEdition := false;
     UseServerless := false; UseColumnar := false |}.

(** ** controller.go: DeployNode *)

Module DeployNodeOptions.
(** [Expiry] is a [time.Duration], in nanoseconds; [Image] is a pointer. *)
Record t := Build {
  Purpose : string;
  Expiry : Z;
  ClusterID : string;
  Image : option ImageRef;
  ImageServerVersion : string
}.
End DeployNodeOptions.

(** [container.Config] and [container.HostConfig], with the members that
    [DeployNode] sets. *)
Module container.
Record Config := Build_Config {
  Image : string;
  Labels : gmap string string;
  Volumes : gset string
}.
Record HostConfig := Build_HostConfig {
  AutoRemove : bool;
  NetworkMode : string;
  CapAdd : list string
}.
End container.

(** What [DeployNode] calls besides the calls of [DockerCli] above:
    [uuid.NewString], [ContainerCreate] (with the configuration, the host
    configuration and the name; it returns the identifier of the container)
    and [ContainerStart] on [DockerCli], [time.Now], and [WaitForOnline] of
    the [clustercontrol.NodeManager] with the given endpoint. *)
Class DeployEnv (W : Type) := {
  uuid_NewString : W -> string * W;
  ContainerCreate :
    container.Config -> container.HostConfig -> string -> W -> result string * W;
  ContainerStart : string -> W -> option error * W;
  time_Now : W -> time.Time * W;
  NodeManager_WaitForOnline : string -> W -> option error * W
}.

(** [t.Add(d)], on instants. *)
Definition time_Add (t : time.Time) (d : Z) : time.Time := t + d.

Definition nil_dereference : string :=
  "invalid memory address or nil pointer dereference".

Section DeployNodeCode.
Context {J : Json} {W : Type} {D : DockerCli W} {E : DeployEnv W}.

(** The labels of the container of a node. *)
Definition DeployNode_labels (def : DeployNodeOptions.t) (nodeID : string)
  : gmap string string :=
  <["com.couchbase.dyncluster.cluster_id" := DeployNodeOptions.ClusterID def]>
    (<["com.couchbase.dyncluster.purpose" := DeployNodeOptions.Purpose def]>
       (<["com.couchbase.dyncluster.node_id" := nodeID]>
          (<["com.couchbase.dyncluster.initial_server_version" :=
               DeployNodeOptions.ImageServerVersion def]> ∅))).

Definition DeployNode_config (def : DeployNodeOptions.t) (image : ImageRef)
    (nodeID : string) : container.Config :=
  container.Build_Config (ImagePath image) (DeployNode_labels def nodeID)
    {["/etc/localtime:/etc/localtime"]}.

Definition DeployNode_hostConfig (c : Controller) : container.HostConfig :=
  container.Build_HostConfig true (NetworkName c) ["NET_ADMIN"].

(** The loop of [DeployNode] over [allNodes], which sets [node]. *)
Definition DeployNode_pick (allNodes : list NodeInfo.t) (containerID : string)
  : option NodeInfo.t :=
  fold_left
    (fun node allNode =>
       if String.eqb (NodeInfo.ContainerID allNode) containerID
       then Some allNode else node)
    allNodes None.

(** [fmt.Sprintf("http://%s:%d", address, 8091)] *)
Definition DeployNode_endpoint (address : string) : string :=
  "http://" +:+ address +:+ ":8091".

(** [zap.Any("def", def)] renders the options by reflection; the log of the
    model keeps their string members, and nothing for a nil pointer. *)
Definition zap_def (key : string) (def : option DeployNodeOptions.t) : Field :=
  zap_Strings key
    match def with
    | None => []
    | Some def =>
        [DeployNodeOptions.Purpose def; DeployNodeOptions.ClusterID def;
         DeployNodeOptions.ImageServerVersion def]
    end.

(** [def] is a pointer; it and [def.Image] are dereferenced when the
    configuration of the container is built, after the first log entry. *)
Definition DeployNode (c : Controller) (def : option DeployNodeOptions.t)
  : M W (result NodeInfo.t) :=
  nodeID ← docker uuid_NewString;
  let logger := [zap_String "nodeId" nodeID] in
  Debug "deploying node" (logger ++ [zap_def "def" def]);;
  let containerName := "cbdynnode-" +:+ nodeID in
  match def with
  | None => lift (Panicked nil_dereference)
  | Some def =>
      match DeployNodeOptions.Image def with
      | None => lift (Panicked nil_dereference)
      | Some image =>
          createResult ← docker (ContainerCreate
                                   (DeployNode_config def image nodeID)
                                   (DeployNode_hostConfig c) containerName);
          match createResult with
          | Err err => mret (Err (errors_Wrap err "failed to create container"))
          | Ok containerID =>
              Debug "container created, starting"
                (logger ++ [zap_String "container" containerID]);;
              err ← docker (ContainerStart containerID);
              match err with
              | Some err =>
                  mret (Err (errors_Wrap err "failed to start container"))
              | None =>
                  now ← docker time_Now;
                  let expiryTime :=
                    time_Add now (DeployNodeOptions.Expiry def) in
                  err ← WriteNodeState c containerID
                          (DockerNodeState.Build expiryTime);
                  match err with
                  | Some err =>
                      mret (Err (errors_Wrap err "failed write node state"))
                  | None =>
                      r ← ListNodes c;
                      match r with
                      | Err err =>
                          mret (Err (errors_Wrap err "failed to list nodes"))
                      | Ok allNodes =>
                          match DeployNode_pick allNodes containerID with
                          | None =>
                              mret (Err (errors_New
                                           "failed to find newly created container"))
                          | Some node =>
                              Debug "container has started, waiting for it to get ready"
                                (logger ++ [zap_String "address"
                                              (NodeInfo.IPAddress node)]);;
                              err ← docker (NodeManager_WaitForOnline
                                              (DeployNode_endpoint
                                                 (NodeInfo.IPAddress node)));
                              match err with
                              | Some err =>
                                  mret (Err (errors_Wrap err
                                               "failed to wait for node readiness"))
                              | None =>
                                  Debug "container is ready!" logger;;
                                  mret (Ok node)
                              end
                          end
                      end
                  end
              end
          end
      end
  end.

End DeployNodeCode.

(** ** The reference backend, for one call of DeployNode

    [MemDeploy.env e] completes the in-memory daemon: [e] gives the
    identifier that [uuid.NewString] returns, the identifier that the daemon
    gives to the container it creates, the address that the network gives to
    it when it starts, the time of [time.Now], and the answer of
    [WaitForOnline] for an endpoint. *)
Module MemDeploy.
Import MemDaemon.

Record Env := {
  env_uuid : string;
  env_id : string;
  env_address : string;
  env_now : time.Time;
  env_ready : string -> option error
}.

(** A container as the daemon creates it: not started, with its own empty
    file system, attached to the network of the host configuration, without
    an address yet. *)
Definition created (e : Env) (config : container.Config)
    (hostConfig : container.HostConfig) : MemContainer :=
  {| info :=
       {| ID := env_id e;
          Labels := container.Labels config;
          NetworkSettings :=
            Some {| Networks :=
                      [(container.NetworkMode hostConfig,
                        Some {| IPAddress := EmptyString |})] |} |};
     running := false;
     autoRemove := container.AutoRemove hostConfig;
     files := ∅;
     iptablesInstalled := false;
     inputChain := [] |}.

Definition mem_ContainerCreate (e : Env) (config : container.Config)
    (hostConfig : container.HostConfig) (name : string) (d : t)
  : result string * t :=
  match find_container d (env_id e) with
  | Some _ =>
      (Err ("Conflict. The container name /" +:+ name +:+ " is already in use"), d)
  | None =>
      (Ok (env_id e),
       {| containers := created e config hostConfig :: containers d;
          networks := networks d |})
  end.

(** The networks a container is attached to must exist when it starts; it
    then gets its address on each of them. *)
Definition attachable (d : t) (mc : MemContainer) : bool :=
  match NetworkSettings (info mc) with
  | None => true
  | Some settings =>
      forallb (fun '(name, _) => bool_decide (is_Some (networks d !! name)))
        (Networks settings)
  end.

Definition started (e : Env) (mc : MemContainer) : MemContainer :=
  {| info :=
       {| ID := ID (info mc);
          Labels := Labels (info mc);
          NetworkSettings :=
            (fun settings =>
               {| Networks :=
                    map (fun '(name, _) =>
                           (name, Some {| IPAddress := env_address e |}))
                      (Networks settings) |})
            <$> NetworkSettings (info mc) |};
     running := true;
     autoRemove := autoRemove mc;
     files := files mc;
     iptablesInstalled := iptablesInstalled mc;
     inputChain := inputChain mc |}.

Definition mem_ContainerStart (e : Env) (containerID : string) (d : t)
  : option error * t :=
  match find_container d containerID with
  | None => (Some (no_such_container containerID), d)
  | Some mc =>
      if running mc then (None, d)
      else if negb (attachable d mc) then (Some "network not found", d)
      else (None, update_container d containerID (started e))
  end.

Definition env (e : Env) : DeployEnv t := {|
  uuid_NewString := fun d => (env_uuid e, d);
  ContainerCreate := mem_ContainerCreate e;
  ContainerStart := mem_ContainerStart e;
  time_Now := fun d => (env_now e, d);
  NodeManager_WaitForOnline := fun endpoint d => (env_ready e endpoint, d)
|}.

End MemDeploy.

(** An environment and options for the example daemon. *)
Module DeployExamples.

Definition env : MemDeploy.Env :=
  {| MemDeploy.env_uuid := "0b7e4c9a-6f0d-4c28-9d1b-3a5e2f7c8d90";
     MemDeploy.env_id := "c7";
     MemDeploy.env_address := "172.18.0.7";
     MemDeploy.env_now := 1700000000000000000;
     MemDeploy.env_ready := fun _ => None |}.

(** The same, with a node that does not get ready. *)
Definition env_not_ready : MemDeploy.Env :=
  {| MemDeploy.env_uuid := "0b7e4c9a-6f0d-4c28-9d1b-3a5e2f7c8d90";
     MemDeploy.env_id := "c7";
     MemDeploy.env_address := "172.18.0.7";
     MemDeploy.env_now := 1700000000000000000;
     MemDeploy.env_ready := fun _ => Some "context deadline exceeded" |}.

Definition options : DeployNodeOptions.t :=
  DeployNodeOptions.Build "test" 3600000000000 "cluster-b"
    (Some {| ImagePath := "couchbase/server:7.1.0" |}) "7.1.0".

Definition options_without_cluster : DeployNodeOptions.t :=
  DeployNodeOptions.Build "test" 3600000000000 EmptyString
    (Some {| ImagePath := "couchbase/server:7.1.0" |}) "7.1.0".

Definition options_without_image : DeployNodeOptions.t :=
  DeployNodeOptions.Build "test" 3600000000000 "cluster-b" None "7.1.0".

End DeployExamples.

(** The container of a node after a deployment on the reference backend, and
    the node that [DeployNode] returns for it; [data] is the JSON document of
    the node state. *)
Definition deployed (c : Controller) (def : DeployNodeOptions.t)
    (e : MemDeploy.Env) (data : list Byte.byte) : MemDaemon.MemContainer :=
  {| MemDaemon.info :=
       {| ID := MemDeploy.env_id e;
          Labels := DeployNode_labels def (MemDeploy.env_uuid e);
          NetworkSettings :=
            Some {| Networks :=
                      [(NetworkName c,
                        Some {| IPAddress := MemDeploy.env_address e |})] |} |};
     MemDaemon.running := true;
     MemDaemon.autoRemove := true;
     MemDaemon.files := <["/var/cbdyncluster/state" := data]> ∅;
     MemDaemon.iptablesInstalled := false;
     MemDaemon.inputChain := [] |}.

Definition deployed_node (def : DeployNodeOptions.t) (e : MemDeploy.Env)
    (expiry : time.Time) : NodeInfo.t :=
  NodeInfo.Build (MemDeploy.env_id e) (MemDeploy.env_uuid e)
    (DeployNodeOptions.ClusterID def) EmptyString EmptyString EmptyString
    (DeployNodeOptions.Purpose def) expiry (MemDeploy.env_address e)
    (DeployNodeOptions.ImageServerVersion def).

(** ** Version numbers *)

(** The number that a string of decimal digits denotes. *)
Definition digit (c : ascii) : Z := Z.of_N (N_of_ascii c) - 48.

Fixpoint number_from (acc : Z) (s : string) : Z :=
  match s with
  | EmptyString => acc
  | String c s' => number_from (10 * acc + digit c) s'
  end.

Definition number (s : string) : Z := number_from 0 s.

Fixpoint all_digits (s : string) : bool :=
  match s with
  | EmptyString => true
  | String c s' => GoString.is_digit c && all_digits s'
  end.

(** A numeral as [semver.parseInt] reads it: decimal digits, at least one,
    and no leading zero but in the numeral of zero. *)
Definition numeral (s : string) : bool :=
  match s with
  | EmptyString => false
  | String c s' =>
      all_digits s && (negb (Ascii.eqb c "0") || String.eqb s' EmptyString)
  end.

(** Where a numeral ends: at the end of the string or before a character
    that is no digit. *)
Definition stops (rest : string) : bool :=
  match rest with
  | EmptyString => true
  | String c _ => negb (GoString.is_digit c)
  end.

Definition version_of (major minor patch : string) : string :=
  major +:+ "." +:+ minor +:+ "." +:+ patch.

(** The order of the triples of numbers: by the first, then the second, then
    the third. *)
Definition numbers_cmp : Z * Z * Z -> Z * Z * Z -> Z :=
  then_cmp (on_cmp (fun t => t.1.1) zcmp)
    (then_cmp (on_cmp (fun t => t.1.2) zcmp) (on_cmp (fun t => t.2) zcmp)).

Definition image_7_9_0 : ImageDef :=
  {| Version := "7.9.0"; BuildNo := 4000; UseCommunityEdition := false;
     UseServerless := false; UseColumnar := false |}.
Definition image_7_10_0 : ImageDef :=
  {| Version := "7.10.0"; BuildNo := 12; UseCommunityEdition := true;
     UseServerless := false; UseColumnar := false |}.

(** * Part II: properties *)

(** ** Three-way comparators *)

Section Comparators.
Context {A : Type}.
Implicit Types cmp : A -> A -> Z.

Lemma cmp_refl cmp x : cmp_order cmp -> cmp x x = 0.
Proof. intros H. pose proof (cmp_antisym _ H x x). lia. Qed.

Lemma cmp_trans_ge cmp x y z :
  cmp_order cmp -> 0 <= cmp x y -> 0 <= cmp y z -> 0 <= cmp x z.
Proof.
  intros H Hxy Hyz.
  pose proof (cmp_antisym _ H x y). pose proof (cmp_antisym _ H y z).
  pose proof (cmp_antisym _ H x z).
  assert (cmp z x <= 0) by (apply (cmp_trans _ H z y x); lia).
  lia.
Qed.

Lemma cmp_eq_l cmp x y z :
  cmp_order cmp -> cmp x y = 0 -> cmp x z = cmp y z.
Proof.
  intros H Hxy.
  pose proof (cmp_antisym _ H x y) as Ayx.
  destruct (cmp_range _ H y z) as [Hyz | [Hyz | Hyz]].
  - assert (cmp x z <= 0) by (apply (cmp_trans _ H x y z); lia).
    destruct (Z.eq_dec (cmp x z) 0) as [E | E].
    + assert (0 <= cmp y z) by (apply (cmp_trans_ge cmp y x z H); lia). lia.
    + destruct (cmp_range _ H x z) as [? | [? | ?]]; lia.
  - assert (cmp x z <= 0) by (apply (cmp_trans _ H x y z); lia).
    assert (0 <= cmp x z) by (apply (cmp_trans_ge cmp x y z H); lia). lia.
  - assert (0 <= cmp x z) by (apply (cmp_trans_ge cmp x y z H); lia).
    destruct (Z.eq_dec (cmp x z) 0) as [E | E].
    + assert (cmp y z <= 0) by (apply (cmp_trans _ H y x z); lia). lia.
    + destruct (cmp_range _ H x z) as [? | [? | ?]]; lia.
Qed.

Lemma cmp_eq_r cmp x y z :
  cmp_order cmp -> cmp y z = 0 -> cmp x y = cmp x z.
Proof.
  intros H Hyz.
  pose proof (cmp_antisym _ H x y). pose proof (cmp_antisym _ H x z).
  pose proof (cmp_antisym _ H y z).
  assert (cmp z x = cmp y x) by (apply cmp_eq_l; [done | lia]).
  lia.
Qed.

Lemma cmp_lt_trans cmp x y z :
  cmp_order cmp -> cmp x y = -1 -> cmp y z = -1 -> cmp x z = -1.
Proof.
  intros H Hxy Hyz.
  assert (cmp x z <= 0) by (apply (cmp_trans _ H x y z); lia).
  destruct (cmp_range _ H x z) as [? | [E | ?]]; [done | | lia].
  assert (cmp x y = cmp z y) by (by apply cmp_eq_l).
  pose proof (cmp_antisym _ H y z). lia.
Qed.

(** One step of a lexicographic comparison: the first component is compared
    by [c1], the rest has already been compared, with results [r]. *)
Lemma lex_step_trans (c1 : A -> A -> Z) x y z (rxy ryz rxz : Z) :
  cmp_order c1 ->
  (rxy <= 0 -> ryz <= 0 -> rxz <= 0) ->
  (if negb (c1 x y =? 0) then c1 x y else rxy) <= 0 ->
  (if negb (c1 y z =? 0) then c1 y z else ryz) <= 0 ->
  (if negb (c1 x z =? 0) then c1 x z else rxz) <= 0.
Proof.
  intros H1 Hr.
  destruct (Z.eqb_spec (c1 x y) 0) as [Exy | Nxy]; simpl.
  - rewrite (cmp_eq_l c1 x y z H1 Exy).
    destruct (Z.eqb_spec (c1 y z) 0); simpl; [done | lia].
  - destruct (Z.eqb_spec (c1 y z) 0) as [Eyz | Nyz]; simpl.
    + rewrite <- (cmp_eq_r c1 x y z H1 Eyz).
      destruct (Z.eqb_spec (c1 x y) 0); simpl; lia.
    + intros Hxy Hyz.
      assert (c1 x y = -1) by (destruct (cmp_range _ H1 x y) as [? | [? | ?]]; lia).
      assert (c1 y z = -1) by (destruct (cmp_range _ H1 y z) as [? | [? | ?]]; lia).
      rewrite (cmp_lt_trans c1 x y z) by done. simpl. lia.
Qed.

Lemma lex_step_antisym (c1 : A -> A -> Z) x y (rxy ryx : Z) :
  cmp_order c1 -> ryx = - rxy ->
  (if negb (c1 y x =? 0) then c1 y x else ryx)
  = - (if negb (c1 x y =? 0) then c1 x y else rxy).
Proof.
  intros H1 ->. rewrite (cmp_antisym _ H1 x y).
  destruct (Z.eqb_spec (c1 x y) 0), (Z.eqb_spec (- c1 x y) 0); simpl; lia.
Qed.

Lemma lex_step_range (c1 : A -> A -> Z) x y (r : Z) :
  cmp_order c1 -> (r = -1 \/ r = 0 \/ r = 1) ->
  let v := if negb (c1 x y =? 0) then c1 x y else r in
  v = -1 \/ v = 0 \/ v = 1.
Proof.
  intros H1 Hr. simpl.
  destruct (Z.eqb_spec (c1 x y) 0); simpl; [done | apply (cmp_range _ H1)].
Qed.

Lemma then_cmp_order (c1 c2 : A -> A -> Z) :
  cmp_order c1 -> cmp_order c2 -> cmp_order (then_cmp c1 c2).
Proof.
  intros H1 H2. split; unfold then_cmp.
  - intros x y. apply lex_step_range; [done | apply (cmp_range _ H2)].
  - intros x y. apply lex_step_antisym; [done | apply (cmp_antisym _ H2)].
  - intros x y z. apply lex_step_trans; [done | apply (cmp_trans _ H2)].
Qed.

Lemma cmp_order_ext cmp cmp' :
  (forall x y, cmp x y = cmp' x y) -> cmp_order cmp -> cmp_order cmp'.
Proof.
  intros E H. split.
  - intros x y. rewrite <- E. apply (cmp_range _ H).
  - intros x y. rewrite <- !E. apply (cmp_antisym _ H).
  - intros x y z. rewrite <- !E. apply (cmp_trans _ H).
Qed.

Lemma lex_list_order cmp : cmp_order cmp -> cmp_order (lex_list cmp).
Proof.
  intros H. split.
  - intros x. induction x as [| a x IH]; intros [| b y]; simpl; auto.
    apply lex_step_range; [done | apply IH].
  - intros x. induction x as [| a x IH]; intros [| b y]; simpl; auto.
    apply lex_step_antisym; [done | apply IH].
  - intros x. induction x as [| a x IH]; intros [| b y] [| c z]; simpl;
      try lia.
    apply lex_step_trans; [done | apply IH].
Qed.

Lemma opt_low_order cmp : cmp_order cmp -> cmp_order (opt_low cmp).
Proof.
  intros H. split.
  - intros [x |] [y |]; simpl; auto. apply (cmp_range _ H).
  - intros [x |] [y |]; simpl; auto. apply (cmp_antisym _ H).
  - intros [x |] [y |] [z |]; simpl; try lia. apply (cmp_trans _ H).
Qed.

Lemma opt_high_order cmp : cmp_order cmp -> cmp_order (opt_high cmp).
Proof.
  intros H. split.
  - intros [x |] [y |]; simpl; auto. apply (cmp_range _ H).
  - intros [x |] [y |]; simpl; auto. apply (cmp_antisym _ H).
  - intros [x |] [y |] [z |]; simpl; try lia. apply (cmp_trans _ H).
Qed.

End Comparators.

Lemma on_cmp_order {A B : Type} (f : A -> B) cmp :
  cmp_order cmp -> cmp_order (on_cmp f cmp).
Proof.
  intros H. split; unfold on_cmp.
  - intros x y. apply (cmp_range _ H).
  - intros x y. apply (cmp_antisym _ H).
  - intros x y z. apply (cmp_trans _ H).
Qed.

Lemma cmp_of_range c : cmp_of c = -1 \/ cmp_of c = 0 \/ cmp_of c = 1.
Proof. destruct c; simpl; auto. Qed.

Lemma cmp_of_opp c : cmp_of (CompOpp c) = - cmp_of c.
Proof. by destruct c. Qed.

Lemma natcmp_order : cmp_order natcmp.
Proof.
  split; unfold natcmp.
  - intros x y. apply cmp_of_range.
  - intros x y. rewrite Nat.compare_antisym. apply cmp_of_opp.
  - intros x y z.
    destruct (Nat.compare_spec x y), (Nat.compare_spec y z),
      (Nat.compare_spec x z); simpl; lia.
Qed.

Lemma zcmp_order : cmp_order zcmp.
Proof.
  split; unfold zcmp.
  - intros x y. apply cmp_of_range.
  - intros x y. rewrite Z.compare_antisym. apply cmp_of_opp.
  - intros x y z.
    destruct (Z.compare_spec x y), (Z.compare_spec y z),
      (Z.compare_spec x z); simpl; lia.
Qed.

Lemma boolcmp_order : cmp_order boolcmp.
Proof.
  split; unfold boolcmp.
  - intros [] []; simpl; auto.
  - by intros [] [].
  - intros [] [] []; simpl; lia.
Qed.

(** ** The bytewise order of strings *)

Lemma ascii_compare_refl a : Ascii.compare a a = Eq.
Proof. apply N.compare_refl. Qed.

Lemma string_compare_refl x : String.compare x x = Eq.
Proof.
  induction x as [| a x IH]; simpl; [done |].
  by rewrite ascii_compare_refl.
Qed.

Lemma string_compare_le_trans x y z :
  String.compare x y <> Gt -> String.compare y z <> Gt ->
  String.compare x z <> Gt.
Proof.
  revert y z. induction x as [| a x IH]; intros [| b y] [| c z]; simpl;
    try congruence.
  unfold Ascii.compare.
  destruct (N.compare_spec (N_of_ascii a) (N_of_ascii b)) as [Eab | Lab | Gab];
    destruct (N.compare_spec (N_of_ascii b) (N_of_ascii c)) as [Ebc | Lbc | Gbc];
    destruct (N.compare_spec (N_of_ascii a) (N_of_ascii c)) as [Eac | Lac | Gac];
    try congruence; try lia.
  apply IH.
Qed.

Lemma strcmp_order : cmp_order strcmp.
Proof.
  split; unfold strcmp.
  - intros x y. apply cmp_of_range.
  - intros x y. rewrite String.compare_antisym. apply cmp_of_opp.
  - intros x y z Hxy Hyz.
    pose proof (string_compare_le_trans x y z) as T.
    destruct (String.compare x y), (String.compare y z),
      (String.compare x z); simpl in *; try lia; exfalso; by apply T.
Qed.

Lemma strcmp_eq x y : strcmp x y = 0 <-> x = y.
Proof.
  unfold strcmp. split.
  - destruct (String.compare x y) eqn:E; simpl; try lia.
    intros _. by apply String.compare_eq_iff.
  - intros ->. by rewrite string_compare_refl.
Qed.

Lemma strcmp_lt x y : x <> y -> strcmp x y = if GoString.lt x y then -1 else 1.
Proof.
  intros N. unfold GoString.lt, String.ltb, strcmp.
  destruct (String.compare x y) eqn:E; simpl; try done.
  by apply String.compare_eq_iff in E.
Qed.

(** ** Go string slices *)

Section GoStringFacts.
Import GoString.

Lemma substring_all s : String.substring 0 (String.length s) s = s.
Proof. induction s as [| c s IH]; simpl; [done | by rewrite IH]. Qed.

Lemma slice_from_0 s : slice_from s 0 = s.
Proof. unfold slice_from, len. rewrite Nat.sub_0_r. apply substring_all. Qed.

Lemma slice_from_S c s n : slice_from (String c s) (S n) = slice_from s n.
Proof. done. Qed.

Lemma slice_from_1 c s : slice_from (String c s) 1 = s.
Proof. rewrite slice_from_S. apply slice_from_0. Qed.

Lemma slice_0_0 s : slice s 0 0 = EmptyString.
Proof. by destruct s. Qed.

Lemma slice_0_S c s n : slice (String c s) 0 (S n) = String c (slice s 0 n).
Proof. unfold slice. simpl. by rewrite Nat.sub_0_r. Qed.

Lemma slice_from_len s n : (len (slice_from s n) <= len s)%nat.
Proof.
  revert n. induction s as [| c s IH]; intros n.
  - by destruct n.
  - destruct n as [| n].
    + by rewrite slice_from_0.
    + rewrite slice_from_S. specialize (IH n). simpl. lia.
Qed.

End GoStringFacts.

(** ** semver: prerelease identifiers *)

Section SemverFacts.
Import GoString semver.

Lemma nextIdent_nil : nextIdent EmptyString = (EmptyString, EmptyString).
Proof. done. Qed.

Lemma nextIdent_cons c x :
  nextIdent (String c x)
  = if Ascii.eqb c "." then (EmptyString, String c x)
    else (String c (nextIdent x).1, (nextIdent x).2).
Proof.
  unfold nextIdent. simpl scan.
  destruct (Ascii.eqb c "."); simpl negb; cbv iota.
  - by rewrite slice_0_0, slice_from_0.
  - by rewrite slice_0_S, slice_from_S.
Qed.

Lemma split_dots_nextIdent r :
  split_dots r = (nextIdent r).1 :: restKey (nextIdent r).2.
Proof.
  induction r as [| c r IH]; [done |].
  rewrite nextIdent_cons. simpl.
  destruct (Ascii.eqb c "."); [done |].
  by rewrite IH.
Qed.

Lemma nextIdent_len r : (len (nextIdent r).2 <= len r)%nat.
Proof. unfold nextIdent. simpl. apply slice_from_len. Qed.

Lemma split_dots_concat s : String.concat "." (split_dots s) = s.
Proof.
  induction s as [| c s IH]; [done |].
  simpl. destruct (Ascii.eqb_spec c ".") as [-> | N].
  - destruct (split_dots s) as [| d ds] eqn:E.
    + by rewrite split_dots_nextIdent in E.
    + change (String.concat "." (EmptyString :: d :: ds))
        with (String "." (String.concat "." (d :: ds))).
      by rewrite IH.
  - destruct (split_dots s) as [| d ds] eqn:E.
    + by rewrite split_dots_nextIdent in E.
    + rewrite <- IH. by destruct ds.
Qed.

Lemma split_dots_inj s t : split_dots s = split_dots t -> s = t.
Proof.
  intros E. rewrite <- (split_dots_concat s), <- (split_dots_concat t).
  by rewrite E.
Qed.

Lemma identCmp_order : cmp_order identCmp.
Proof.
  unfold identCmp.
  repeat first [apply natcmp_order | apply strcmp_order
               | apply on_cmp_order | apply then_cmp_order].
Qed.

Lemma natcmp_eq n m : natcmp n m = 0 <-> n = m.
Proof.
  unfold natcmp. destruct (Nat.compare_spec n m); simpl; split; lia.
Qed.

Lemma natcmp_lt n m :
  natcmp n m = if Nat.ltb n m then -1 else if Nat.ltb m n then 1 else 0.
Proof.
  unfold natcmp.
  destruct (Nat.compare_spec n m), (Nat.ltb_spec n m), (Nat.ltb_spec m n);
    simpl; lia.
Qed.

Lemma identCmp_eq dx dy : identCmp dx dy = 0 <-> dx = dy.
Proof.
  split.
  - unfold identCmp, then_cmp, on_cmp.
    repeat match goal with
           | |- context [negb (?c =? 0)] => destruct (Z.eqb_spec c 0); simpl
           end; try lia.
    by rewrite strcmp_eq.
  - intros ->. apply cmp_refl, identCmp_order.
Qed.

(** Inside the loop, [compareIdent] decides by the order [identCmp]. *)
Lemma compareIdent_identCmp dx dy :
  dx <> dy -> compareIdent dx dy = identCmp dx dy.
Proof.
  intros N. unfold compareIdent, identCmp, then_cmp, on_cmp.
  rewrite !natcmp_lt, (strcmp_lt dx dy N).
  destruct (isNum dx), (isNum dy); simpl; try done.
  destruct (Nat.ltb_spec (len dx) (len dy)), (Nat.ltb_spec (len dy) (len dx));
    simpl; try done; lia.
Qed.

(** The loop of [comparePrerelease] is the lexicographic comparison of the
    remaining identifiers, as soon as the fuel covers the length of [x]. *)
Lemma comparePrerelease_loop_key fuel x y :
  (len x <= fuel)%nat -> restKey x <> restKey y ->
  comparePrerelease_loop fuel x y = lex_list identCmp (restKey x) (restKey y).
Proof.
  revert x y. induction fuel as [| fuel IH]; intros x y Hlen Hne.
  - destruct x; [| simpl in Hlen; lia].
    destruct y as [| c r]; [done |]. simpl.
    rewrite (split_dots_nextIdent r). done.
  - destruct x as [| cx rx].
    + destruct y as [| c r]; [done |]. simpl.
      rewrite (split_dots_nextIdent r). done.
    + destruct y as [| cy ry].
      * simpl. rewrite (split_dots_nextIdent rx). done.
      * cbn [comparePrerelease_loop]. rewrite !slice_from_1.
        change (negb (String cx rx =? EmptyString)%string && negb (String cy ry =? EmptyString)%string)
          with true. cbv iota.
        simpl restKey in *.
        rewrite (split_dots_nextIdent rx), (split_dots_nextIdent ry) in *.
        destruct (nextIdent rx) as [dx x2] eqn:Ex.
        destruct (nextIdent ry) as [dy y2] eqn:Ey.
        simpl fst in *. simpl snd in *. simpl lex_list.
        destruct (String.eqb_spec dx dy) as [-> | Nd]; simpl negb; cbv iota.
        -- rewrite (cmp_refl identCmp dy identCmp_order). simpl.
           apply IH.
           ++ pose proof (nextIdent_len rx) as L. rewrite Ex in L.
              simpl in L, Hlen. lia.
           ++ congruence.
        -- rewrite (compareIdent_identCmp dx dy Nd).
           destruct (Z.eqb_spec (identCmp dx dy) 0) as [E | E]; simpl; [| done].
           by apply identCmp_eq in E.
Qed.

Lemma comparePrerelease_loop_fuel fuel x y :
  (len x <= fuel)%nat -> restKey x <> restKey y ->
  comparePrerelease_loop fuel x y = comparePrerelease_loop (len x) x y.
Proof.
  intros. by rewrite !comparePrerelease_loop_key.
Qed.

Lemma comparePrerelease_key x y :
  pre_ok x -> pre_ok y ->
  comparePrerelease x y = preCmp (preKey x) (preKey y).
Proof.
  intros Hx Hy. unfold comparePrerelease.
  destruct (String.eqb_spec x y) as [-> | N].
  - symmetry. apply cmp_refl, opt_high_order, lex_list_order, identCmp_order.
  - destruct Hx as [-> | [rx ->]], Hy as [-> | [ry ->]]; try done.
    change (String "-" rx =? EmptyString)%string with false.
    change (String "-" ry =? EmptyString)%string with false. cbv iota.
    rewrite comparePrerelease_loop_key; [done | done |].
    simpl. intros E. apply split_dots_inj in E. congruence.
Qed.

Lemma preCmp_order : cmp_order preCmp.
Proof. apply opt_high_order, lex_list_order, identCmp_order. Qed.

(** ** semver: parsing *)

Lemma parsePrerelease_loop_ge v rest i start i' start' :
  parsePrerelease_loop v rest i start = Some (i', start') -> (i <= i')%nat.
Proof.
  revert i start. induction rest as [| c rest IH]; intros i start; simpl.
  - intros [= <- _]. lia.
  - destruct (Ascii.eqb c "+"); [intros [= <- _]; lia |].
    destruct (negb (isIdentChar c) && negb (Ascii.eqb c ".")); [done |].
    destruct (Ascii.eqb c ".").
    + destruct (Nat.eqb start i || isBadNum (slice v start i)); [done |].
      intros H. apply IH in H. lia.
    + intros H. apply IH in H. lia.
Qed.

Lemma parsePrerelease_ok v t rest :
  parsePrerelease v = Some (t, rest) -> pre_ok t.
Proof.
  unfold parsePrerelease. destruct v as [| c v']; [done |].
  destruct (Ascii.eqb_spec c "-") as [-> | N]; simpl negb; cbv iota; [| done].
  destruct (parsePrerelease_loop _ v' 1 1) as [[i start] |] eqn:E; [| done].
  apply parsePrerelease_loop_ge in E.
  destruct (Nat.eqb start i || isBadNum _); [done |].
  intros [= <- _]. destruct i as [| i]; [lia |].
  rewrite slice_0_S. right. eauto.
Qed.

Lemma parse_suffix_ok ma mi pa v p :
  parse_suffix ma mi pa v = Some p ->
  major p = ma /\ minor p = mi /\ patch p = pa /\ pre_ok (prerelease p).
Proof.
  unfold parse_suffix.
  destruct (if String.prefix "-" v then parsePrerelease v else Some (EmptyString, v))
    as [[pre v1] |] eqn:E; [| done].
  assert (pre_ok pre) as Hpre.
  { destruct (String.prefix "-" v).
    - by apply parsePrerelease_ok in E.
    - injection E as <- _. by left. }
  destruct (if String.prefix "+" v1 then parseBuild v1 else Some (EmptyString, v1))
    as [[bld v2] |]; [| done].
  destruct (String.eqb v2 EmptyString); [| done].
  by intros [= <-].
Qed.

Lemma parse_ok v p : parse v = Some p -> pre_ok (prerelease p).
Proof.
  unfold parse. destruct v as [| c v1]; [done |].
  destruct (negb (Ascii.eqb c "v")); [done |].
  destruct (parseInt v1) as [[ma [| c2 v2]] |]; [by intros [= <-]; left | | done].
  destruct (negb (Ascii.eqb c2 ".")); [done |].
  destruct (parseInt v2) as [[mi [| c3 v3]] |]; [by intros [= <-]; left | | done].
  destruct (negb (Ascii.eqb c3 ".")); [done |].
  destruct (parseInt v3) as [[pa v4] |]; [| done].
  intros H. by apply parse_suffix_ok in H as (_ & _ & _ & H).
Qed.

(** ** semver: Compare *)

Lemma shortlex_order : cmp_order shortlex.
Proof.
  unfold shortlex.
  repeat first [apply natcmp_order | apply strcmp_order
               | apply on_cmp_order | apply then_cmp_order].
Qed.

Lemma compareInt_shortlex x y : compareInt x y = shortlex x y.
Proof.
  unfold compareInt, shortlex, then_cmp, on_cmp. rewrite natcmp_lt.
  destruct (String.eqb_spec x y) as [-> | N].
  - rewrite Nat.ltb_irrefl. simpl. symmetry. by apply strcmp_eq.
  - rewrite (strcmp_lt x y N).
    destruct (Nat.ltb (len x) (len y)); [done |].
    by destruct (Nat.ltb (len y) (len x)).
Qed.

Lemma versionKeyCmp_order : cmp_order versionKeyCmp.
Proof.
  unfold versionKeyCmp.
  repeat first [apply shortlex_order | apply preCmp_order
               | apply on_cmp_order | apply then_cmp_order].
Qed.

(** [Compare] orders version strings by their keys, the strings that do not
    parse first. *)
Lemma Compare_key v w :
  Compare v w = opt_low versionKeyCmp (semverKey v) (semverKey w).
Proof.
  unfold Compare, semverKey.
  destruct (parse v) as [pv |] eqn:Ev, (parse w) as [pw |] eqn:Ew; simpl;
    try done.
  unfold versionKeyCmp, then_cmp, on_cmp, parsedKey. simpl.
  rewrite !compareInt_shortlex.
  rewrite comparePrerelease_key by (eapply parse_ok; eassumption).
  done.
Qed.

Lemma Compare_order : cmp_order Compare.
Proof.
  apply (cmp_order_ext (on_cmp semverKey (opt_low versionKeyCmp))).
  - intros v w. symmetry. apply Compare_key.
  - apply on_cmp_order, opt_low_order, versionKeyCmp_order.
Qed.

End SemverFacts.

(** ** imageprovider.go: CompareImageDefs *)

Lemma zcmp_ltb n m :
  zcmp n m = if n <? m then -1 else if n >? m then 1 else 0.
Proof.
  unfold zcmp. rewrite Z.gtb_ltb.
  destruct (Z.compare_spec n m), (Z.ltb_spec n m), (Z.ltb_spec m n);
    simpl; lia.
Qed.

Lemma imageDefCmp_order : cmp_order imageDefCmp.
Proof.
  unfold imageDefCmp.
  repeat first [apply zcmp_order | apply boolcmp_order | apply versionKeyCmp_order
               | apply opt_low_order | apply on_cmp_order | apply then_cmp_order].
Qed.

(** [CompareImageDefs] compares by version, then build number, then the three
    edition flags. *)
Lemma CompareImageDefs_imageDefCmp a b : CompareImageDefs a b = imageDefCmp a b.
Proof.
  unfold CompareImageDefs, imageDefCmp, then_cmp, on_cmp.
  rewrite Compare_key, zcmp_ltb.
  destruct (negb (_ =? 0)); [done |].
  destruct (BuildNo a <? BuildNo b); [done |].
  destruct (BuildNo a >? BuildNo b); [done |]. simpl.
  by destruct (UseCommunityEdition a), (UseCommunityEdition b),
    (UseServerless a), (UseServerless b), (UseColumnar a), (UseColumnar b).
Qed.

Lemma CompareImageDefs_order : cmp_order CompareImageDefs.
Proof.
  apply (cmp_order_ext imageDefCmp).
  - intros a b. symmetry. apply CompareImageDefs_imageDefCmp.
  - apply imageDefCmp_order.
Qed.

(** C1.  [CompareImageDefs] is a three-way total order on image descriptors:
    for all [a], [b] and [c], exactly one of less, equal and greater holds for
    the pair [(a, b)], greater for [(a, b)] is less for [(b, a)],
    [CompareImageDefs a a] is equal, and less is transitive.  The function is
    pure: it is a Rocq function of its two arguments. *)
Theorem CompareImageDefs_total_order (a b c : ImageDef) :
  (image_less a b /\ ~ image_equal a b /\ ~ image_greater a b
   \/ ~ image_less a b /\ image_equal a b /\ ~ image_greater a b
   \/ ~ image_less a b /\ ~ image_equal a b /\ image_greater a b)
  /\ (image_greater a b <-> image_less b a)
  /\ image_equal a a
  /\ (image_less a b -> image_less b c -> image_less a c).
Proof.
  pose proof CompareImageDefs_order as H.
  unfold image_less, image_equal, image_greater.
  repeat split.
  - destruct (cmp_range _ H a b) as [E | [E | E]]; rewrite E; lia.
  - rewrite (cmp_antisym _ H a b). lia.
  - rewrite (cmp_antisym _ H a b). lia.
  - by apply cmp_refl.
  - by apply cmp_lt_trans.
Qed.

Lemma CompareImageDefs_total_order_witness :
  image_less image_7_0_5 image_7_1_0_ce
  /\ image_less image_7_1_0_ce image_7_1_0_ee
  /\ image_less image_7_0_5 image_7_1_0_ee.
Proof.
  assert (image_less image_7_0_5 image_7_1_0_ce) as H1 by reflexivity.
  assert (image_less image_7_1_0_ce image_7_1_0_ee) as H2 by reflexivity.
  refine (conj H1 (conj H2 _)).
  exact (proj2 (proj2 (proj2
    (CompareImageDefs_total_order image_7_0_5 image_7_1_0_ce image_7_1_0_ee)))
    H1 H2).
Defined.

(** ** controller.go: the monad *)

Ltac munfold :=
  unfold mbind, M_bind, bind, mret, M_ret, ret, docker, Debug, lift in *.

Section ControllerFacts.
Context {J : Json} {W : Type} {D : DockerCli W}.
Implicit Types (c : Controller) (st : state W).

Lemma bind_Returned {A B} (m : M W A) (k : A -> M W B) st b st' :
  (m ≫= k) st = Returned (b, st') ->
  exists a st1, m st = Returned (a, st1) /\ k a st1 = Returned (b, st').
Proof.
  munfold. destruct (m st) as [[a st1] | |]; [eauto | done | done].
Qed.

(** ** parseContainerInfo and ListNodes *)

Lemma fold_left_last_endpoint (nets : list (string * option EndpointSettings))
    (init picked : option EndpointSettings) :
  fold_left (fun _ '(_, network) => network) nets init = picked ->
  (nets = [] /\ picked = init)
  \/ exists name, (name, picked) ∈ nets.
Proof.
  revert init. induction nets as [| [name ep] nets IH]; intros init; simpl.
  - intros <-. by left.
  - intros E. right. destruct (IH _ E) as [[-> ->] | [name' Hin]].
    + exists name. apply list_elem_of_here.
    + exists name'. by apply list_elem_of_further.
Qed.

Lemma parseContainerInfo_unlabelled c container :
  label container cluster_id_label = EmptyString ->
  parseContainerInfo c container = Returned None.
Proof.
  intros E. unfold parseContainerInfo. fold cluster_id_label. by rewrite E.
Qed.

Lemma parseContainerInfo_Returned c container r :
  parseContainerInfo c container = Returned r ->
  match r with
  | None => label container cluster_id_label = EmptyString
  | Some node =>
      NodeInfo.ContainerID node = ID container
      /\ NodeInfo.ClusterID node = label container cluster_id_label
      /\ NodeInfo.ClusterID node <> EmptyString
      /\ exists name ep, (name, Some ep) ∈ endpoints container
                         /\ NodeInfo.IPAddress node = IPAddress ep
  end.
Proof.
  unfold parseContainerInfo, endpoints. fold cluster_id_label.
  destruct (String.eqb_spec (label container cluster_id_label) EmptyString) as [E | N].
  - by intros [= <-].
  - destruct (NetworkSettings container) as [settings |]; [| done].
    destruct (fold_left _ _ _) as [picked |] eqn:F; [| done].
    intros [= <-]. simpl. repeat split; [done |].
    apply fold_left_last_endpoint in F as [[_ ?] | [name Hin]]; [done |].
    eauto.
Qed.

Lemma parseContainerInfo_detached c container :
  label container cluster_id_label <> EmptyString -> endpoints container = [] ->
  parseContainerInfo c container
  = Panicked "invalid memory address or nil pointer dereference".
Proof.
  intros N E. unfold parseContainerInfo, endpoints in *. fold cluster_id_label.
  destruct (String.eqb_spec (label container cluster_id_label) EmptyString); [done |].
  destruct (NetworkSettings container) as [settings |]; [| done].
  by rewrite E.
Qed.

Lemma ReadNodeState_returns c containerID st :
  exists r st', ReadNodeState c containerID st = Returned (r, st').
Proof.
  unfold ReadNodeState. munfold. simpl.
  destruct (CopyFromContainer _ _ _) as [[resp | err] w]; [| eauto].
  destruct (ReadNodeState_loop resp None) as [[v |] | err]; eauto.
Qed.

Lemma ReadNodeState_world c containerID st r st' :
  ReadNodeState c containerID st = Returned (r, st') ->
  world st' = (CopyFromContainer containerID "/var/cbdyncluster" (world st)).2.
Proof.
  unfold ReadNodeState. munfold. simpl.
  destruct (CopyFromContainer _ _ _) as [[resp | err] w]; [| by intros [= _ <-]].
  by destruct (ReadNodeState_loop resp None) as [[v |] | err]; intros [= _ <-].
Qed.

Lemma label_Some container key v :
  label container key = v -> v <> EmptyString -> Labels container !! key = Some v.
Proof.
  unfold label. destruct (Labels container !! key); simpl; congruence.
Qed.

Lemma ListNodes_loop_nodes c all containers nodes st nodes' st' :
  ListNodes_loop c containers nodes st = Returned (nodes', st') ->
  containers ⊆ all ->
  Forall (node_of all) nodes -> Forall (node_of all) nodes'.
Proof.
  revert nodes st. induction containers as [| container containers IH];
    intros nodes st; simpl.
  - munfold. by intros [= <- _].
  - intros E Hsub Hnodes.
    apply bind_Returned in E as (r & st1 & E1 & E).
    unfold lift in E1.
    destruct (parseContainerInfo c container) as [r' | |] eqn:P; [| done | done].
    injection E1 as <- <-.
    assert (containers ⊆ all) as Hsub' by set_solver.
    destruct r' as [node |]; [| by eapply IH].
    apply bind_Returned in E as (rs & st2 & _ & E).
    eapply IH; [exact E | done |].
    apply Forall_app. split; [done |]. apply Forall_singleton.
    apply parseContainerInfo_Returned in P as (Hid & Hcl & Hne & _).
    assert (node_of all node) as Hnode.
    { split; [done |]. exists container. split; [set_solver |].
      split; [done |]. apply label_Some; [done | congruence]. }
    destruct rs as [[nodeState |] | err]; [| done | done].
    by destruct node.
Qed.

Lemma ListNodes_Returned c st r st' :
  ListNodes c st = Returned (r, st') ->
  match ContainerList (world st) with
  | (Err err, _) => r = Err (errors_Wrap err "failed to list containers")
  | (Ok containers, _) =>
      exists nodes, r = Ok nodes /\ Forall (node_of containers) nodes
  end.
Proof.
  unfold ListNodes. munfold. simpl.
  destruct (ContainerList (world st)) as [[containers | err] w];
    [| by intros [= <- _]].
  destruct (ListNodes_loop _ _ _ _) as [[nodes st1] | |] eqn:E; [| done | done].
  intros [= <- _]. exists nodes. split; [done |].
  by eapply ListNodes_loop_nodes.
Qed.

Lemma ListNodes_loop_panics c containers container nodes st :
  container ∈ containers ->
  label container cluster_id_label <> EmptyString -> endpoints container = [] ->
  exists msg, ListNodes_loop c containers nodes st = Panicked msg.
Proof.
  intros Hin Hl He. revert nodes st.
  induction containers as [| x containers IH]; intros nodes st.
  - by apply elem_of_nil in Hin.
  - simpl. munfold.
    apply elem_of_cons in Hin as [<- | Hin].
    + rewrite parseContainerInfo_detached by done. eauto.
    + destruct (parseContainerInfo c x) as [[node |] | msg |] eqn:P.
      * destruct (ReadNodeState_returns c (NodeInfo.ContainerID node) st)
          as (r & st1 & ->).
        by apply IH.
      * by apply IH.
      * eauto.
      * exfalso. unfold parseContainerInfo in P.
        repeat match type of P with
               | context [match ?x with _ => _ end] => destruct x
               end; done.
Qed.

End ControllerFacts.

(** C8.  [ListNodes] never returns an entry built from a container without
    the cluster-identifier label: every node of a listing comes from a
    container of the backend's list whose [cluster_id] label is present and
    not empty, and carries that label. *)
Theorem ListNodes_only_labelled {W : Type} {D : DockerCli W} {J : Json} (c : Controller)
    (st st' : state W) (nodes : list NodeInfo.t) :
  ListNodes c st = Returned (Ok nodes, st') ->
  exists containers w,
    ContainerList (world st) = (Ok containers, w)
    /\ forall node, node ∈ nodes -> node_of containers node.
Proof.
  intros E. apply ListNodes_Returned in E.
  destruct (ContainerList (world st)) as [[containers | err] w]; [| done].
  destruct E as (nodes' & [= <-] & Hall).
  exists containers, w. split; [done |]. by apply Forall_forall.
Qed.

Lemma ListNodes_only_labelled_witness :
  exists nodes st',
    ListNodes (J := NanoCodec.json) Examples.ctrl (Examples.start Examples.daemon)
    = Returned (Ok nodes, st')
    /\ length nodes = 1%nat
    /\ exists containers w,
         ContainerList (world (Examples.start Examples.daemon)) = (Ok containers, w)
         /\ forall node, node ∈ nodes -> node_of containers node.
Proof.
  eexists _, _. split; [vm_compute; reflexivity |].
  split; [reflexivity |].
  eapply (ListNodes_only_labelled (J := NanoCodec.json) Examples.ctrl
            (Examples.start Examples.daemon)).
  vm_compute. reflexivity.
Defined.

(** C9.  [parseContainerInfo] reads the address from one of the attached
    network endpoints without a check.  For a container with a cluster
    label that is not empty: with no endpoint attached the call panics (a nil
    pointer is dereferenced), and so does [ListNodes] on a list with such a
    container; when the call returns, it returns a node (no error result
    exists) whose address is the address of an attached endpoint, so that
    some endpoint is attached. *)
Theorem parseContainerInfo_needs_endpoint {W : Type} {D : DockerCli W} {J : Json}
    (c : Controller) (container : Container) :
  label container cluster_id_label <> EmptyString ->
  (endpoints container = [] ->
   parseContainerInfo c container
   = Panicked "invalid memory address or nil pointer dereference"
   /\ forall (st : state W) containers w,
        ContainerList (world st) = (Ok containers, w) ->
        container ∈ containers ->
        exists msg, ListNodes c st = Panicked msg)
  /\ (forall r, parseContainerInfo c container = Returned r ->
      endpoints container <> []
      /\ exists node name ep,
           r = Some node
           /\ (name, Some ep) ∈ endpoints container
           /\ NodeInfo.IPAddress node = IPAddress ep).
Proof.
  intros Hl. split.
  - intros He. split; [by apply parseContainerInfo_detached |].
    intros st containers w El Hin.
    unfold ListNodes. munfold. simpl. rewrite El.
    match goal with
    | |- context [ListNodes_loop c containers [] ?s] =>
        destruct (ListNodes_loop_panics c containers container [] s Hin Hl He)
          as [msg E]; rewrite E
    end.
    eauto.
  - intros r E. apply parseContainerInfo_Returned in E.
    destruct r as [node |]; [| done].
    destruct E as (_ & _ & _ & name & ep & Hin & Hip).
    split; [| by eauto 10].
    intros He. rewrite He in Hin. by apply elem_of_nil in Hin.
Qed.

Lemma parseContainerInfo_needs_endpoint_witness :
  (parseContainerInfo Examples.ctrl (MemDaemon.info Examples.detached)
   = Panicked "invalid memory address or nil pointer dereference"
   /\ exists msg,
        ListNodes (J := NanoCodec.json) Examples.ctrl
          (Examples.start Examples.daemon_detached) = Panicked msg)
  /\ exists node,
       parseContainerInfo Examples.ctrl (MemDaemon.info Examples.node1)
       = Returned (Some node)
       /\ NodeInfo.IPAddress node = "172.18.0.2".
Proof.
  assert (label (MemDaemon.info Examples.detached) cluster_id_label <> EmptyString)
    as Hl by (vm_compute; discriminate).
  destruct (parseContainerInfo_needs_endpoint (J := NanoCodec.json)
              (W := MemDaemon.t) Examples.ctrl
              (MemDaemon.info Examples.detached) Hl) as [Hpanic _].
  destruct (Hpanic eq_refl) as [Hp Hlist].
  split.
  - split; [exact Hp |].
    apply (Hlist (Examples.start Examples.daemon_detached)
             (map MemDaemon.info (MemDaemon.containers Examples.daemon_detached))
             Examples.daemon_detached eq_refl).
    vm_compute. apply list_elem_of_further, list_elem_of_here.
  - eexists. split; vm_compute; reflexivity.
Defined.

(** ** ReadNodeState *)

Section ReadNodeStateFacts.
Context {J : Json} {W : Type} {D : DockerCli W}.
Implicit Types (c : Controller) (st : state W).

(** [ReadNodeState] is the loop over the archive that the backend hands
    over. *)
Lemma ReadNodeState_result c containerID st :
  result_of (ReadNodeState c containerID st)
  = Returned
      match (CopyFromContainer containerID "/var/cbdyncluster" (world st)).1 with
      | Err err => Err (errors_Wrap err "failed to read dyncluster node state")
      | Ok resp =>
          match ReadNodeState_loop resp None with
          | Err err => Err err
          | Ok v =>
              Ok ((fun j => DockerNodeState.Build (DockerNodeStateJson.Expiry j))
                    <$> v)
          end
      end.
Proof.
  unfold ReadNodeState. munfold. simpl.
  destruct (CopyFromContainer _ _ _) as [[resp | err] w]; [| done]. simpl.
  by destruct (ReadNodeState_loop resp None) as [[v |] | err].
Qed.

Lemma ReadNodeState_loop_no_entry resp v :
  has_entry state_file resp = false ->
  (delivered resp = true -> ReadNodeState_loop resp v = Ok v)
  /\ (delivered resp = false -> exists err, ReadNodeState_loop resp v = Err err).
Proof.
  induction resp as [| err | name body rest IH]; simpl.
  - by split.
  - split; [done | eauto].
  - fold state_file. intros E. apply orb_false_iff in E as [-> E]. simpl.
    by apply IH.
Qed.

Lemma json_Unmarshal_decodes data v :
  decodes (Ok data) ->
  exists v', json_Unmarshal data v = (None, v')
    /\ (json_decode data = JNull -> v' = None)
    /\ (forall t, json_decode data = JObject (Some t) ->
        v' = Some (DockerNodeStateJson.Build t)).
Proof.
  unfold decodes, json_Unmarshal.
  destruct (json_decode data) as [err | | [t |]]; [done | | |]; intros _;
    eexists; (split; [done |]); split; try done; by intros ? [= <-].
Qed.

(** On an archive that arrives whole and whose state entries all decode, the
    loop ends without an error, with what the last state entry leaves. *)
Lemma ReadNodeState_loop_last resp v :
  delivered resp = true ->
  Forall decodes (entries_named state_file resp) ->
  exists v',
    ReadNodeState_loop resp v = Ok v'
    /\ (entries_named state_file resp = [] -> v' = v)
    /\ (forall data,
          last (entries_named state_file resp) = Some (Ok data) ->
          (json_decode data = JNull -> v' = None)
          /\ (forall t, json_decode data = JObject (Some t) ->
              v' = Some (DockerNodeStateJson.Build t))).
Proof.
  revert v. induction resp as [| err | name body rest IH]; intros v; simpl.
  - intros _ _. exists v. by repeat split.
  - done.
  - fold state_file. intros Hd Hall.
    destruct (String.eqb name state_file); simpl; [| by apply IH].
    apply Forall_cons in Hall as [Hbody Hall].
    destruct body as [data0 | err]; [| done].
    destruct (json_Unmarshal_decodes data0 v Hbody) as (v1 & -> & Hnull & Hobj).
    destruct (IH v1 Hd Hall) as (v' & -> & Hnil & Hlast).
    exists v'. split; [done |]. split; [done |].
    intros data El.
    destruct (entries_named state_file rest) as [| body' bodies] eqn:Er.
    + injection El as <-. rewrite (Hnil eq_refl). by split.
    + by apply Hlast.
Qed.

End ReadNodeStateFacts.

(** C3, as the code has it.  For a resource without a state file, which is
    to say that the backend hands over an archive without an entry of that
    name or an error, [ReadNodeState] returns the result "no state present"
    (and no error) when the backend delivers the archive, and an error when
    it does not; with the error of [CopyFromContainer] inside when that call
    fails. *)
Theorem ReadNodeState_without_state_entry {W : Type} {D : DockerCli W}
    {J : Json} (c : Controller) (containerID : string) (st : state W)
    (r : result tar_stream) (w : W) :
  CopyFromContainer containerID "/var/cbdyncluster" (world st) = (r, w) ->
  no_state_entry r ->
  (archive_delivered r
   /\ result_of (ReadNodeState c containerID st) = Returned (Ok None))
  \/ (~ archive_delivered r
      /\ (exists err, result_of (ReadNodeState c containerID st) = Returned (Err err))
      /\ forall err, r = Err err ->
           result_of (ReadNodeState c containerID st)
           = Returned (Err (errors_Wrap err "failed to read dyncluster node state"))).
Proof.
  intros E Hno. rewrite ReadNodeState_result, E. simpl.
  destruct r as [resp | err]; simpl in *.
  - destruct (ReadNodeState_loop_no_entry resp None Hno) as [Hd Hf].
    destruct (delivered resp) eqn:Ed.
    + left. split; [done |]. by rewrite Hd.
    + right. split; [done |]. destruct (Hf eq_refl) as [err ->].
      split; [eauto | done].
  - right. split; [tauto |]. split; [eauto |]. by intros ? [= <-].
Qed.

Lemma ReadNodeState_without_state_entry_witness :
  result_of (ReadNodeState (J := NanoCodec.json) Examples.ctrl "c1"
               (Canned.start Archives.without_state))
  = Returned (Ok None).
Proof.
  destruct (ReadNodeState_without_state_entry (D := Canned.cli) (J := NanoCodec.json)
              Examples.ctrl "c1" (Canned.start Archives.without_state)
              (Ok Archives.without_state) (Ok Archives.without_state)
              eq_refl eq_refl) as [[_ E] | [N _]].
  - exact E.
  - exfalso. apply N. reflexivity.
Defined.

(** A node of the reference backend that is listed and running and in which
    nothing was ever written: the state directory does not exist, the backend
    reports the missing path as an error, and [ReadNodeState] returns an
    error, not "no state present". *)
Lemma ReadNodeState_never_written_counterexample :
  MemDaemon.find_container Examples.daemon "c1" = Some Examples.node1
  /\ MemDaemon.running Examples.node1 = true
  /\ MemDaemon.files Examples.node1 = ∅
  /\ result_of (ReadNodeState (J := NanoCodec.json) Examples.ctrl "c1"
                  (Examples.start Examples.daemon))
     = Returned (Err "failed to read dyncluster node state: Could not find the file /var/cbdyncluster in container c1")
  /\ result_of (ReadNodeState (J := NanoCodec.json) Examples.ctrl "c1"
                  (Examples.start Examples.daemon))
     <> Returned (Ok None).
Proof. repeat split; vm_compute; congruence. Qed.

(** C10, as the code has it.  On an archive that arrives whole and whose
    entries of the state-file name all decode: when the last of them decodes
    to JSON null, [ReadNodeState] returns "no state present", as it does
    when no entry has that name; when the last of them is an object with an
    [Expiry] member, the state returned has that expiry. *)
Theorem ReadNodeState_last_state_entry {W : Type} {D : DockerCli W}
    {J : Json} (c : Controller) (containerID : string) (st : state W)
    (resp : tar_stream) (w : W) :
  CopyFromContainer containerID "/var/cbdyncluster" (world st) = (Ok resp, w) ->
  delivered resp = true ->
  Forall decodes (entries_named state_file resp) ->
  (entries_named state_file resp = [] ->
   result_of (ReadNodeState c containerID st) = Returned (Ok None))
  /\ (forall data,
        last (entries_named state_file resp) = Some (Ok data) ->
        (json_decode data = JNull ->
         result_of (ReadNodeState c containerID st) = Returned (Ok None))
        /\ (forall t, json_decode data = JObject (Some t) ->
            result_of (ReadNodeState c containerID st)
            = Returned (Ok (Some (DockerNodeState.Build t))))).
Proof.
  intros E Hd Hall. rewrite ReadNodeState_result, E. simpl.
  destruct (ReadNodeState_loop_last resp None Hd Hall)
    as (v' & -> & Hnil & Hlast).
  split.
  - intros En. by rewrite (Hnil En).
  - intros data El. destruct (Hlast data El) as [Hnull Hobj]. split.
    + intros Ej. by rewrite (Hnull Ej).
    + intros t Ej. by rewrite (Hobj t Ej).
Qed.

Lemma ReadNodeState_last_state_entry_witness :
  result_of (ReadNodeState (J := NanoCodec.json) Examples.ctrl "c1"
               (Canned.start Archives.valid_then_null))
  = Returned (Ok None)
  /\ result_of (ReadNodeState (J := NanoCodec.json) Examples.ctrl "c1"
                  (Canned.start Archives.valid_then_later))
     = Returned (Ok (Some (DockerNodeState.Build 1800000000000000000))).
Proof.
  split.
  - refine (proj1 (proj2 (ReadNodeState_last_state_entry (D := Canned.cli) (J := NanoCodec.json)
              Examples.ctrl "c1" (Canned.start Archives.valid_then_null)
              Archives.valid_then_null (Ok Archives.valid_then_null)
              eq_refl eq_refl _) Archives.null_state eq_refl) eq_refl).
    repeat constructor.
  - refine (proj2 (proj2 (ReadNodeState_last_state_entry (D := Canned.cli) (J := NanoCodec.json)
              Examples.ctrl "c1" (Canned.start Archives.valid_then_later)
              Archives.valid_then_later (Ok Archives.valid_then_later)
              eq_refl eq_refl _) Archives.later_state eq_refl)
              1800000000000000000 eq_refl).
    repeat constructor.
Defined.

(** The last state entry does not determine the result when an entry before
    it does not decode: the error of that entry is returned. *)
Lemma ReadNodeState_last_entry_counterexample :
  delivered Archives.garbage_then_valid = true
  /\ last (entries_named state_file Archives.garbage_then_valid)
     = Some (Ok Archives.valid_state)
  /\ result_of (ReadNodeState (J := NanoCodec.json) Examples.ctrl "c1"
                  (Canned.start Archives.only_valid))
     = Returned (Ok (Some Examples.expiry))
  /\ result_of (ReadNodeState (J := NanoCodec.json) Examples.ctrl "c1"
                  (Canned.start Archives.garbage_then_valid))
     = Returned (Err "failed to parse dyncluster node state data: invalid character").
Proof. repeat split; vm_compute; reflexivity. Qed.

(** Nor does it when it is an object without an [Expiry] member: the expiry
    of the entry before it stays. *)
Lemma ReadNodeState_object_without_expiry :
  result_of (ReadNodeState (J := NanoCodec.json) Examples.ctrl "c1"
               (Canned.start Archives.only_empty_object))
  = Returned (Ok (Some (DockerNodeState.Build time.zero)))
  /\ result_of (ReadNodeState (J := NanoCodec.json) Examples.ctrl "c1"
                  (Canned.start Archives.valid_then_empty_object))
     = Returned (Ok (Some Examples.expiry)).
Proof. split; vm_compute; reflexivity. Qed.

(** ** execIptables *)

Lemma commands_of_app (l l' : list LogEntry) :
  commands_of (l ++ l') = commands_of l ++ commands_of l'.
Proof. apply omap_app. Qed.

Lemma execCmd_run {W : Type} {D : DockerCli W} (c : Controller)
    (containerID : string) (cmd : list string) (st : state W) :
  exists st',
    execCmd c containerID cmd st
    = Returned (exec_error containerID cmd (world st), st')
    /\ world st' = exec_after containerID [cmd] (world st)
    /\ executed st' = executed st ++ [cmd].
Proof.
  unfold execCmd, exec_error, exec_after. munfold. simpl.
  destruct (Exec containerID cmd (world st)) as [err w] eqn:E.
  eexists. split; [done |]. simpl. split; [done |].
  unfold executed. simpl. by rewrite commands_of_app.
Qed.

(** C7.  [execIptables] runs the iptables command; when that fails it
    refreshes the package index, installs iptables and runs the command once
    more, in this order and each step only after the one before succeeded.
    An error of the second run is returned to the caller.  No call runs more
    than these four commands: there is one installation and one retry at
    most. *)
Theorem execIptables_single_retry {W : Type} {D : DockerCli W}
    (c : Controller) (containerID : string) (args : list string)
    (st : state W) :
  let ipt := "iptables" :: args in
  exists r st' new,
    execIptables c containerID args st = Returned (r, st')
    /\ executed st' = executed st ++ new
    /\ world st' = exec_after containerID new (world st)
    /\ ((new = [ipt]
         /\ exec_error containerID ipt (world st) = None /\ r = None)
        \/ (exec_error containerID ipt (world st) <> None
            /\ ((new = [ipt; apt_update]
                 /\ exists err,
                      exec_error containerID apt_update
                        (exec_after containerID [ipt] (world st)) = Some err
                      /\ r = Some (errors_Wrap err "failed to update apt"))
                \/ (new = [ipt; apt_update; apt_install]
                    /\ exists err,
                         exec_error containerID apt_install
                           (exec_after containerID [ipt; apt_update] (world st))
                         = Some err
                         /\ r = Some (errors_Wrap err "failed to install iptables"))
                \/ (new = [ipt; apt_update; apt_install; ipt]
                    /\ r = (fun err =>
                              errors_Wrap err "failed to execute iptables command")
                           <$> exec_error containerID ipt
                                 (exec_after containerID
                                    [ipt; apt_update; apt_install] (world st)))))).
Proof.
  simpl. unfold execIptables. set (ipt := "iptables" :: args).
  destruct (execCmd_run c containerID ipt st) as (st1 & E1 & W1 & X1).
  unfold mbind, M_bind, bind at 1. rewrite E1.
  destruct (exec_error containerID ipt (world st)) as [err1 |] eqn:R1.
  2: { exists None, st1, [ipt]. unfold mret, M_ret, ret. tauto. }
  unfold mbind, M_bind, bind at 1.
  unfold Debug at 1.
  set (st1' := State (world st1) _).
  destruct (execCmd_run c containerID apt_update st1') as (st2 & E2 & W2 & X2).
  assert (executed st1' = executed st ++ [ipt]) as X1'.
  { unfold st1', executed in *. simpl. rewrite commands_of_app, X1. simpl.
    apply app_nil_r. }
  assert (world st1' = exec_after containerID [ipt] (world st)) as W1' by done.
  rewrite X1' in X2. rewrite W1' in W2, E2. clear X1' W1'.
  unfold apt_update in E2 at 1. unfold bind at 1. rewrite E2.
  destruct (exec_error containerID apt_update _) as [err2 |] eqn:R2.
  { exists (Some (errors_Wrap err2 "failed to update apt")), st2, [ipt; apt_update].
    unfold mret, M_ret, ret. rewrite <- app_assoc in X2.
    repeat split; [done | done |]. right. split; [done |]. left. eauto. }
  destruct (execCmd_run c containerID apt_install st2) as (st3 & E3 & W3 & X3).
  rewrite X2 in X3. rewrite W2 in W3, E3.
  unfold apt_install in E3 at 1. unfold bind at 1. rewrite E3.
  destruct (exec_error containerID apt_install _) as [err3 |] eqn:R3.
  { exists (Some (errors_Wrap err3 "failed to install iptables")), st3,
      [ipt; apt_update; apt_install].
    unfold mret, M_ret, ret. rewrite <- !app_assoc in X3.
    repeat split; [done | done |]. right. split; [done |]. right. left. eauto. }
  destruct (execCmd_run c containerID ipt st3) as (st4 & E4 & W4 & X4).
  rewrite X3 in X4. rewrite W3 in W4, E4. rewrite <- !app_assoc in X4.
  unfold bind at 1. rewrite E4.
  set (w3 := exec_after containerID [ipt; apt_update; apt_install] (world st)).
  change (exec_after containerID [apt_install]
            (exec_after containerID [apt_update]
               (exec_after containerID [ipt] (world st)))) with w3 in *.
  exists ((fun err => errors_Wrap err "failed to execute iptables command")
            <$> exec_error containerID ipt w3),
    st4, [ipt; apt_update; apt_install; ipt].
  split; [destruct (exec_error containerID ipt w3); reflexivity |].
  repeat split; [done | done |]. right. split; [done |]. right. right. done.
Qed.

Lemma execIptables_single_retry_witness :
  exists r st' new,
    execIptables Examples.ctrl "c1" ["-F"] (Examples.start Examples.daemon)
    = Returned (r, st')
    /\ executed st' = new
    /\ (length new <= 4)%nat.
Proof.
  destruct (execIptables_single_retry (D := MemDaemon.cli) Examples.ctrl "c1"
              ["-F"] (Examples.start Examples.daemon))
    as (r & st' & new & E & X & _ & Hnew).
  exists r, st', new. split; [exact E |]. split; [exact X |].
  destruct Hnew as [[-> _] | [_ [[-> _] | [[-> _] | [-> _]]]]]; simpl; lia.
Defined.

(** On the node of the reference backend, where iptables is not installed:
    the flush runs, fails, and runs again after the installation; a command
    that iptables refuses fails again after the installation, and that is the
    error of the call. *)
Lemma execIptables_installs_on_demand :
  (exists st',
     execIptables Examples.ctrl "c1" ["-F"] (Examples.start Examples.daemon)
     = Returned (None, st')
     /\ executed st'
        = [["iptables"; "-F"]; apt_update; apt_install; ["iptables"; "-F"]])
  /\ exists st',
       execIptables Examples.ctrl "c1" ["--bogus"] (Examples.start Examples.daemon)
       = Returned
           (Some "failed to execute iptables command: iptables: bad arguments", st')
       /\ executed st'
          = [["iptables"; "--bogus"]; apt_update; apt_install;
             ["iptables"; "--bogus"]].
Proof. split; eexists; split; vm_compute; reflexivity. Qed.

(** ** SetTrafficControl: the address block *)

(** [SetTrafficControl] fails on a network without an address block, with
    the message "more than one ipam config, cannot identify node subnet", and
    on a first block that lacks the node range or the gateway; the node range
    is the allocation range of the block when it has one. *)
Lemma SetTrafficControl_configuration_errors {W : Type} {D : DockerCli W}
    (c : Controller) (containerID : string) (blocked : bool) (st : state W)
    (netInfo : NetworkResource) (w : W) :
  NetworkInspect (NetworkName c) (world st) = (Ok netInfo, w) ->
  (IPAM_Config netInfo = [] ->
   result_of (SetTrafficControl c containerID blocked st)
   = Returned (Some "more than one ipam config, cannot identify node subnet"))
  /\ (forall block blocks,
        IPAM_Config netInfo = block :: blocks ->
        node_range block = EmptyString \/ Gateway block = EmptyString ->
        result_of (SetTrafficControl c containerID blocked st)
        = Returned (Some "failed to identify subnet or gateway ip")).
Proof.
  intros E. unfold SetTrafficControl. munfold. simpl. rewrite E. split.
  - by intros ->.
  - intros block blocks -> Hmiss. simpl. fold (node_range block).
    destruct Hmiss as [-> | ->]; [done |].
    by destruct (String.eqb (node_range block) EmptyString).
Qed.

Lemma node_range_prefers_IPRange (block : IPAMConfig) :
  IPRange block <> EmptyString -> node_range block = IPRange block.
Proof.
  intros N. unfold node_range.
  by destruct (String.eqb_spec (IPRange block) EmptyString).
Qed.

(** ** RemoveNode *)

Section RemoveNodeFacts.
Context {J : Json} {W : Type} {D : DockerCli W}.
Implicit Types (c : Controller) (st : state W).

Lemma RemoveNode_wait_waits c containerID n k st st' :
  waits c containerID n st st' ->
  RemoveNode_wait (n + S k) c containerID st
  = RemoveNode_wait (S k) c containerID st'.
Proof.
  induction 1 as [| n st nodes st1 st' El Hf _ IH]; [done |].
  rewrite <- IH. change (S n + S k)%nat with (S (n + S k)).
  cbn [RemoveNode_wait]. munfold. rewrite El, Hf. done.
Qed.

Lemma RemoveNode_wait_gone c containerID k st nodes st' :
  ListNodes c st = Returned (Ok nodes, st') ->
  foundNode nodes containerID = false ->
  RemoveNode_wait (S k) c containerID st = Returned (None, st').
Proof. intros El Hf. cbn [RemoveNode_wait]. munfold. by rewrite El, Hf. Qed.

Lemma RemoveNode_wait_error c containerID k st err st' :
  ListNodes c st = Returned (Err err, st') ->
  RemoveNode_wait (S k) c containerID st
  = Returned (Some (errors_Wrap err "failed to list nodes"), st').
Proof. intros El. cbn [RemoveNode_wait]. munfold. by rewrite El. Qed.

Lemma RemoveNode_stop_failed c containerID fuel st err w :
  ContainerStop containerID (world st) = (Some err, w) ->
  exists st',
    RemoveNode fuel c containerID st
    = Returned (Some (errors_Wrap err "failed to stop container"), st')
    /\ world st' = w.
Proof.
  intros E. unfold RemoveNode. munfold. simpl. rewrite E. eauto.
Qed.

Lemma RemoveNode_stopped c containerID fuel st w :
  ContainerStop containerID (world st) = (None, w) ->
  result_of (RemoveNode fuel c containerID st)
  = result_of (RemoveNode_wait fuel c containerID
                 (removal_requested containerID st)).
Proof.
  intros E. unfold RemoveNode, removal_requested. munfold. simpl. rewrite E.
  simpl. destruct (ContainerRemove containerID w) as [r w2]. simpl.
  by destruct (RemoveNode_wait _ _ _ _) as [[[err |] st1] | |].
Qed.

End RemoveNodeFacts.

(** C4, as the code has it.  [RemoveNode] requests the stop first.  When the
    stop request fails, the call returns that error ("failed to stop
    container") and does nothing more.  When it succeeds, the removal is
    requested and its result ignored, and the listing is polled: after [n]
    rounds in which the identifier still appears, a listing without the
    identifier ends the call without an error, and a listing that fails ends
    it with that error, for any fuel above [n]. *)
Theorem RemoveNode_stop_then_poll {W : Type} {D : DockerCli W} {J : Json}
    (c : Controller) (containerID : string) (st : state W) :
  (forall err w,
      ContainerStop containerID (world st) = (Some err, w) ->
      forall fuel, exists st',
        RemoveNode fuel c containerID st
        = Returned (Some (errors_Wrap err "failed to stop container"), st')
        /\ world st' = w)
  /\ (forall w n st_n nodes st',
        ContainerStop containerID (world st) = (None, w) ->
        waits c containerID n (removal_requested containerID st) st_n ->
        ListNodes c st_n = Returned (Ok nodes, st') ->
        foundNode nodes containerID = false ->
        forall fuel, (n < fuel)%nat ->
          result_of (RemoveNode fuel c containerID st) = Returned None)
  /\ (forall w n st_n err st',
        ContainerStop containerID (world st) = (None, w) ->
        waits c containerID n (removal_requested containerID st) st_n ->
        ListNodes c st_n = Returned (Err err, st') ->
        forall fuel, (n < fuel)%nat ->
          result_of (RemoveNode fuel c containerID st)
          = Returned (Some (errors_Wrap err "failed to list nodes"))).
Proof.
  split; [| split].
  - intros err w E fuel. by apply RemoveNode_stop_failed.
  - intros w n st_n nodes st' E Hw El Hf fuel Hlt.
    rewrite (RemoveNode_stopped c containerID fuel st w E).
    replace fuel with (n + S (fuel - S n))%nat by lia.
    rewrite (RemoveNode_wait_waits c containerID n _ _ _ Hw).
    by rewrite (RemoveNode_wait_gone c containerID _ st_n nodes st' El Hf).
  - intros w n st_n err st' E Hw El fuel Hlt.
    rewrite (RemoveNode_stopped c containerID fuel st w E).
    replace fuel with (n + S (fuel - S n))%nat by lia.
    rewrite (RemoveNode_wait_waits c containerID n _ _ _ Hw).
    by rewrite (RemoveNode_wait_error c containerID _ st_n err st' El).
Qed.

Lemma RemoveNode_stop_then_poll_witness :
  result_of (RemoveNode (J := NanoCodec.json) 1 Examples.ctrl "c1"
               (Examples.start Examples.daemon))
  = Returned None
  /\ exists st',
       RemoveNode (J := NanoCodec.json) 1 Examples.ctrl "c9"
         (Examples.start Examples.daemon)
       = Returned (Some "failed to stop container: No such container: c9", st').
Proof.
  pose proof (RemoveNode_stop_then_poll (J := NanoCodec.json) Examples.ctrl "c1"
                (Examples.start Examples.daemon)) as (_ & Hpoll & _).
  pose proof (RemoveNode_stop_then_poll (J := NanoCodec.json) Examples.ctrl "c9"
                (Examples.start Examples.daemon)) as [Hstop _].
  split.
  - eapply (Hpoll _ O).
    + vm_compute. reflexivity.
    + apply waits_O.
    + vm_compute. reflexivity.
    + reflexivity.
    + lia.
  - destruct (Hstop "No such container: c9" Examples.daemon eq_refl 1%nat)
      as (st' & E & _).
    exists st'. exact E.
Defined.

(** On the reference backend, a first [RemoveNode] removes the node, and a
    second call for the same identifier returns a hard error: the resource
    is gone and the stop request fails. *)
Lemma RemoveNode_twice_counterexample :
  exists st1,
    RemoveNode (J := NanoCodec.json) 1 Examples.ctrl "c1"
      (Examples.start Examples.daemon) = Returned (None, st1)
    /\ MemDaemon.find_container (world st1) "c1" = None
    /\ result_of (RemoveNode (J := NanoCodec.json) 1 Examples.ctrl "c1" st1)
       = Returned (Some "failed to stop container: No such container: c1").
Proof. eexists. repeat split; vm_compute; reflexivity. Qed.

(** ** The reference backend *)

Section MemDaemonFacts.
Import MemDaemon.
Implicit Types (d : MemDaemon.t) (mc : MemContainer).

Lemma find_container_has_id d containerID mc :
  find_container d containerID = Some mc -> has_id containerID mc = true.
Proof.
  unfold find_container. intros E. by apply find_some in E as [_ ?].
Qed.

Lemma find_update_container d containerID f mc :
  find_container d containerID = Some mc ->
  has_id containerID (f mc) = true ->
  find_container (update_container d containerID f) containerID = Some (f mc).
Proof.
  unfold find_container, update_container. simpl.
  induction (containers d) as [| x l IH]; simpl; [done |].
  destruct (has_id containerID x) eqn:Ex.
  - intros [= ->] Hf. simpl. by rewrite Hf.
  - intros E Hf. simpl. rewrite Ex. by apply IH.
Qed.

(** A command runs in a container that exists and is running. *)
Lemma mem_Exec_running d containerID cmd mc :
  find_container d containerID = Some mc -> running mc = true ->
  mem_Exec containerID cmd d
  = ((run cmd mc).1, update_container d containerID (fun _ => (run cmd mc).2)).
Proof.
  intros E R. unfold mem_Exec. rewrite E, R. simpl. by destruct (run cmd mc).
Qed.

Lemma mem_Exec_not_running d containerID cmd :
  match find_container d containerID with
  | Some mc => running mc = false
  | None => True
  end ->
  exists err, mem_Exec containerID cmd d = (Some err, d).
Proof.
  unfold mem_Exec. destruct (find_container d containerID) as [mc |]; [| eauto].
  intros ->. simpl. eauto.
Qed.

Lemma run_info cmd mc :
  info (run cmd mc).2 = info mc /\ running (run cmd mc).2 = running mc.
Proof.
  unfold run. destruct cmd as [| prog args]; [done |].
  destruct (String.eqb prog "iptables").
  - destruct (negb (iptablesInstalled mc)); [done |].
    by destruct (iptables args (inputChain mc)).
  - destruct (cmd_eqb _ _); [done |]. by destruct (cmd_eqb _ _).
Qed.

End MemDaemonFacts.

Section MemDaemonExec.
Import MemDaemon.
Implicit Types (c : Controller) (st : state MemDaemon.t) (mc : MemContainer).

Lemma execCmd_mem c containerID cmd st mc :
  at_container st containerID mc ->
  exists st',
    execCmd c containerID cmd st = Returned ((run cmd mc).1, st')
    /\ at_container st' containerID (run cmd mc).2.
Proof.
  intros [E R]. unfold execCmd. munfold. simpl.
  change (Exec containerID cmd (world st)) with (mem_Exec containerID cmd (world st)).
  rewrite (mem_Exec_running _ _ _ _ E R).
  eexists. split; [done |]. split; simpl.
  - destruct (run_info cmd mc) as [Hi _].
    apply (find_update_container _ _ (fun _ => (run cmd mc).2) mc E).
    apply find_container_has_id in E. unfold has_id in *. by rewrite Hi.
  - destruct (run_info cmd mc) as [_ Hr]. by rewrite Hr.
Qed.

Lemma execCmd_mem_fail c containerID cmd st :
  (forall mc, ~ at_container st containerID mc) ->
  exists err st',
    execCmd c containerID cmd st = Returned (Some err, st')
    /\ world st' = world st.
Proof.
  intros N. unfold execCmd. munfold. simpl.
  change (Exec containerID cmd (world st)) with (mem_Exec containerID cmd (world st)).
  destruct (mem_Exec_not_running (world st) containerID cmd) as [err ->]; [| eauto].
  destruct (find_container (world st) containerID) as [mc |] eqn:E; [| done].
  destruct (running mc) eqn:R; [| done].
  by destruct (N mc).
Qed.

(** [execIptables] never succeeds on a container that is absent or stopped. *)
Lemma execIptables_mem_fail c containerID args st :
  (forall mc, ~ at_container st containerID mc) ->
  exists err st', execIptables c containerID args st = Returned (Some err, st').
Proof.
  intros N. unfold execIptables.
  destruct (execCmd_mem_fail c containerID ("iptables" :: args) st N)
    as (err1 & st1 & E1 & W1).
  unfold mbind, M_bind, bind at 1. rewrite E1.
  unfold bind at 1. unfold Debug at 1.
  set (st1' := State (world st1) _).
  destruct (execCmd_mem_fail c containerID ["apt-get"; "update"] st1')
    as (err2 & st2 & E2 & W2).
  { intros mc [E R]. apply (N mc). split; [| done]. simpl in E. by rewrite <- W1. }
  unfold bind at 1. rewrite E2. unfold mret, M_ret, ret. eauto.
Qed.

(** On a running container, [execIptables] succeeds exactly when iptables
    accepts the arguments, and then the chain is the one iptables leaves;
    otherwise the chain is unchanged.  Whether iptables was installed before
    makes no difference. *)
Lemma execIptables_mem c containerID args st mc :
  at_container st containerID mc ->
  exists r st' mc',
    execIptables c containerID args st = Returned (r, st')
    /\ at_container st' containerID mc'
    /\ match iptables args (inputChain mc) with
       | Ok chain => r = None /\ inputChain mc' = chain
       | Err _ => r <> None /\ inputChain mc' = inputChain mc
       end.
Proof.
  intros Hat. unfold execIptables.
  destruct (execCmd_mem c containerID ("iptables" :: args) st mc Hat)
    as (st1 & E1 & Hat1).
  unfold mbind, M_bind, bind at 1. rewrite E1.
  destruct (run ("iptables" :: args) mc) as [r1 mc1] eqn:R1. simpl in *.
  destruct r1 as [err1 |].
  2: { exists None, st1, mc1. unfold mret, M_ret, ret.
       split; [done |]. split; [done |].
       destruct (iptablesInstalled mc); simpl in R1; [| done].
       destruct (iptables args (inputChain mc)); [| done].
       by injection R1 as <-. }
  unfold bind at 1. unfold Debug at 1.
  set (st1' := State (world st1) _).
  assert (at_container st1' containerID mc1) as Hat1' by done.
  destruct (execCmd_mem c containerID ["apt-get"; "update"] st1' mc1 Hat1')
    as (st2 & E2 & Hat2).
  unfold bind at 1. rewrite E2.
  change (run ["apt-get"; "update"] mc1) with (@None error, mc1) in *.
  simpl in *.
  destruct (execCmd_mem c containerID ["apt-get"; "-y"; "install"; "iptables"]
              st2 mc1 Hat2) as (st3 & E3 & Hat3).
  unfold bind at 1. rewrite E3.
  set (mc3 := {| info := info mc1; running := running mc1;
                 autoRemove := autoRemove mc1; files := files mc1;
                 iptablesInstalled := true; inputChain := inputChain mc1 |}).
  change (run ["apt-get"; "-y"; "install"; "iptables"] mc1)
    with (@None error, mc3) in *.
  simpl in *.
  destruct (execCmd_mem c containerID ("iptables" :: args) st3 mc3 Hat3)
    as (st4 & E4 & Hat4).
  unfold bind at 1. rewrite E4.
  assert (inputChain mc1 = inputChain mc) as Hc.
  { destruct (iptablesInstalled mc); simpl in R1; [| by injection R1 as _ <-].
    destruct (iptables args (inputChain mc)); [done | by injection R1 as _ <-]. }
  assert (run ("iptables" :: args) mc3
          = match iptables args (inputChain mc) with
            | Ok chain =>
                (None, {| info := info mc3; running := running mc3;
                          autoRemove := autoRemove mc3; files := files mc3;
                          iptablesInstalled := true; inputChain := chain |})
            | Err err => (Some err, mc3)
            end) as R4.
  { simpl. rewrite Hc. by destruct (iptables args (inputChain mc)). }
  rewrite R4 in *. clear R4.
  destruct (iptables args (inputChain mc)) as [chain | err] eqn:I; simpl in *.
  - eexists None, st4, _. unfold mret, M_ret, ret.
    split; [done |]. split; [exact Hat4 |]. done.
  - eexists (Some _), st4, mc3. unfold mret, M_ret, ret.
    split; [done |]. split; [exact Hat4 |]. done.
Qed.

(** The same, from the result: success needs a running container. *)
Lemma execIptables_mem_ok c containerID args st st' :
  execIptables c containerID args st = Returned (None, st') ->
  exists mc mc' chain,
    at_container st containerID mc
    /\ at_container st' containerID mc'
    /\ iptables args (inputChain mc) = Ok chain
    /\ inputChain mc' = chain.
Proof.
  intros E.
  destruct (find_container (world st) containerID) as [mc |] eqn:F.
  - destruct (running mc) eqn:R.
    + destruct (execIptables_mem c containerID args st mc (conj F R))
        as (r & st1 & mc' & E' & Hat' & Hr).
      rewrite E in E'. injection E' as <- <-.
      destruct (iptables args (inputChain mc)) as [chain | err] eqn:I.
      * exists mc, mc', chain. destruct Hr as [_ Hc].
        split; [by split |]. split; [exact Hat' |]. by split.
      * by destruct Hr.
    + destruct (execIptables_mem_fail c containerID args st) as (err & st1 & E').
      { intros mc0 [F0 R0]. congruence. }
      congruence.
  - destruct (execIptables_mem_fail c containerID args st) as (err & st1 & E').
    { intros mc0 [F0 R0]. congruence. }
    congruence.
Qed.

End MemDaemonExec.

(** ** SetTrafficControl on the reference backend *)

Section TrafficControlFacts.
Import MemDaemon.
Implicit Types (c : Controller) (st : state MemDaemon.t) (mc : MemContainer).

Lemma at_container_inj st containerID mc mc' :
  at_container st containerID mc -> at_container st containerID mc' -> mc = mc'.
Proof. intros [E _] [E' _]. congruence. Qed.

Lemma Debug_Returned {W : Type} msg fields (st st' : state W) u :
  Debug msg fields st = Returned (u, st') -> world st' = world st.
Proof. unfold Debug. by intros [= _ <-]. Qed.

Lemma SetTrafficControl_block_mem_ok c containerID ipRange gatewayIP st st' mc :
  SetTrafficControl_block c containerID ipRange gatewayIP st = Returned (None, st') ->
  at_container st containerID mc ->
  exists mc',
    at_container st' containerID mc'
    /\ inputChain mc'
       = {| rule_source := gatewayIP; rule_target := ACCEPT |}
         :: {| rule_source := ipRange; rule_target := DROP |}
         :: inputChain mc.
Proof.
  intros E Hat. unfold SetTrafficControl_block in E.
  apply bind_Returned in E as (r1 & st1 & E1 & E).
  destruct r1 as [err |]; [done |].
  apply execIptables_mem_ok in E1 as (mc0 & mc1 & chain1 & Hat0 & Hat1 & I1 & C1).
  rewrite (at_container_inj _ _ _ _ Hat0 Hat) in I1. cbn in I1.
  injection I1 as <-.
  apply bind_Returned in E as (r2 & st2 & E2 & E).
  destruct r2 as [err |]; [done |].
  apply execIptables_mem_ok in E2 as (mc1' & mc2 & chain2 & Hat1' & Hat2 & I2 & C2).
  rewrite (at_container_inj _ _ _ _ Hat1' Hat1), C1 in I2. cbn in I2.
  injection I2 as <-.
  injection E as <-. by exists mc2.
Qed.

End TrafficControlFacts.

(** C6.  On the reference backend, a call of [SetTrafficControl] with
    [blocked] that returns without an error leaves the INPUT chain of the
    container with two rules: first the rule that accepts what comes from the
    gateway address, then the rule that drops what comes from the node range
    (the allocation range of the first address block when there is one, its
    subnet otherwise).  The chain was cleared, the drop rule inserted and the
    accept rule inserted above it.  So a packet from the gateway address is
    accepted, and a packet from another address of the node range is
    dropped. *)
Theorem SetTrafficControl_blocked (c : Controller) (containerID : string)
    (st st' : state MemDaemon.t) (src_match : string -> string -> bool) :
  SetTrafficControl c containerID true st = Returned (None, st') ->
  exists net block mc',
    MemDaemon.networks (world st) !! NetworkName c = Some net
    /\ head (IPAM_Config net) = Some block
    /\ at_container st' containerID mc'
    /\ MemDaemon.inputChain mc'
       = [ {| MemDaemon.rule_source := Gateway block;
              MemDaemon.rule_target := MemDaemon.ACCEPT |};
           {| MemDaemon.rule_source := node_range block;
              MemDaemon.rule_target := MemDaemon.DROP |} ]
    /\ forall addr,
         (src_match (Gateway block) addr = true ->
          MemDaemon.verdict src_match (MemDaemon.inputChain mc') addr
          = MemDaemon.ACCEPT)
         /\ (src_match (Gateway block) addr = false ->
             src_match (node_range block) addr = true ->
             MemDaemon.verdict src_match (MemDaemon.inputChain mc') addr
             = MemDaemon.DROP).
Proof.
  intros E. unfold SetTrafficControl in E.
  apply bind_Returned in E as ([] & st0 & E0 & E).
  apply Debug_Returned in E0.
  apply bind_Returned in E as (r & st1 & E1 & E).
  unfold docker in E1. rewrite E0 in E1.
  change (NetworkInspect (NetworkName c) (world st))
    with (MemDaemon.mem_NetworkInspect (NetworkName c) (world st)) in E1.
  unfold MemDaemon.mem_NetworkInspect in E1.
  destruct (MemDaemon.networks (world st) !! NetworkName c) as [net |] eqn:N.
  2: { injection E1 as <- <-. done. }
  injection E1 as <- <-.
  destruct (Nat.ltb (length (IPAM_Config net)) 1); [done |].
  destruct (IPAM_Config net !! 0%nat) as [block |] eqn:B; [| done].
  rewrite <- head_lookup in B.
  cbv zeta in E. fold (node_range block) in E.
  destruct (String.eqb (node_range block) EmptyString || String.eqb (Gateway block) EmptyString);
    [done |].
  apply bind_Returned in E as (r1 & st2 & E2 & E).
  destruct r1 as [err |]; [done |].
  apply execIptables_mem_ok in E2 as (mc & mc2 & chain & Hat & Hat2 & I & C).
  cbn in I. injection I as <-.
  apply bind_Returned in E as (r2 & st3 & E3 & E).
  destruct r2 as [err |]; [done |].
  destruct (SetTrafficControl_block_mem_ok c containerID _ _ _ _ mc2 E3 Hat2)
    as (mc3 & Hat3 & C3).
  rewrite C in C3.
  apply bind_Returned in E as (r3 & st5 & E5 & E).
  destruct (execIptables_mem c containerID ["-S"] st3 mc3 Hat3)
    as (r3' & st5' & mc5 & E5' & Hat5 & H5).
  rewrite E5 in E5'. injection E5' as <- <-. simpl in H5. destruct H5 as [-> C5].
  apply bind_Returned in E as ([] & st4 & E4 & E).
  injection E4 as <-.
  apply bind_Returned in E as ([] & st6 & E6 & E).
  apply Debug_Returned in E6. injection E as <-.
  exists net, block, mc5. split; [done |]. split; [done |].
  split; [destruct Hat5 as [F R]; split; [by rewrite E6 | done] |].
  rewrite C5, C3. split; [done |].
  intros addr. simpl. split.
  - by intros ->.
  - by intros -> ->.
Qed.

Lemma SetTrafficControl_blocked_witness :
  exists st' mc',
    SetTrafficControl Examples.ctrl "c1" true (Examples.start Examples.daemon)
    = Returned (None, st')
    /\ at_container st' "c1" mc'
    /\ MemDaemon.verdict Examples.src_match (MemDaemon.inputChain mc') "172.18.0.1"
       = MemDaemon.ACCEPT
    /\ MemDaemon.verdict Examples.src_match (MemDaemon.inputChain mc') "172.18.0.7"
       = MemDaemon.DROP.
Proof.
  destruct (SetTrafficControl Examples.ctrl "c1" true
              (Examples.start Examples.daemon)) as [[[err |] st'] | msg |] eqn:E;
    try (vm_compute in E; discriminate E).
  destruct (SetTrafficControl_blocked Examples.ctrl "c1"
              (Examples.start Examples.daemon) st' Examples.src_match E)
    as (net & block & mc' & N & B & Hat & C & V).
  exists st', mc'. split; [reflexivity |]. split; [exact Hat |].
  vm_compute in N. injection N as <-. vm_compute in B. injection B as <-.
  split.
  - apply (V "172.18.0.1"). reflexivity.
  - apply (V "172.18.0.7"); reflexivity.
Defined.

(** C5, at a network with two address blocks.  [SetTrafficControl] tests
    [len(netInfo.IPAM.Config) < 1], so that the error "more than one ipam
    config, cannot identify node subnet" is returned for no block, and a
    network with two blocks passes: the first block is used and the call
    returns without an error. *)
Theorem SetTrafficControl_two_blocks :
  MemDaemon.networks Examples.daemon_two_blocks !! NetworkName Examples.ctrl
  = Some Examples.two_blocks
  /\ length (IPAM_Config Examples.two_blocks) = 2%nat
  /\ result_of (SetTrafficControl Examples.ctrl "c1" false
                  (Examples.start Examples.daemon_two_blocks))
     = Returned None
  /\ result_of (SetTrafficControl Examples.ctrl "c1" true
                  (Examples.start Examples.daemon_two_blocks))
     = Returned None.
Proof. repeat split; vm_compute; reflexivity. Qed.

(** ** The file system of the reference backend *)

Section FileSystemFacts.
Import MemDaemon.
Implicit Types (fs : gmap string (list Byte.byte)).

Lemma strip_prefix_Some p s r : strip_prefix p s = Some r <-> s = p +:+ r.
Proof.
  revert s. induction p as [| a p IH]; intros s; simpl.
  - change (EmptyString +:+ r) with r. split; congruence.
  - change (String a p +:+ r) with (String a (p +:+ r)).
    destruct s as [| b s]; [done |].
    destruct (Ascii.eqb_spec a b) as [-> | N].
    + rewrite IH. split; congruence.
    + split; congruence.
Qed.

Lemma below_file_false fs path k r :
  below_file fs path = false ->
  strip_prefix (k +:+ "/") path = Some r -> fs !! k = None.
Proof.
  unfold below_file. intros Hb Hs.
  destruct (fs !! k) as [v |] eqn:E; [| done].
  assert (existsb (fun '(k, _) =>
                     match strip_prefix (k +:+ "/") path with
                     | Some _ => true
                     | None => false
                     end) (map_to_list fs) = true) as Ht; [| congruence].
  apply existsb_exists. exists (k, v). split.
  - apply list_elem_of_In, elem_of_map_to_list, E.
  - by rewrite Hs.
Qed.

Lemma elem_of_files_below srcPath fs rel data :
  (rel, data) ∈ files_below srcPath fs
  <-> exists path, fs !! path = Some data
                   /\ strip_prefix (srcPath +:+ "/") path = Some rel.
Proof.
  unfold files_below. rewrite list_elem_of_omap. split.
  - intros ([path d] & Hin & Hs).
    apply elem_of_map_to_list in Hin.
    destruct (strip_prefix _ path) as [rel' |] eqn:S; simpl in Hs; [| done].
    injection Hs as <- <-. eauto.
  - intros (path & E & S). exists (path, data). split.
    + by apply elem_of_map_to_list.
    + by rewrite S.
Qed.

End FileSystemFacts.

Section RoundTrip.
Import MemDaemon.
Context {J : Json}.
Implicit Types (c : Controller) (st : state MemDaemon.t).

(** The loop of [ReadNodeState] over the entries of a directory in which
    every entry of the state-file name holds [data]. *)
Lemma ReadNodeState_loop_directory base data t
    (below : list (string * list Byte.byte)) v :
  json_decode data = JObject (Some t) ->
  (forall rel d, (rel, d) ∈ below -> base +:+ "/" +:+ rel = state_file -> d = data) ->
  exists v',
    ReadNodeState_loop
      (foldr (fun '(rel, d) rest => TarNext (base +:+ "/" +:+ rel) (Ok d) rest)
         TarEOF below) v = Ok v'
    /\ (v' = Some (DockerNodeStateJson.Build t)
        \/ (v' = v
            /\ forall rel d, (rel, d) ∈ below -> base +:+ "/" +:+ rel <> state_file)).
Proof.
  intros Hd. revert v. induction below as [| [rel d] below IH]; intros v Hall.
  - exists v. split; [done |]. right. split; [done |].
    intros rel d Hin. by apply elem_of_nil in Hin.
  - simpl. fold state_file.
    assert (forall rel0 d0, (rel0, d0) ∈ below ->
              base +:+ "/" +:+ rel0 = state_file -> d0 = data) as Hall'.
    { intros rel0 d0 Hin. apply Hall. by apply list_elem_of_further. }
    destruct (String.eqb_spec (base +:+ "/" +:+ rel) state_file) as [En | Nn];
      simpl.
    + rewrite (Hall rel d (list_elem_of_here _ _) En).
      unfold json_Unmarshal. rewrite Hd. simpl.
      destruct (IH (Some (DockerNodeStateJson.Build t)) Hall')
        as (v' & -> & [-> | [-> _]]); eexists; split; try done; by left.
    + destruct (IH v Hall') as (v' & -> & [-> | [-> Hno]]).
      * eexists. split; [done |]. by left.
      * exists v. split; [done |]. right. split; [done |].
        intros rel0 d0 Hin. apply elem_of_cons in Hin as [[= -> ->] | Hin];
          [done | by eapply Hno].
Qed.

Lemma WriteNodeState_Returned c containerID s st st1 :
  WriteNodeState c containerID s st = Returned (None, st1) ->
  exists data mc,
    json_Marshal (DockerNodeStateJson.Build (DockerNodeState.Expiry s)) = Ok data
    /\ find_container (world st) containerID = Some mc
    /\ below_file (files mc) "/var/cbdyncluster/state" = false
    /\ find_container (world st1) containerID
       = Some {| info := info mc; running := running mc;
                 autoRemove := autoRemove mc;
                 files := <["/var/cbdyncluster/state" := data]> (files mc);
                 iptablesInstalled := iptablesInstalled mc;
                 inputChain := inputChain mc |}.
Proof.
  intros E. unfold WriteNodeState in E.
  apply bind_Returned in E as ([] & st0 & E0 & E).
  apply Debug_Returned in E0.
  destruct (json_Marshal _) as [data | err] eqn:M; [| done].
  apply bind_Returned in E as (r & st2 & E2 & E).
  destruct r as [err |]; [done |]. injection E as <-.
  unfold docker in E2. rewrite E0 in E2.
  change (CopyToContainer containerID "/var/" ?a (world st))
    with (mem_CopyToContainer containerID "/var/" a (world st)) in E2.
  unfold mem_CopyToContainer in E2.
  destruct (find_container (world st) containerID) as [mc |] eqn:F; [| done].
  simpl extract in E2. unfold extract_file in E2.
  change (path_join "/var/" (tar_Name (TarFile "cbdyncluster/state" _ data)))
    with "/var/cbdyncluster/state" in E2.
  destruct (is_dir (files mc) "/var/cbdyncluster/state"); [done |].
  destruct (below_file (files mc) "/var/cbdyncluster/state") eqn:B; [done |].
  simpl in E2. injection E2 as <-. simpl.
  exists data, mc. split; [done |]. split; [done |]. split; [done |].
  apply (find_update_container _ _
           (fun mc0 => {| info := info mc0; running := running mc0;
                          autoRemove := autoRemove mc0;
                          files := <["/var/cbdyncluster/state" := data]> (files mc);
                          iptablesInstalled := iptablesInstalled mc0;
                          inputChain := inputChain mc0 |}) mc F).
  by apply find_container_has_id in F.
Qed.

Lemma ReadNodeState_after_write c containerID st mc data t :
  find_container (world st) containerID = Some mc ->
  files mc !! "/var/cbdyncluster" = None ->
  files mc !! "/var/cbdyncluster/state" = Some data ->
  json_decode data = JObject (Some t) ->
  result_of (ReadNodeState c containerID st)
  = Returned (Ok (Some (DockerNodeState.Build t))).
Proof.
  intros F Hnone Hstate Hd. rewrite ReadNodeState_result.
  change (CopyFromContainer containerID "/var/cbdyncluster" (world st))
    with (mem_CopyFromContainer containerID "/var/cbdyncluster" (world st)).
  unfold mem_CopyFromContainer, archive_of. rewrite F, Hnone.
  change (basename "/var/cbdyncluster") with "cbdyncluster".
  assert (("state", data) ∈ files_below "/var/cbdyncluster" (files mc)) as Hin.
  { apply elem_of_files_below. by exists "/var/cbdyncluster/state". }
  destruct (files_below "/var/cbdyncluster" (files mc)) as [| e below] eqn:Eb.
  { by apply elem_of_nil in Hin. }
  rewrite <- Eb in *. clear Eb e below. simpl.
  destruct (ReadNodeState_loop_directory "cbdyncluster" data t
              (files_below "/var/cbdyncluster" (files mc)) None Hd)
    as (v' & E & Hv).
  { intros rel d Hrel Hname. unfold state_file in Hname.
    cbv [String.append] in Hname. injection Hname as ->.
    apply elem_of_files_below in Hrel as (path & Hp & Hs).
    apply strip_prefix_Some in Hs. subst path.
    cbv [String.append] in Hp. congruence. }
  rewrite E. destruct Hv as [-> | [_ Hno]]; [done |].
  by destruct (Hno "state" data Hin).
Qed.

(** Decoding a document a second time changes nothing. *)
Lemma json_Unmarshal_again data v :
  json_Unmarshal data None = (None, v) -> json_Unmarshal data v = (None, v).
Proof.
  unfold json_Unmarshal.
  destruct (json_decode data) as [err | | [t |]]; [done | | |];
    by intros [= <-].
Qed.

(** The loop of [ReadNodeState] over the entries of a directory in which
    every entry of the state-file name holds [data]: it ends as one
    [json.Unmarshal] of [data] does when there is such an entry. *)
Lemma ReadNodeState_loop_directory_any base data
    (below : list (string * list Byte.byte)) v :
  (forall rel d, (rel, d) ∈ below -> base +:+ "/" +:+ rel = state_file -> d = data) ->
  v = None \/ json_Unmarshal data None = (None, v) ->
  ReadNodeState_loop
    (foldr (fun '(rel, d) rest => TarNext (base +:+ "/" +:+ rel) (Ok d) rest)
       TarEOF below) v
  = if existsb (fun '(rel, _) => String.eqb (base +:+ "/" +:+ rel) state_file)
         below
    then match json_Unmarshal data None with
         | (Some err, _) =>
             Err (errors_Wrap err "failed to parse dyncluster node state data")
         | (None, u) => Ok u
         end
    else Ok v.
Proof.
  revert v. induction below as [| [rel d] below IH]; intros v Hall Hv; [done |].
  assert (forall rel0 d0, (rel0, d0) ∈ below ->
            base +:+ "/" +:+ rel0 = state_file -> d0 = data) as Hall'.
  { intros rel0 d0 Hin. apply Hall. by apply list_elem_of_further. }
  simpl. fold state_file.
  destruct (String.eqb_spec (base +:+ "/" +:+ rel) state_file) as [En | Nn];
    simpl; [| by apply IH].
  rewrite (Hall rel d (list_elem_of_here _ _) En).
  destruct (json_Unmarshal data None) as [[err |] u] eqn:U.
  - destruct Hv as [-> | Hv]; [by rewrite U | done].
  - assert (json_Unmarshal data v = (None, u)) as ->.
    { destruct Hv as [-> | [= <-]]; [done | by apply json_Unmarshal_again]. }
    rewrite (IH u Hall') by (right; done).
    by destruct (existsb _ below).
Qed.

Lemma ReadNodeState_after_write_any c containerID st mc data :
  find_container (world st) containerID = Some mc ->
  files mc !! "/var/cbdyncluster" = None ->
  files mc !! "/var/cbdyncluster/state" = Some data ->
  result_of (ReadNodeState c containerID st) = Returned (read_back data).
Proof.
  intros F Hnone Hstate. rewrite ReadNodeState_result.
  change (CopyFromContainer containerID "/var/cbdyncluster" (world st))
    with (mem_CopyFromContainer containerID "/var/cbdyncluster" (world st)).
  unfold mem_CopyFromContainer, archive_of. rewrite F, Hnone.
  change (basename "/var/cbdyncluster") with "cbdyncluster".
  assert (("state", data) ∈ files_below "/var/cbdyncluster" (files mc)) as Hin.
  { apply elem_of_files_below. by exists "/var/cbdyncluster/state". }
  destruct (files_below "/var/cbdyncluster" (files mc)) as [| e below] eqn:Eb.
  { by apply elem_of_nil in Hin. }
  rewrite <- Eb in *. clear Eb e below. simpl.
  rewrite (ReadNodeState_loop_directory_any "cbdyncluster" data
             (files_below "/var/cbdyncluster" (files mc)) None).
  - assert (existsb (fun '(rel, _) =>
                       String.eqb ("cbdyncluster" +:+ "/" +:+ rel) state_file)
              (files_below "/var/cbdyncluster" (files mc)) = true) as ->.
    { apply existsb_exists. exists ("state", data).
      split; [by apply list_elem_of_In | done]. }
    unfold json_Unmarshal, read_back.
    by destruct (json_decode data) as [err | | [t |]].
  - intros rel d Hrel Hname. unfold state_file in Hname.
    cbv [String.append] in Hname. injection Hname as ->.
    apply elem_of_files_below in Hrel as (path & Hp & Hs).
    apply strip_prefix_Some in Hs. subst path.
    cbv [String.append] in Hp. congruence.
  - by left.
Qed.

End RoundTrip.




(** A time beyond the year 9999 has no JSON form: [WriteNodeState] returns
    the error of [json.Marshal] and writes nothing. *)
Lemma WriteNodeState_year_out_of_range :
  result_of (WriteNodeState (J := NanoCodec.json) Examples.ctrl "c1"
               (DockerNodeState.Build NanoCodec.year_10000)
               (Examples.start Examples.daemon))
  = Returned (Some "failed to marshal dyncluster node state: Time.MarshalJSON: year outside of range [0,9999]").
Proof. vm_compute. reflexivity. Qed.

(** * Part III: further properties *)

(** ** ListNodes: what is listed *)

Section ListNodesMore.
Context {J : Json} {W : Type} {D : DockerCli W}.
Implicit Types (c : Controller) (st : state W).

Lemma parseContainerInfo_labelled c container r :
  parseContainerInfo c container = Returned r ->
  match r with
  | Some _ => labelled container = true
  | None => labelled container = false
  end.
Proof.
  intros E. apply parseContainerInfo_Returned in E. unfold labelled.
  destruct r as [node |].
  - destruct E as (_ & Hc & Hn & _). rewrite <- Hc.
    by destruct (String.eqb_spec (NodeInfo.ClusterID node) EmptyString).
  - by rewrite E.
Qed.

Lemma ListNodes_loop_listed c containers nodes st :
  (forall container, container ∈ containers ->
     exists r, parseContainerInfo c container = Returned r) ->
  exists new st',
    ListNodes_loop c containers nodes st = Returned (nodes ++ new, st')
    /\ Forall2 (listed_as c) (List.filter labelled containers) new.
Proof.
  revert nodes st. induction containers as [| container containers IH];
    intros nodes st Hparse.
  - exists [], st. simpl. munfold. rewrite app_nil_r. by split.
  - destruct (Hparse container (list_elem_of_here _ _)) as [r P].
    assert (forall x, x ∈ containers ->
              exists r, parseContainerInfo c x = Returned r) as Hparse'.
    { intros x Hx. apply Hparse. by apply list_elem_of_further. }
    pose proof (parseContainerInfo_labelled c container r P) as Hl.
    simpl. munfold. rewrite P. destruct r as [node |]; rewrite Hl.
    + destruct (ReadNodeState_returns c (NodeInfo.ContainerID node) st)
        as (rs & st1 & ->).
      set (node' := match rs with
                    | Ok (Some nodeState) =>
                        NodeInfo.with_Expiry node (DockerNodeState.Expiry nodeState)
                    | _ => node
                    end).
      destruct (IH (nodes ++ [node']) st1 Hparse') as (new & st' & -> & Hall).
      exists (node' :: new), st'. rewrite <- app_assoc. split; [done |].
      constructor; [| done]. exists node. split; [done |].
      subst node'. by destruct rs as [[nodeState |] | err], node.
    + by apply IH.
Qed.

End ListNodesMore.

(** X1.  When the backend lists the containers and none of them makes
    [parseContainerInfo] panic, [ListNodes] returns a list and no error,
    whatever the reads of the node states return: one node for every
    container with a cluster label, in the order of the backend's list, equal
    to what [parseContainerInfo] makes of the container but for the expiry. *)
Theorem ListNodes_lists_labelled {W : Type} {D : DockerCli W} {J : Json}
    (c : Controller) (st : state W) (containers : list Container) (w : W) :
  ContainerList (world st) = (Ok containers, w) ->
  (forall container, container ∈ containers ->
     exists r, parseContainerInfo c container = Returned r) ->
  exists nodes st',
    ListNodes c st = Returned (Ok nodes, st')
    /\ Forall2 (listed_as c) (List.filter labelled containers) nodes.
Proof.
  intros E Hparse. unfold ListNodes. munfold. simpl. rewrite E.
  match goal with
  | |- context [ListNodes_loop c containers [] ?s] =>
      destruct (ListNodes_loop_listed c containers [] s Hparse)
        as (new & st' & -> & Hall)
  end.
  by exists new, st'.
Qed.

Lemma ListNodes_lists_labelled_witness :
  exists nodes st',
    ListNodes (J := NanoCodec.json) Examples.ctrl (Examples.start Examples.daemon)
    = Returned (Ok nodes, st')
    /\ length nodes = 1%nat.
Proof.
  destruct (ListNodes_lists_labelled (D := MemDaemon.cli)
              (J := NanoCodec.json) Examples.ctrl
              (Examples.start Examples.daemon)
              (map MemDaemon.info (MemDaemon.containers Examples.daemon))
              Examples.daemon eq_refl) as (nodes & st' & E & Hall).
  - intros container Hin. vm_compute in Hin.
    apply elem_of_cons in Hin as [-> | Hin]; [by eexists |].
    apply elem_of_cons in Hin as [-> | Hin]; [by eexists |].
    by apply elem_of_nil in Hin.
  - exists nodes, st'. split; [exact E |].
    apply Forall2_length in Hall. rewrite <- Hall. reflexivity.
Defined.

(** X2.  [ListNodes] returns an error only when the backend fails to list
    the containers, and the error is that failure, wrapped. *)
Theorem ListNodes_error_is_listing_error {W : Type} {D : DockerCli W}
    {J : Json} (c : Controller) (st st' : state W) (err : error) :
  ListNodes c st = Returned (Err err, st') ->
  exists err0 w,
    ContainerList (world st) = (Err err0, w)
    /\ err = errors_Wrap err0 "failed to list containers"
    /\ world st' = w.
Proof.
  unfold ListNodes. munfold. simpl.
  destruct (ContainerList (world st)) as [[containers | err0] w].
  - by destruct (ListNodes_loop _ _ _ _) as [[nodes st1] | |].
  - intros [= <- <-]. by exists err0, w.
Qed.

Lemma ListNodes_error_is_listing_error_witness :
  exists err0 w,
    ContainerList (world (Canned.start TarEOF)) = (Err err0, w)
    /\ err0 = Canned.unsupported.
Proof.
  destruct (ListNodes_error_is_listing_error (D := Canned.cli)
              (J := NanoCodec.json) Examples.ctrl (Canned.start TarEOF)
              _ _ eq_refl) as (err0 & w & E & _ & _).
  exists err0, w. split; [exact E |]. by injection E as <- _.
Defined.

(** ** RemoveNode: the wait *)

Section RemoveNodeMore.
Context {J : Json} {W : Type} {D : DockerCli W}.
Implicit Types (c : Controller) (st : state W).

Lemma RemoveNode_wait_out_of_fuel c containerID n st st' fuel :
  waits c containerID n st st' -> (fuel <= n)%nat ->
  RemoveNode_wait fuel c containerID st = OutOfFuel.
Proof.
  intros Hw. revert fuel.
  induction Hw as [| n st nodes st1 st' El Hf _ IH]; intros fuel Hle.
  - by replace fuel with O by lia.
  - destruct fuel as [| fuel]; [done |].
    cbn [RemoveNode_wait]. munfold. rewrite El, Hf. apply IH. lia.
Qed.

End RemoveNodeMore.

(** X3.  The wait of [RemoveNode] has no bound of its own: after a stop
    request that succeeded, as long as the listing succeeds and shows the
    identifier the call goes on polling; [n] such rounds use up any fuel up
    to [n]. *)
Theorem RemoveNode_polls_without_bound {W : Type} {D : DockerCli W}
    {J : Json} (c : Controller) (containerID : string) (st st_n : state W)
    (w : W) (n fuel : nat) :
  ContainerStop containerID (world st) = (None, w) ->
  waits c containerID n (removal_requested containerID st) st_n ->
  (fuel <= n)%nat ->
  RemoveNode fuel c containerID st = OutOfFuel.
Proof.
  intros E Hw Hle.
  pose proof (RemoveNode_stopped c containerID fuel st w E) as R.
  rewrite (RemoveNode_wait_out_of_fuel c containerID n _ _ fuel Hw Hle) in R.
  by destruct (RemoveNode fuel c containerID st) as [[r st'] | msg |].
Qed.

Lemma RemoveNode_polls_without_bound_witness :
  RemoveNode (D := Stuck.cli) (J := NanoCodec.json) 3 Examples.ctrl "c1"
    Stuck.start = OutOfFuel.
Proof.
  eapply (RemoveNode_polls_without_bound (D := Stuck.cli) (J := NanoCodec.json)
            Examples.ctrl "c1" Stuck.start _ tt 3 3 eq_refl); [| lia].
  eapply waits_S; [vm_compute; reflexivity | reflexivity |].
  eapply waits_S; [vm_compute; reflexivity | reflexivity |].
  eapply waits_S; [vm_compute; reflexivity | reflexivity |].
  apply waits_O.
Defined.

(** ** RemoveNode: what the wait watches *)

Section RemoveNodeWatch.
Context {J : Json} {W : Type} {D : DockerCli W}.
Implicit Types (c : Controller) (st : state W).

Lemma foundNode_false nodes containerID :
  Forall (fun node => NodeInfo.ContainerID node <> containerID) nodes ->
  foundNode nodes containerID = false.
Proof.
  unfold foundNode. induction nodes as [| node nodes IH] using rev_ind;
    intros H; [done |].
  apply Forall_app in H as [Hl Hx]. rewrite Forall_singleton in Hx.
  rewrite fold_left_app. simpl.
  destruct (String.eqb_spec (NodeInfo.ContainerID node) containerID); [done |].
  by apply IH.
Qed.

(** The nodes of containers that are not the labelled one with the
    identifier have other identifiers. *)
Lemma listed_as_other c containers containerID nodes :
  (forall container, container ∈ containers -> ID container = containerID ->
     labelled container = false) ->
  Forall2 (listed_as c) (List.filter labelled containers) nodes ->
  Forall (fun node => NodeInfo.ContainerID node <> containerID) nodes.
Proof.
  intros Hun Hall.
  assert (forall container, container ∈ List.filter labelled containers ->
            ID container <> containerID) as Hids.
  { intros container Hin Hid.
    apply list_elem_of_In, filter_In in Hin as [Hin Hl].
    apply list_elem_of_In in Hin. by rewrite (Hun container Hin Hid) in Hl. }
  induction Hall as [| container node l nodes Hn _ IH]; [done |].
  constructor.
  - destruct Hn as (node0 & P & ->).
    apply parseContainerInfo_Returned in P as (Hid & _).
    destruct node0. simpl in *. rewrite Hid.
    apply Hids, list_elem_of_here.
  - apply IH. intros x Hx. apply Hids. by apply list_elem_of_further.
Qed.

(** After a stop request that succeeded, [RemoveNode] is its wait, and a
    last log entry. *)
Lemma RemoveNode_stopped_state c containerID fuel st w :
  ContainerStop containerID (world st) = (None, w) ->
  RemoveNode fuel c containerID st
  = match RemoveNode_wait fuel c containerID
            (removal_requested containerID st) with
    | Returned (Some err, st1) => Returned (Some err, st1)
    | Returned (None, st1) =>
        Returned
          (None,
           State (world st1)
             (logged st1
              ++ [Build_LogEntry "node has been removed!"
                    [zap_String "container" containerID]]))
    | Panicked msg => Panicked msg
    | OutOfFuel => OutOfFuel
    end.
Proof.
  intros E. unfold RemoveNode, removal_requested. munfold. simpl. rewrite E.
  simpl. destruct (ContainerRemove containerID w) as [r w2]. simpl.
  by destruct (RemoveNode_wait _ _ _ _) as [[[err |] st1] | |].
Qed.

End RemoveNodeWatch.

(** X4.  The wait of [RemoveNode] watches the managed nodes only.  On every
    backend, after a stop request that succeeded: when the list of containers
    shows no container with the identifier that carries a cluster label (and
    [parseContainerInfo] panics on none of them), the first listing ends the
    wait and the call returns without an error, without a sleep and without
    another call on the backend, whether or not the container is still
    there. *)
Theorem RemoveNode_watches_managed_nodes {W : Type} {D : DockerCli W}
    {J : Json} (c : Controller) (containerID : string) (st : state W)
    (w w' : W) (containers : list Container) (fuel : nat) :
  ContainerStop containerID (world st) = (None, w) ->
  ContainerList (world (removal_requested containerID st))
  = (Ok containers, w') ->
  (forall container, container ∈ containers ->
     exists r, parseContainerInfo c container = Returned r) ->
  (forall container, container ∈ containers -> ID container = containerID ->
     labelled container = false) ->
  exists nodes st_l st',
    ListNodes c (removal_requested containerID st) = Returned (Ok nodes, st_l)
    /\ RemoveNode (S fuel) c containerID st = Returned (None, st')
    /\ world st' = world st_l.
Proof.
  intros E El Hparse Hun.
  assert (exists nodes st_l,
            ListNodes c (removal_requested containerID st)
            = Returned (Ok nodes, st_l)
            /\ foundNode nodes containerID = false) as (nodes & st_l & L & Hf).
  { remember (removal_requested containerID st) as sr eqn:Hsr. clear Hsr.
    unfold ListNodes. munfold. simpl. rewrite El.
    match goal with
    | |- context [ListNodes_loop c containers [] ?s] =>
        destruct (ListNodes_loop_listed c containers [] s Hparse)
          as (new & st_l & -> & Hall)
    end.
    exists new, st_l. split; [done |].
    by eapply foundNode_false, listed_as_other. }
  pose proof (RemoveNode_wait_gone c containerID fuel _ nodes st_l L Hf) as Wt.
  exists nodes, st_l.
  rewrite (RemoveNode_stopped_state c containerID (S fuel) st w E), Wt.
  eauto.
Qed.

Lemma RemoveNode_watches_managed_nodes_witness :
  exists st',
    RemoveNode (D := Lingering.cli) (J := NanoCodec.json) 1 Examples.ctrl "c0"
      Lingering.start = Returned (None, st')
    /\ ContainerList (DockerCli := Lingering.cli) (world st')
       = (Ok [Lingering.foreign], tt).
Proof.
  destruct (RemoveNode_watches_managed_nodes (D := Lingering.cli)
              (J := NanoCodec.json) Examples.ctrl "c0" Lingering.start tt tt
              [Lingering.foreign] 0 eq_refl eq_refl)
    as (nodes & st_l & st' & _ & R & _).
  - intros container Hin. apply list_elem_of_singleton in Hin as ->.
    eexists. vm_compute. reflexivity.
  - intros container Hin _. apply list_elem_of_singleton in Hin as ->.
    vm_compute. reflexivity.
  - exists st'. split; [exact R |]. by destruct (world st').
Defined.

(** ** The reference backend away from one container *)

Section MemFrame.
Import MemDaemon.
Context {J : Json}.
Implicit Types (c : Controller) (st : state MemDaemon.t) (d : MemDaemon.t).

Lemma same_elsewhere_refl containerID d : same_elsewhere containerID d d.
Proof. by split. Qed.

Lemma same_elsewhere_trans containerID d1 d2 d3 :
  same_elsewhere containerID d1 d2 -> same_elsewhere containerID d2 d3 ->
  same_elsewhere containerID d1 d3.
Proof.
  intros [N1 F1] [N2 F2]. split; [congruence |].
  intros other Hne. rewrite F2, F1; done.
Qed.

Lemma has_id_ne containerID other mc :
  other <> containerID -> has_id containerID mc = true -> has_id other mc = false.
Proof.
  unfold has_id. intros Hne E. apply String.eqb_eq in E.
  apply String.eqb_neq. congruence.
Qed.

Lemma update_container_elsewhere d containerID f :
  (forall mc, has_id containerID mc = true -> has_id containerID (f mc) = true) ->
  same_elsewhere containerID d (update_container d containerID f).
Proof.
  intros Hf. split; [done |]. intros other Hne.
  unfold find_container, update_container. simpl.
  induction (containers d) as [| x l IH]; simpl; [done |].
  destruct (has_id containerID x) eqn:Ex.
  - rewrite (has_id_ne containerID other (f x) Hne (Hf x Ex)).
    by rewrite (has_id_ne containerID other x Hne Ex).
  - by destruct (has_id other x).
Qed.

(** The calls that read leave the reference backend as it is. *)
Lemma mem_ReadNodeState_world c containerID st r st' :
  ReadNodeState c containerID st = Returned (r, st') -> world st' = world st.
Proof.
  intros E. apply ReadNodeState_world in E. rewrite E.
  change (CopyFromContainer containerID "/var/cbdyncluster" (world st))
    with (mem_CopyFromContainer containerID "/var/cbdyncluster" (world st)).
  unfold mem_CopyFromContainer.
  destruct (find_container (world st) containerID) as [mc |]; [| done].
  by destruct (archive_of _ _).
Qed.

Lemma mem_ListNodes_loop_world c containers nodes st nodes' st' :
  ListNodes_loop c containers nodes st = Returned (nodes', st') ->
  world st' = world st.
Proof.
  revert nodes st. induction containers as [| container containers IH];
    intros nodes st; simpl.
  - munfold. by intros [= _ <-].
  - intros E. apply bind_Returned in E as (r & st1 & E1 & E).
    unfold lift in E1.
    destruct (parseContainerInfo c container) as [r' | |]; [| done | done].
    injection E1 as <- <-.
    destruct r' as [node |]; [| by eapply IH].
    apply bind_Returned in E as (rs & st2 & E2 & E).
    apply mem_ReadNodeState_world in E2. apply IH in E. congruence.
Qed.

Lemma mem_ListNodes_world c st r st' :
  ListNodes c st = Returned (r, st') -> world st' = world st.
Proof.
  unfold ListNodes. intros E.
  apply bind_Returned in E as ([] & st0 & E0 & E). apply Debug_Returned in E0.
  apply bind_Returned in E as (rl & st1 & E1 & E).
  unfold docker in E1. injection E1 as <- <-.
  destruct (mem_ContainerList (world st0)) as [rl w] eqn:El.
  unfold mem_ContainerList in El. injection El as <- <-. simpl in E.
  apply bind_Returned in E as ([] & st2 & E2 & E). apply Debug_Returned in E2.
  apply bind_Returned in E as (nodes & st3 & E3 & E).
  apply mem_ListNodes_loop_world in E3. injection E as _ <-.
  simpl in *. congruence.
Qed.

End MemFrame.

(** ** SetTrafficControl: what it leaves alone *)

(** X5.  [SetTrafficControl] resolves the addresses before it touches the
    container: when the network cannot be inspected, has no address block, or
    its first block lacks the node range or the gateway, the call returns an
    error and no command is executed in the container. *)
Theorem SetTrafficControl_resolves_first {W : Type} {D : DockerCli W}
    (c : Controller) (containerID : string) (blocked : bool) (st : state W)
    (r : result NetworkResource) (w : W) :
  NetworkInspect (NetworkName c) (world st) = (r, w) ->
  unresolved r ->
  exists err st',
    SetTrafficControl c containerID blocked st = Returned (Some err, st')
    /\ world st' = w
    /\ executed st' = executed st.
Proof.
  intros E Hr. unfold SetTrafficControl. munfold. simpl. rewrite E.
  assert (forall l, commands_of
            (logged st ++
             [Build_LogEntry "setting up traffic control"
                ([zap_String "container" containerID] ++ l)])
          = executed st) as Hlog.
  { intros l. rewrite commands_of_app. simpl. apply app_nil_r. }
  destruct r as [netInfo | err0]; simpl in Hr.
  - destruct (IPAM_Config netInfo) as [| block blocks]; simpl.
    + eexists _, _. split; [done |]. split; [done |]. apply Hlog.
    + fold (node_range block).
      assert (String.eqb (node_range block) EmptyString
              || String.eqb (Gateway block) EmptyString = true) as ->.
      { destruct Hr as [-> | ->]; [done |]. apply orb_true_r. }
      eexists _, _. split; [done |]. split; [done |]. apply Hlog.
  - eexists _, _. split; [done |]. split; [done |]. apply Hlog.
Qed.

Lemma SetTrafficControl_resolves_first_witness :
  exists err st',
    SetTrafficControl Examples.ctrl "c1" true
      (State (MemDaemon.Build_t [Examples.node1] ∅) [])
    = Returned (Some err, st')
    /\ executed st' = [].
Proof.
  assert (NetworkInspect (DockerCli := MemDaemon.cli) (NetworkName Examples.ctrl)
            (world (State (MemDaemon.Build_t [Examples.node1] ∅) []))
          = (Err "network dyncluster not found",
             MemDaemon.Build_t [Examples.node1] ∅)) as HN
    by (vm_compute; reflexivity).
  destruct (SetTrafficControl_resolves_first (D := MemDaemon.cli) Examples.ctrl
              "c1" true (State (MemDaemon.Build_t [Examples.node1] ∅) [])
              _ _ HN I) as (err & st' & E & _ & X).
  exists err, st'. split; [exact E | exact X].
Defined.

Section TrafficControlMore.
Import MemDaemon.
Implicit Types (c : Controller) (st : state MemDaemon.t) (mc : MemContainer).

Lemma mem_Exec_elsewhere containerID cmd d r d' :
  mem_Exec containerID cmd d = (r, d') -> same_elsewhere containerID d d'.
Proof.
  unfold mem_Exec.
  destruct (find_container d containerID) as [mc |] eqn:F.
  2: { intros [= _ <-]. apply same_elsewhere_refl. }
  destruct (negb (running mc)).
  { intros [= _ <-]. apply same_elsewhere_refl. }
  destruct (run cmd mc) as [err mc'] eqn:R. intros [= _ <-].
  apply update_container_elsewhere. intros _ _.
  apply find_container_has_id in F. unfold has_id in *.
  destruct (run_info cmd mc) as [Hi _]. rewrite R in Hi. simpl in Hi.
  by rewrite Hi.
Qed.

Lemma execCmd_elsewhere c containerID cmd st r st' :
  execCmd c containerID cmd st = Returned (r, st') ->
  same_elsewhere containerID (world st) (world st').
Proof.
  unfold execCmd. intros E.
  apply bind_Returned in E as ([] & s1 & E1 & E). apply Debug_Returned in E1.
  unfold docker in E.
  destruct (Exec containerID cmd (world s1)) as [r' d'] eqn:Ex.
  injection E as _ <-. simpl. rewrite E1 in Ex.
  by apply mem_Exec_elsewhere in Ex.
Qed.

Lemma execIptables_elsewhere c containerID args st r st' :
  execIptables c containerID args st = Returned (r, st') ->
  same_elsewhere containerID (world st) (world st').
Proof.
  unfold execIptables. intros E.
  apply bind_Returned in E as (r1 & s1 & E1 & E).
  apply execCmd_elsewhere in E1.
  destruct r1 as [err1 |]; [| by injection E as _ <-].
  apply bind_Returned in E as ([] & s2 & E2 & E). apply Debug_Returned in E2.
  apply bind_Returned in E as (r3 & s3 & E3 & E).
  apply execCmd_elsewhere in E3. rewrite E2 in E3.
  pose proof (same_elsewhere_trans _ _ _ _ E1 E3) as H3.
  destruct r3 as [err3 |]; [by injection E as _ <- |].
  apply bind_Returned in E as (r4 & s4 & E4 & E).
  apply execCmd_elsewhere in E4.
  pose proof (same_elsewhere_trans _ _ _ _ H3 E4) as H4.
  destruct r4 as [err4 |]; [by injection E as _ <- |].
  apply bind_Returned in E as (r5 & s5 & E5 & E).
  apply execCmd_elsewhere in E5.
  pose proof (same_elsewhere_trans _ _ _ _ H4 E5) as H5.
  by destruct r5 as [err5 |]; injection E as _ <-.
Qed.

Lemma SetTrafficControl_block_elsewhere c containerID ipRange gatewayIP st r st' :
  SetTrafficControl_block c containerID ipRange gatewayIP st = Returned (r, st') ->
  same_elsewhere containerID (world st) (world st').
Proof.
  unfold SetTrafficControl_block. intros E.
  apply bind_Returned in E as (r1 & s1 & E1 & E).
  apply execIptables_elsewhere in E1.
  destruct r1 as [err1 |]; [by injection E as _ <- |].
  apply bind_Returned in E as (r2 & s2 & E2 & E).
  apply execIptables_elsewhere in E2.
  pose proof (same_elsewhere_trans _ _ _ _ E1 E2) as H2.
  by destruct r2 as [err2 |]; injection E as _ <-.
Qed.

End TrafficControlMore.

(** X6.  On the reference backend, [SetTrafficControl] changes nothing but
    the container it is called for, whatever it returns: the networks and
    every other container, with its packet filter, are as before. *)
Theorem SetTrafficControl_touches_one_container (c : Controller)
    (containerID : string) (blocked : bool) (st st' : state MemDaemon.t)
    (r : option error) :
  SetTrafficControl c containerID blocked st = Returned (r, st') ->
  same_elsewhere containerID (world st) (world st').
Proof.
  unfold SetTrafficControl. intros E.
  apply bind_Returned in E as ([] & s0 & E0 & E). apply Debug_Returned in E0.
  apply bind_Returned in E as (rn & s1 & E1 & E).
  unfold docker in E1.
  change (NetworkInspect (NetworkName c) (world s0))
    with (MemDaemon.mem_NetworkInspect (NetworkName c) (world s0)) in E1.
  assert (world s1 = world st) as W1.
  { unfold MemDaemon.mem_NetworkInspect in E1.
    destruct (MemDaemon.networks (world s0) !! NetworkName c);
      injection E1 as _ <-; done. }
  clear E1. rewrite <- W1.
  destruct rn as [netInfo | err]; [| injection E as _ <-; apply same_elsewhere_refl].
  destruct (Nat.ltb (length (IPAM_Config netInfo)) 1);
    [injection E as _ <-; apply same_elsewhere_refl |].
  destruct (IPAM_Config netInfo !! 0%nat) as [block |]; [| done].
  cbv zeta in E. fold (node_range block) in E.
  destruct (String.eqb (node_range block) EmptyString
            || String.eqb (Gateway block) EmptyString);
    [injection E as _ <-; apply same_elsewhere_refl |].
  apply bind_Returned in E as (r1 & s2 & E2 & E).
  apply execIptables_elsewhere in E2.
  destruct r1 as [err1 |]; [by injection E as _ <- |].
  apply bind_Returned in E as (r2 & s3 & E3 & E).
  assert (same_elsewhere containerID (world s2) (world s3)) as H3.
  { destruct blocked.
    - by apply SetTrafficControl_block_elsewhere in E3.
    - injection E3 as _ <-. apply same_elsewhere_refl. }
  pose proof (same_elsewhere_trans _ _ _ _ E2 H3) as H23.
  destruct r2 as [err2 |]; [by injection E as _ <- |].
  apply bind_Returned in E as (r4 & s4 & E4 & E).
  apply execIptables_elsewhere in E4.
  pose proof (same_elsewhere_trans _ _ _ _ H23 E4) as H4.
  apply bind_Returned in E as ([] & s5 & E5 & E).
  assert (world s5 = world s4) as W5.
  { destruct r4 as [err4 |]; [by apply Debug_Returned in E5 |].
    by injection E5 as <-. }
  apply bind_Returned in E as ([] & s6 & E6 & E). apply Debug_Returned in E6.
  injection E as _ <-. rewrite E6, W5. done.
Qed.

Lemma SetTrafficControl_touches_one_container_witness :
  exists st',
    SetTrafficControl Examples.ctrl "c1" true (Examples.start Examples.daemon)
    = Returned (None, st')
    /\ MemDaemon.find_container (world st') "c0" = Some Examples.foreign.
Proof.
  destruct (SetTrafficControl Examples.ctrl "c1" true
              (Examples.start Examples.daemon)) as [[[err |] st'] | msg |] eqn:E;
    try (vm_compute in E; discriminate E).
  destruct (SetTrafficControl_touches_one_container Examples.ctrl "c1" true
              (Examples.start Examples.daemon) st' None E) as [_ Hels].
  exists st'. split; [reflexivity |].
  rewrite (Hels "c0") by discriminate. reflexivity.
Defined.

(** X7.  On the reference backend, a call of [SetTrafficControl] without
    [blocked] that returns without an error leaves the INPUT chain of the
    container empty, whatever rules it had before: every packet is accepted,
    as on a container that was never blocked. *)
Theorem SetTrafficControl_unblocked (c : Controller) (containerID : string)
    (st st' : state MemDaemon.t) :
  SetTrafficControl c containerID false st = Returned (None, st') ->
  exists mc',
    at_container st' containerID mc'
    /\ MemDaemon.inputChain mc' = []
    /\ forall src_match addr,
         MemDaemon.verdict src_match (MemDaemon.inputChain mc') addr
         = MemDaemon.ACCEPT.
Proof.
  intros E. unfold SetTrafficControl in E.
  apply bind_Returned in E as ([] & st0 & E0 & E).
  apply bind_Returned in E as (r & st1 & E1 & E).
  destruct r as [netInfo | err]; [| done].
  destruct (Nat.ltb (length (IPAM_Config netInfo)) 1); [done |].
  destruct (IPAM_Config netInfo !! 0%nat) as [block |]; [| done].
  cbv zeta in E. fold (node_range block) in E.
  destruct (String.eqb (node_range block) EmptyString
            || String.eqb (Gateway block) EmptyString); [done |].
  apply bind_Returned in E as (r1 & st2 & E2 & E).
  destruct r1 as [err |]; [done |].
  apply execIptables_mem_ok in E2 as (mc & mc2 & chain & Hat & Hat2 & I & C).
  cbn in I. injection I as <-.
  apply bind_Returned in E as (r2 & st3 & E3 & E).
  injection E3 as <- <-.
  apply bind_Returned in E as (r3 & st5 & E5 & E).
  destruct (execIptables_mem c containerID ["-S"] st2 mc2 Hat2)
    as (r3' & st5' & mc5 & E5' & Hat5 & H5).
  rewrite E5 in E5'. injection E5' as <- <-. simpl in H5. destruct H5 as [-> C5].
  apply bind_Returned in E as ([] & st4 & E4 & E).
  injection E4 as <-.
  apply bind_Returned in E as ([] & st6 & E6 & E).
  apply Debug_Returned in E6. injection E as <-.
  exists mc5. split; [destruct Hat5 as [F R]; split; [by rewrite E6 | done] |].
  rewrite C5, C. by split.
Qed.

Lemma SetTrafficControl_unblocked_witness :
  exists st1 st2 mc',
    SetTrafficControl Examples.ctrl "c1" true (Examples.start Examples.daemon)
    = Returned (None, st1)
    /\ SetTrafficControl Examples.ctrl "c1" false st1 = Returned (None, st2)
    /\ at_container st2 "c1" mc'
    /\ MemDaemon.inputChain mc' = [].
Proof.
  assert (exists st1 st2,
            SetTrafficControl Examples.ctrl "c1" true
              (Examples.start Examples.daemon) = Returned (None, st1)
            /\ SetTrafficControl Examples.ctrl "c1" false st1
               = Returned (None, st2)) as (st1 & st2 & E1 & E2)
    by (eexists _, _; split; vm_compute; reflexivity).
  destruct (SetTrafficControl_unblocked Examples.ctrl "c1" st1 st2 E2)
    as (mc' & Hat & C & _).
  exists st1, st2, mc'.
  split; [exact E1 |]. split; [exact E2 |]. split; [exact Hat | exact C].
Defined.

(** ** The node state: what is written, read and listed *)

Section NodeStateMore.
Context {J : Json} {W : Type} {D : DockerCli W}.
Implicit Types (c : Controller) (st : state W).

Lemma stored_expiry_world c st1 st2 containerID :
  world st1 = world st2 ->
  stored_expiry c st1 containerID = stored_expiry c st2 containerID.
Proof.
  intros E. unfold stored_expiry. by rewrite !ReadNodeState_result, E.
Qed.

Lemma parseContainerInfo_Expiry c container node :
  parseContainerInfo c container = Returned (Some node) ->
  NodeInfo.Expiry node = time.zero.
Proof.
  unfold parseContainerInfo.
  destruct (String.eqb _ _); [done |].
  destruct (NetworkSettings container) as [settings |]; [| done].
  destruct (fold_left _ _ _) as [picked |]; [| done].
  by intros [= <-].
Qed.

Lemma ListNodes_loop_expiry c containers nodes st nodes' st' :
  reads_keep ->
  ListNodes_loop c containers nodes st = Returned (nodes', st') ->
  world st' = world st
  /\ (Forall (fun node => NodeInfo.Expiry node
                          = stored_expiry c st (NodeInfo.ContainerID node)) nodes ->
      Forall (fun node => NodeInfo.Expiry node
                          = stored_expiry c st (NodeInfo.ContainerID node)) nodes').
Proof.
  intros Hkeep. revert nodes st.
  induction containers as [| container containers IH]; intros nodes st; simpl.
  - munfold. by intros [= <- <-].
  - intros E. apply bind_Returned in E as (r & st1 & E1 & E).
    unfold lift in E1.
    destruct (parseContainerInfo c container) as [r' | |] eqn:P; [| done | done].
    injection E1 as <- <-.
    destruct r' as [node |]; [| by apply IH].
    apply bind_Returned in E as (rs & st2 & E2 & E).
    pose proof (ReadNodeState_world c _ _ _ _ E2) as W2.
    rewrite Hkeep in W2.
    apply IH in E as [W3 Hall]. split; [congruence |].
    intros Hnodes.
    eapply Forall_impl; [apply Hall |].
    + apply Forall_app. split.
      * eapply Forall_impl; [exact Hnodes |]. intros x ->.
        by apply stored_expiry_world.
      * apply Forall_singleton.
        rewrite (stored_expiry_world c st2 st) by done.
        pose proof (parseContainerInfo_Expiry c container node P) as Hz.
        unfold stored_expiry.
        destruct node; destruct rs as [[nodeState |] | err]; simpl in *;
          rewrite E2; simpl; congruence.
    + intros x ->. by apply stored_expiry_world.
Qed.

End NodeStateMore.

(** X8.  On a backend whose reads of the state directory leave it as it is,
    every node that [ListNodes] returns carries the expiry that
    [ReadNodeState] returns for its container, and the zero time when that
    read fails or finds no state: the errors of the reads are dropped. *)
Theorem ListNodes_expiry {J : Json} {W : Type} {D : DockerCli W}
    (c : Controller) (st st' : state W) (nodes : list NodeInfo.t) :
  reads_keep ->
  ListNodes c st = Returned (Ok nodes, st') ->
  Forall (fun node => NodeInfo.Expiry node
                      = stored_expiry c st' (NodeInfo.ContainerID node)) nodes.
Proof.
  intros Hkeep E. unfold ListNodes in E.
  apply bind_Returned in E as ([] & st0 & E0 & E).
  apply bind_Returned in E as (rl & st1 & E1 & E).
  destruct rl as [containers | err]; [| done].
  apply bind_Returned in E as ([] & st2 & E2 & E).
  apply bind_Returned in E as (nodes' & st3 & E3 & E).
  injection E as <- <-.
  apply ListNodes_loop_expiry in E3 as [W3 Hall]; [| done].
  eapply Forall_impl; [by apply Hall |].
  intros x ->. by apply stored_expiry_world.
Qed.

Section NodeStateMem.
Import MemDaemon.
Context {J : Json}.
Implicit Types (c : Controller) (st : state MemDaemon.t) (d : MemDaemon.t).

Lemma mem_reads_keep : reads_keep (D := MemDaemon.cli).
Proof.
  intros containerID d.
  change (CopyFromContainer containerID "/var/cbdyncluster" d)
    with (mem_CopyFromContainer containerID "/var/cbdyncluster" d).
  unfold mem_CopyFromContainer.
  destruct (find_container d containerID) as [mc |]; [| done].
  by destruct (archive_of _ _).
Qed.

Lemma mem_CopyToContainer_elsewhere containerID dstPath archive d r d' :
  mem_CopyToContainer containerID dstPath archive d = (r, d') ->
  same_elsewhere containerID d d'.
Proof.
  unfold mem_CopyToContainer.
  destruct (find_container d containerID) as [mc |] eqn:F.
  2: { intros [= _ <-]. apply same_elsewhere_refl. }
  destruct (extract dstPath archive (files mc)) as [fs | err].
  2: { intros [= _ <-]. apply same_elsewhere_refl. }
  intros [= _ <-]. by apply update_container_elsewhere.
Qed.

Lemma WriteNodeState_elsewhere c containerID s st r st' :
  WriteNodeState c containerID s st = Returned (r, st') ->
  same_elsewhere containerID (world st) (world st').
Proof.
  unfold WriteNodeState. intros E.
  apply bind_Returned in E as ([] & st0 & E0 & E). apply Debug_Returned in E0.
  rewrite <- E0.
  destruct (json_Marshal _) as [data | err].
  2: { injection E as _ <-. apply same_elsewhere_refl. }
  apply bind_Returned in E as (r1 & st1 & E1 & E).
  unfold docker in E1.
  destruct (CopyToContainer _ _ _ _) as [r1' d1] eqn:C. injection E1 as <- <-.
  apply mem_CopyToContainer_elsewhere in C.
  by destruct r1' as [err |]; injection E as _ <-.
Qed.

Lemma mem_ReadNodeState_elsewhere c containerID d1 d2 log1 log2 :
  find_container d1 containerID = find_container d2 containerID ->
  result_of (ReadNodeState c containerID (State d1 log1))
  = result_of (ReadNodeState c containerID (State d2 log2)).
Proof.
  intros F. rewrite !ReadNodeState_result. simpl.
  change (CopyFromContainer containerID "/var/cbdyncluster" ?d)
    with (mem_CopyFromContainer containerID "/var/cbdyncluster" d).
  unfold mem_CopyFromContainer. rewrite F.
  destruct (find_container d2 containerID) as [mc |]; [| done].
  by destruct (archive_of _ _).
Qed.

End NodeStateMem.

Lemma ListNodes_expiry_witness :
  exists nodes st',
    ListNodes (J := NanoCodec.json) Examples.ctrl (Examples.start Examples.daemon)
    = Returned (Ok nodes, st')
    /\ Forall (fun node =>
                 NodeInfo.Expiry node
                 = stored_expiry (J := NanoCodec.json) Examples.ctrl st'
                     (NodeInfo.ContainerID node)) nodes.
Proof.
  destruct (ListNodes (J := NanoCodec.json) Examples.ctrl
              (Examples.start Examples.daemon))
    as [[[nodes | err] st'] | msg |] eqn:E;
    try (vm_compute in E; discriminate E).
  exists nodes, st'. split; [reflexivity |].
  exact (ListNodes_expiry (J := NanoCodec.json) (D := MemDaemon.cli)
           Examples.ctrl (Examples.start Examples.daemon) st' nodes
           mem_reads_keep E).
Defined.

(** X9.  On the reference backend, [WriteNodeState] for one container,
    whatever it returns, changes the state of no other container: for each of
    them [ReadNodeState] returns after the call what it returned before. *)
Theorem WriteNodeState_keeps_other_states {J : Json} (c : Controller)
    (containerID other : string) (s : DockerNodeState.t)
    (st st' : state MemDaemon.t) (r : option error) :
  WriteNodeState c containerID s st = Returned (r, st') ->
  other <> containerID ->
  result_of (ReadNodeState c other st') = result_of (ReadNodeState c other st).
Proof.
  intros E Hne. apply WriteNodeState_elsewhere in E as [_ E].
  destruct st as [d log], st' as [d' log']. simpl in E.
  by apply mem_ReadNodeState_elsewhere, E.
Qed.

Lemma WriteNodeState_keeps_other_states_witness :
  exists st',
    WriteNodeState (J := NanoCodec.json) Examples.ctrl "c1" Examples.expiry
      (Examples.start Examples.daemon) = Returned (None, st')
    /\ result_of (ReadNodeState (J := NanoCodec.json) Examples.ctrl "c0" st')
       = result_of (ReadNodeState (J := NanoCodec.json) Examples.ctrl "c0"
                      (Examples.start Examples.daemon)).
Proof.
  destruct (WriteNodeState (J := NanoCodec.json) Examples.ctrl "c1"
              Examples.expiry (Examples.start Examples.daemon))
    as [[[err |] st'] | msg |] eqn:E;
    try (vm_compute in E; discriminate E).
  exists st'. split; [reflexivity |].
  apply (WriteNodeState_keeps_other_states (J := NanoCodec.json) Examples.ctrl
           "c1" "c0" Examples.expiry (Examples.start Examples.daemon) st' None E).
  discriminate.
Defined.

(** X10.  On the reference backend, after a [WriteNodeState] that returned
    without an error, every node with that container identifier in the list
    of [ListNodes] carries the expiry that was written, for every state whose
    JSON document decodes to its expiry. *)
Theorem WriteNodeState_then_ListNodes {J : Json} (c : Controller)
    (containerID : string) (s : DockerNodeState.t)
    (st st1 st2 : state MemDaemon.t) (nodes : list NodeInfo.t) :
  (forall data,
      json_Marshal (DockerNodeStateJson.Build (DockerNodeState.Expiry s)) = Ok data ->
      json_decode data = JObject (Some (DockerNodeState.Expiry s))) ->
  WriteNodeState c containerID s st = Returned (None, st1) ->
  ListNodes c st1 = Returned (Ok nodes, st2) ->
  forall node, node ∈ nodes -> NodeInfo.ContainerID node = containerID ->
    NodeInfo.Expiry node = DockerNodeState.Expiry s.
Proof.
  intros Hcodec E L node Hin Hid.
  assert (stored_expiry c st1 containerID = DockerNodeState.Expiry s) as Hs.
  { apply WriteNodeState_Returned in E as (data & mc & M & F & B & F1).
    unfold stored_expiry.
    rewrite (ReadNodeState_after_write c containerID st1 _ data
               (DockerNodeState.Expiry s) F1); [done | | | by apply Hcodec]; simpl.
    - rewrite lookup_insert_ne by done.
      by apply (below_file_false _ "/var/cbdyncluster/state" _ "state" B).
    - apply lookup_insert_eq. }
  unfold ListNodes in L.
  apply bind_Returned in L as ([] & s0 & L0 & L). apply Debug_Returned in L0.
  apply bind_Returned in L as (rl & s1 & L1 & L).
  unfold docker in L1. injection L1 as <- <-. simpl in L.
  apply bind_Returned in L as ([] & s2 & L2 & L). apply Debug_Returned in L2.
  apply bind_Returned in L as (nodes' & s3 & L3 & L).
  injection L as <- <-.
  apply (ListNodes_loop_expiry (D := MemDaemon.cli)) in L3 as [_ Hall];
    [| apply mem_reads_keep].
  specialize (Hall (Forall_nil_2 _)).
  rewrite Forall_forall in Hall. rewrite (Hall node Hin), Hid, <- Hs.
  apply stored_expiry_world. simpl in *. congruence.
Qed.

Lemma WriteNodeState_then_ListNodes_witness :
  exists st1 st2 nodes,
    WriteNodeState (J := NanoCodec.json) Examples.ctrl "c1" Examples.expiry
      (Examples.start Examples.daemon) = Returned (None, st1)
    /\ ListNodes (J := NanoCodec.json) Examples.ctrl st1 = Returned (Ok nodes, st2)
    /\ forall node, node ∈ nodes -> NodeInfo.ContainerID node = "c1" ->
         NodeInfo.Expiry node = DockerNodeState.Expiry Examples.expiry.
Proof.
  assert (exists st1 st2 nodes,
            WriteNodeState (J := NanoCodec.json) Examples.ctrl "c1"
              Examples.expiry (Examples.start Examples.daemon)
            = Returned (None, st1)
            /\ ListNodes (J := NanoCodec.json) Examples.ctrl st1
               = Returned (Ok nodes, st2)) as (st1 & st2 & nodes & E & L)
    by (eexists _, _, _; split; vm_compute; reflexivity).
  exists st1, st2, nodes. split; [exact E |]. split; [exact L |].
  apply (WriteNodeState_then_ListNodes (J := NanoCodec.json) Examples.ctrl "c1"
           Examples.expiry (Examples.start Examples.daemon) st1 st2 nodes);
    [| exact E | exact L].
  intros data M. vm_compute in M. injection M as <-. vm_compute. reflexivity.
Defined.

(** ** ReadNodeState and WriteNodeState: when they fail *)

Section NodeStateErrors.
Context {J : Json} {W : Type} {D : DockerCli W}.
Implicit Types (c : Controller) (st : state W).

Lemma json_Unmarshal_ok data v v' :
  json_Unmarshal data v = (None, v') -> decodes (Ok data).
Proof.
  unfold json_Unmarshal, decodes.
  by destruct (json_decode data) as [err | | expiry].
Qed.

(** The loop ends without an error only on an archive that arrives whole and
    whose state entries all decode. *)
Lemma ReadNodeState_loop_Ok resp v v' :
  ReadNodeState_loop resp v = Ok v' ->
  delivered resp = true /\ Forall decodes (entries_named state_file resp).
Proof.
  revert v. induction resp as [| err | name body rest IH]; intros v; simpl.
  - by split.
  - done.
  - fold state_file. destruct (String.eqb name state_file); simpl.
    + destruct body as [data | err]; [| done].
      destruct (json_Unmarshal data v) as [[err |] v1] eqn:U; [done |].
      intros E. apply IH in E as [Hd Hall]. split; [done |].
      constructor; [| done]. by eapply json_Unmarshal_ok.
    + apply IH.
Qed.

End NodeStateErrors.

(** X11.  When the backend hands over an archive, [ReadNodeState] returns
    without an error exactly when the archive arrives whole and every entry
    named cbdyncluster/state in it can be read and parsed: one bad state
    entry fails the read, also when a later one is good. *)
Theorem ReadNodeState_succeeds_iff {J : Json} {W : Type} {D : DockerCli W}
    (c : Controller) (containerID : string) (st : state W)
    (resp : tar_stream) (w : W) :
  CopyFromContainer containerID "/var/cbdyncluster" (world st) = (Ok resp, w) ->
  (exists v, result_of (ReadNodeState c containerID st) = Returned (Ok v))
  <-> delivered resp = true /\ Forall decodes (entries_named state_file resp).
Proof.
  intros E. rewrite ReadNodeState_result, E. simpl. split.
  - intros [v Hv].
    destruct (ReadNodeState_loop resp None) as [v' | err] eqn:L; [| done].
    by apply ReadNodeState_loop_Ok in L.
  - intros [Hd Hall].
    destruct (ReadNodeState_loop_last resp None Hd Hall) as (v' & -> & _).
    eauto.
Qed.

Lemma ReadNodeState_succeeds_iff_witness :
  (exists v,
     result_of (ReadNodeState (J := NanoCodec.json) Examples.ctrl "c1"
                  (Canned.start Archives.valid_then_later))
     = Returned (Ok v))
  /\ ~ (exists v,
          result_of (ReadNodeState (J := NanoCodec.json) Examples.ctrl "c1"
                       (Canned.start Archives.garbage_then_valid))
          = Returned (Ok v)).
Proof.
  split.
  - apply (ReadNodeState_succeeds_iff (J := NanoCodec.json) (D := Canned.cli)
             Examples.ctrl "c1" (Canned.start Archives.valid_then_later)
             Archives.valid_then_later (Ok Archives.valid_then_later) eq_refl).
    split; [reflexivity |]. vm_compute. repeat constructor.
  - intros H.
    apply (ReadNodeState_succeeds_iff (J := NanoCodec.json) (D := Canned.cli)
             Examples.ctrl "c1" (Canned.start Archives.garbage_then_valid)
             Archives.garbage_then_valid (Ok Archives.garbage_then_valid) eq_refl)
      in H as [_ Hall].
    vm_compute in Hall. inversion Hall as [| ? ? Hbad _]. exact Hbad.
Defined.



(** ** CompareImageDefs: equal descriptors and versions that do not parse *)

(** X13.  [CompareImageDefs] returns zero exactly when the versions compare
    equal under [semver.Compare], the build numbers are the same and the three
    flags agree; the version strings themselves need not be the same. *)
Theorem CompareImageDefs_equal_iff (a b : ImageDef) :
  image_equal a b
  <-> semver.Compare ("v" +:+ Version a) ("v" +:+ Version b) = 0
      /\ BuildNo a = BuildNo b
      /\ UseCommunityEdition a = UseCommunityEdition b
      /\ UseServerless a = UseServerless b
      /\ UseColumnar a = UseColumnar b.
Proof.
  unfold image_equal, CompareImageDefs.
  destruct (Z.eqb_spec (semver.Compare ("v" +:+ Version a) ("v" +:+ Version b)) 0)
    as [-> | N]; simpl.
  2: { split; [intros E; by rewrite E in N | by intros [E _]]. }
  rewrite Z.gtb_ltb.
  destruct (Z.ltb_spec (BuildNo a) (BuildNo b)).
  { split; [done | intros (_ & E & _); lia]. }
  destruct (Z.ltb_spec (BuildNo b) (BuildNo a)).
  { split; [done | intros (_ & E & _); lia]. }
  assert (BuildNo a = BuildNo b) as E by lia.
  destruct (UseCommunityEdition a), (UseCommunityEdition b),
    (UseServerless a), (UseServerless b), (UseColumnar a), (UseColumnar b);
    simpl; split; try done; intros (_ & _ & ? & ? & ?); done.
Qed.

(** X14.  Descriptors that compare equal are interchangeable: they compare
    the same way against every third descriptor, on either side. *)
Theorem CompareImageDefs_equal_interchangeable (a b c : ImageDef) :
  image_equal a b ->
  CompareImageDefs a c = CompareImageDefs b c
  /\ CompareImageDefs c a = CompareImageDefs c b.
Proof.
  unfold image_equal. intros E. split.
  - by apply cmp_eq_l; [apply CompareImageDefs_order |].
  - by apply cmp_eq_r; [apply CompareImageDefs_order |].
Qed.

Lemma CompareImageDefs_equal_interchangeable_witness :
  image_equal image_7_1_0_build_a image_7_1_0_ee
  /\ CompareImageDefs image_7_1_0_build_a image_7_0_5
     = CompareImageDefs image_7_1_0_ee image_7_0_5.
Proof.
  assert (image_equal image_7_1_0_build_a image_7_1_0_ee) as H by reflexivity.
  refine (conj H _).
  exact (proj1 (CompareImageDefs_equal_interchangeable
                  image_7_1_0_build_a image_7_1_0_ee image_7_0_5 H)).
Defined.

(** X15.  A descriptor whose version, with the prefix v that
    [CompareImageDefs] puts before it, is no semantic version sorts below
    every descriptor whose version is one, whatever the build numbers and the
    flags; a version that carries the prefix already is of this kind. *)
Theorem CompareImageDefs_invalid_version_first (a b : ImageDef) :
  semver.parse ("v" +:+ Version a) = None ->
  semver.parse ("v" +:+ Version b) <> None ->
  image_less a b.
Proof.
  intros Ha Hb. unfold image_less, CompareImageDefs, semver.Compare.
  rewrite Ha. by destruct (semver.parse ("v" +:+ Version b)).
Qed.

Lemma CompareImageDefs_invalid_version_first_witness :
  image_less image_v7_1_0 image_7_0_5.
Proof.
  apply CompareImageDefs_invalid_version_first.
  - vm_compute. reflexivity.
  - vm_compute. discriminate.
Defined.

(** ** DeployNode *)

Section DeployNodeFacts.
Context {J : Json} {W : Type} {D : DockerCli W} {E : DeployEnv W}.
Implicit Types (c : Controller) (st : state W).

Lemma DeployNode_pick_app allNodes node containerID :
  DeployNode_pick (allNodes ++ [node]) containerID
  = if String.eqb (NodeInfo.ContainerID node) containerID then Some node
    else DeployNode_pick allNodes containerID.
Proof. unfold DeployNode_pick. by rewrite fold_left_app. Qed.

(** The loop picks a node of the list with the identifier. *)
Lemma DeployNode_pick_Some allNodes containerID node :
  DeployNode_pick allNodes containerID = Some node ->
  node ∈ allNodes /\ NodeInfo.ContainerID node = containerID.
Proof.
  induction allNodes as [| x l IH] using rev_ind; [done |].
  rewrite DeployNode_pick_app.
  destruct (String.eqb_spec (NodeInfo.ContainerID x) containerID) as [Hx | Hx].
  - intros [= <-]. split; [| done]. apply elem_of_app. right. by left.
  - intros H. apply IH in H as [Hin Hid]. split; [| done].
    apply elem_of_app. by left.
Qed.

(** The loop picks nothing when no node has the identifier. *)
Lemma DeployNode_pick_None allNodes containerID :
  Forall (fun node => NodeInfo.ContainerID node <> containerID) allNodes ->
  DeployNode_pick allNodes containerID = None.
Proof.
  induction allNodes as [| x l IH] using rev_ind; intros H; [reflexivity |].
  apply Forall_app in H as [Hl Hx]. rewrite Forall_singleton in Hx.
  rewrite DeployNode_pick_app.
  destruct (String.eqb_spec (NodeInfo.ContainerID x) containerID); [done |].
  by apply IH.
Qed.

Lemma DeployNode_pick_cons node allNodes containerID :
  Forall (fun node => NodeInfo.ContainerID node <> containerID) allNodes ->
  DeployNode_pick (node :: allNodes) containerID
  = if String.eqb (NodeInfo.ContainerID node) containerID then Some node
    else None.
Proof.
  induction allNodes as [| x l IH] using rev_ind; intros H; [reflexivity |].
  apply Forall_app in H as [Hl Hx]. rewrite Forall_singleton in Hx.
  rewrite app_comm_cons, DeployNode_pick_app.
  destruct (String.eqb_spec (NodeInfo.ContainerID x) containerID); [done |].
  by apply IH.
Qed.

(** What the loop of [ListNodes] appends comes from the containers it
    visits. *)
Lemma ListNodes_loop_new c all containers nodes st nodes' st' :
  containers ⊆ all ->
  ListNodes_loop c containers nodes st = Returned (nodes', st') ->
  exists new, nodes' = nodes ++ new /\ Forall (node_of all) new.
Proof.
  revert nodes st. induction containers as [| container containers IH];
    intros nodes st Hsub; simpl.
  - munfold. intros [= <- _]. exists []. by rewrite app_nil_r.
  - intros H. apply bind_Returned in H as (r & st1 & E1 & H).
    unfold lift in E1.
    destruct (parseContainerInfo c container) as [r' | |] eqn:P; [| done | done].
    injection E1 as <- <-.
    assert (containers ⊆ all) as Hsub' by set_solver.
    destruct r' as [node |]; [| by eapply IH].
    apply bind_Returned in H as (rs & st2 & _ & H).
    apply IH in H as (new & -> & Hnew); [| done].
    rewrite <- app_assoc. eexists. split; [done |].
    constructor; [| done].
    apply parseContainerInfo_Returned in P as (Hid & Hcl & Hne & _).
    assert (node_of all node) as Hnode.
    { split; [done |]. exists container. split; [set_solver |].
      split; [done |]. apply label_Some; [done | congruence]. }
    destruct rs as [[nodeState |] | err]; [| done | done].
    by destruct node.
Qed.

End DeployNodeFacts.

(** X16.  [DeployNode] panics with a nil dereference, and returns no error
    value, when the options or their image are nil; this is on every
    backend, after [uuid.NewString] and before any container is created. *)
Theorem DeployNode_without_image_panics {J : Json} {W : Type}
    {D : DockerCli W} {E : DeployEnv W} (c : Controller)
    (def : option DeployNodeOptions.t) (st : state W) :
  (forall d, def = Some d -> DeployNodeOptions.Image d = None) ->
  DeployNode c def st = Panicked nil_dereference.
Proof.
  intros H. unfold DeployNode. munfold. simpl.
  destruct (uuid_NewString (world st)) as [nodeID w].
  destruct def as [d |]; [| done]. by rewrite (H d eq_refl).
Qed.

Lemma DeployNode_without_image_panics_witness :
  DeployNode (J := NanoCodec.json) (D := MemDaemon.cli)
    (E := MemDeploy.env DeployExamples.env) Examples.ctrl
    (Some DeployExamples.options_without_image) (Examples.start Examples.daemon)
  = Panicked nil_dereference.
Proof.
  apply (DeployNode_without_image_panics (J := NanoCodec.json)
           (D := MemDaemon.cli) (E := MemDeploy.env DeployExamples.env)).
  intros d [= <-]. reflexivity.
Defined.

(** X17.  On every backend, the node that [DeployNode] returns without an
    error is the one of the container that [ContainerCreate] has just
    created, under the name cbdynnode- followed by the new identifier: it
    has the identifier of that container and a cluster identifier that is
    not empty, and [WaitForOnline] has returned without an error for port
    8091 of its address, as the last call. *)
Theorem DeployNode_returns_created_node {J : Json} {W : Type}
    {D : DockerCli W} {E : DeployEnv W} (c : Controller)
    (def : option DeployNodeOptions.t) (st st' : state W) (node : NodeInfo.t) :
  DeployNode c def st = Returned (Ok node, st') ->
  exists d image nodeID w0 w1,
    def = Some d
    /\ DeployNodeOptions.Image d = Some image
    /\ uuid_NewString (world st) = (nodeID, w0)
    /\ ContainerCreate (DeployNode_config d image nodeID)
         (DeployNode_hostConfig c) ("cbdynnode-" +:+ nodeID) w0
       = (Ok (NodeInfo.ContainerID node), w1)
    /\ NodeInfo.ClusterID node <> EmptyString
    /\ exists w,
         NodeManager_WaitForOnline
           (DeployNode_endpoint (NodeInfo.IPAddress node)) w
         = (None, world st').
Proof.
  intros H. unfold DeployNode in H.
  apply bind_Returned in H as (nodeID & s0 & E0 & H).
  unfold docker in E0.
  destruct (uuid_NewString (world st)) as [nodeID' w0] eqn:U.
  injection E0 as -> <-.
  apply bind_Returned in H as ([] & s1 & E1 & H). apply Debug_Returned in E1.
  destruct def as [d |]; [| done].
  destruct (DeployNodeOptions.Image d) as [image |] eqn:I; [| done].
  apply bind_Returned in H as (createResult & s2 & E2 & H).
  unfold docker in E2. rewrite E1 in E2. simpl in E2.
  destruct (ContainerCreate _ _ _ w0) as [createResult' w1] eqn:C.
  injection E2 as -> <-.
  destruct createResult as [containerID | err]; [| done].
  apply bind_Returned in H as ([] & s3 & _ & H).
  apply bind_Returned in H as (err & s4 & _ & H).
  destruct err as [err |]; [done |].
  apply bind_Returned in H as (now & s5 & _ & H).
  apply bind_Returned in H as (err & s6 & _ & H).
  destruct err as [err |]; [done |].
  apply bind_Returned in H as (r & s7 & L & H).
  destruct r as [allNodes | err]; [| done].
  destruct (DeployNode_pick allNodes containerID) as [node' |] eqn:P; [| done].
  apply bind_Returned in H as ([] & s8 & E8 & H). apply Debug_Returned in E8.
  apply bind_Returned in H as (err & s9 & E9 & H).
  destruct err as [err |]; [done |].
  apply bind_Returned in H as ([] & s10 & E10 & H). apply Debug_Returned in E10.
  injection H as -> <-.
  apply DeployNode_pick_Some in P as [Hin <-].
  exists d, image, nodeID, w0, w1. repeat (split; [done |]). split.
  - apply ListNodes_Returned in L.
    destruct (ContainerList (world s6)) as [[containers | err] w]; [| discriminate L].
    destruct L as (nodes & [= <-] & Hall).
    rewrite Forall_forall in Hall. by destruct (Hall node Hin).
  - unfold docker in E9.
    destruct (NodeManager_WaitForOnline _ (world s8)) as [err w9] eqn:Wt.
    injection E9 as -> <-. exists (world s8). by rewrite E10.
Qed.

Lemma DeployNode_returns_created_node_witness :
  exists node st',
    DeployNode (J := NanoCodec.json) (D := MemDaemon.cli)
      (E := MemDeploy.env DeployExamples.env) Examples.ctrl
      (Some DeployExamples.options) (Examples.start Examples.daemon)
    = Returned (Ok node, st')
    /\ NodeInfo.ClusterID node <> EmptyString.
Proof.
  assert (exists node st',
            DeployNode (J := NanoCodec.json) (D := MemDaemon.cli)
              (E := MemDeploy.env DeployExamples.env) Examples.ctrl
              (Some DeployExamples.options) (Examples.start Examples.daemon)
            = Returned (Ok node, st')) as (node & st' & H)
    by (vm_compute; do 2 eexists; reflexivity).
  exists node, st'. split; [exact H |].
  destruct (DeployNode_returns_created_node (J := NanoCodec.json)
              (D := MemDaemon.cli) (E := MemDeploy.env DeployExamples.env)
              Examples.ctrl (Some DeployExamples.options)
              (Examples.start Examples.daemon) st' node H)
    as (d & image & nodeID & w0 & w1 & _ & _ & _ & _ & Hc & _).
  exact Hc.
Defined.

(** ** DeployNode on the reference backend *)

Section DeployNodeMem.
Import MemDaemon MemDeploy.
Context {J : Json}.
Implicit Types (c : Controller) (st : state MemDaemon.t) (d : MemDaemon.t)
  (e : Env) (def : DeployNodeOptions.t).

Lemma find_container_None d containerID mc :
  find_container d containerID = None -> mc ∈ containers d ->
  has_id containerID mc = false.
Proof.
  unfold find_container. intros F Hin.
  apply (find_none _ _ F). by apply list_elem_of_In.
Qed.

Lemma update_fresh (l : list MemContainer) containerID f :
  (forall mc, mc ∈ l -> has_id containerID mc = false) ->
  map (fun mc => if has_id containerID mc then f mc else mc) l = l.
Proof.
  induction l as [| x l IH]; intros H; simpl; [done |].
  rewrite (H x) by apply list_elem_of_here.
  f_equal. apply IH. intros mc Hin. apply H. by apply list_elem_of_further.
Qed.

(** What a successful [WriteNodeState] does to the reference backend. *)
Lemma WriteNodeState_mem_world c containerID s st st1 :
  WriteNodeState c containerID s st = Returned (None, st1) ->
  exists data mc,
    json_Marshal (DockerNodeStateJson.Build (DockerNodeState.Expiry s)) = Ok data
    /\ find_container (world st) containerID = Some mc
    /\ world st1
       = update_container (world st) containerID
           (fun mc0 => {| info := info mc0; running := running mc0;
                          autoRemove := autoRemove mc0;
                          files := <["/var/cbdyncluster/state" := data]> (files mc);
                          iptablesInstalled := iptablesInstalled mc0;
                          inputChain := inputChain mc0 |}).
Proof.
  intros E. unfold WriteNodeState in E.
  apply bind_Returned in E as ([] & st0 & E0 & E).
  apply Debug_Returned in E0.
  destruct (json_Marshal _) as [data | err] eqn:M; [| done].
  apply bind_Returned in E as (r & st2 & E2 & E).
  destruct r as [err |]; [done |]. injection E as <-.
  unfold docker in E2. rewrite E0 in E2.
  change (CopyToContainer containerID "/var/" ?a (world st))
    with (mem_CopyToContainer containerID "/var/" a (world st)) in E2.
  unfold mem_CopyToContainer in E2.
  destruct (find_container (world st) containerID) as [mc |] eqn:F; [| done].
  simpl extract in E2. unfold extract_file in E2.
  change (path_join "/var/" (tar_Name (TarFile "cbdyncluster/state" _ data)))
    with "/var/cbdyncluster/state" in E2.
  destruct (is_dir (files mc) "/var/cbdyncluster/state"); [done |].
  destruct (below_file (files mc) "/var/cbdyncluster/state") eqn:B; [done |].
  simpl in E2. injection E2 as <-. simpl.
  by exists data, mc.
Qed.

Lemma label_DeployNode_labels c def e data :
  let container := info (deployed c def e data) in
  label container "com.couchbase.dyncluster.cluster_id"
  = DeployNodeOptions.ClusterID def
  /\ label container "com.couchbase.dyncluster.node_id" = env_uuid e
  /\ label container "com.couchbase.dyncluster.node_name" = EmptyString
  /\ label container "com.couchbase.dyncluster.creator" = EmptyString
  /\ label container "com.couchbase.dyncluster.purpose"
     = DeployNodeOptions.Purpose def
  /\ label container "com.couchbase.dyncluster.initial_server_version"
     = DeployNodeOptions.ImageServerVersion def.
Proof.
  unfold label, deployed, DeployNode_labels. simpl.
  repeat split;
    repeat (rewrite lookup_insert_ne by done);
    rewrite ?lookup_insert_eq, ?lookup_empty; done.
Qed.

(** What [parseContainerInfo] makes of the container of a deployed node. *)
Lemma parseContainerInfo_deployed c def e data :
  parseContainerInfo c (info (deployed c def e data))
  = if String.eqb (DeployNodeOptions.ClusterID def) EmptyString
    then Returned None
    else Returned (Some (deployed_node def e time.zero)).
Proof.
  destruct (label_DeployNode_labels c def e data)
    as (H1 & H2 & H3 & H4 & H5 & H6).
  unfold parseContainerInfo. rewrite H1, H2, H3, H4, H5, H6.
  by destruct (String.eqb _ _).
Qed.

Lemma find_container_head mc l nets containerID :
  has_id containerID mc = true ->
  find_container {| containers := mc :: l; networks := nets |} containerID
  = Some mc.
Proof. unfold find_container. simpl. by intros ->. Qed.

Lemma update_container_head mc l nets containerID f :
  has_id containerID mc = true ->
  (forall mc', mc' ∈ l -> has_id containerID mc' = false) ->
  update_container {| containers := mc :: l; networks := nets |} containerID f
  = {| containers := f mc :: l; networks := nets |}.
Proof.
  intros Hmc Hl. unfold update_container. simpl. rewrite Hmc.
  by rewrite update_fresh.
Qed.

(** The nodes that [ListNodes] makes of containers with other identifiers
    have other identifiers. *)
Lemma node_of_other (l : list MemContainer) containerID nodes :
  (forall mc, mc ∈ l -> has_id containerID mc = false) ->
  Forall (node_of (map info l)) nodes ->
  Forall (fun node => NodeInfo.ContainerID node <> containerID) nodes.
Proof.
  intros Hl Hall. eapply Forall_impl; [exact Hall |].
  intros node (_ & container & Hin & Hid & _).
  apply list_elem_of_fmap in Hin as (mc & -> & Hin).
  apply Hl in Hin. unfold has_id in Hin. apply String.eqb_neq in Hin.
  congruence.
Qed.

Lemma WriteNodeState_mem_failed c containerID s st err st1 :
  WriteNodeState c containerID s st = Returned (Some err, st1) ->
  world st1 = world st.
Proof.
  unfold WriteNodeState. intros E.
  apply bind_Returned in E as ([] & st0 & E0 & E). apply Debug_Returned in E0.
  destruct (json_Marshal _) as [data | err0]; [| by injection E as _ <-].
  apply bind_Returned in E as (r & st2 & E2 & E).
  destruct r as [err0 |]; [| done]. injection E as _ <-.
  unfold docker in E2. rewrite E0 in E2.
  change (CopyToContainer containerID "/var/" ?a (world st))
    with (mem_CopyToContainer containerID "/var/" a (world st)) in E2.
  unfold mem_CopyToContainer in E2.
  destruct (find_container (world st) containerID) as [mc |];
    [| by injection E2 as _ <-].
  destruct (extract _ _ _); [done | by injection E2 as _ <-].
Qed.

Lemma DeployNode_mem_Returned c def e st r st' :
  DeployNode (E := env e) c (Some def) st = Returned (r, st') ->
  find_container (world st) (env_id e) = None ->
  exists mc,
    containers (world st') = mc :: containers (world st)
    /\ networks (world st') = networks (world st)
    /\ ID (info mc) = env_id e
    /\ Labels (info mc) = DeployNode_labels def (env_uuid e)
    /\ autoRemove mc = true
    /\ forall node, r = Ok node ->
         exists data,
           json_Marshal (DockerNodeStateJson.Build
                           (time_Add (env_now e) (DeployNodeOptions.Expiry def)))
           = Ok data
           /\ mc = deployed c def e data
           /\ DeployNodeOptions.ClusterID def <> EmptyString
           /\ node = deployed_node def e (stored_expiry c st' (env_id e))
           /\ env_ready e (DeployNode_endpoint (env_address e)) = None.
Proof.
  intros H Hfresh. unfold DeployNode in H.
  pose proof (fun mc => find_container_None (world st) (env_id e) mc Hfresh)
    as Hothers.
  apply bind_Returned in H as (nodeID & s0 & E0 & H).
  unfold docker in E0. simpl in E0. injection E0 as <- <-.
  apply bind_Returned in H as ([] & s1 & E1 & H). apply Debug_Returned in E1.
  simpl in E1.
  destruct (DeployNodeOptions.Image def) as [image |] eqn:I; [| done].
  apply bind_Returned in H as (createResult & s2 & E2 & H).
  unfold docker in E2. rewrite E1 in E2. simpl in E2.
  unfold mem_ContainerCreate in E2. rewrite Hfresh in E2.
  injection E2 as <- <-.
  set (mc1 := created e (DeployNode_config def image (env_uuid e))
                (DeployNode_hostConfig c)) in *.
  assert (has_id (env_id e) mc1 = true) as Hid1.
  { unfold has_id. simpl. apply String.eqb_refl. }
  apply bind_Returned in H as ([] & s3 & E3 & H). apply Debug_Returned in E3.
  simpl in E3.
  apply bind_Returned in H as (err & s4 & E4 & H).
  unfold docker in E4. rewrite E3 in E4.
  change (ContainerStart (env_id e) ?d) with (mem_ContainerStart e (env_id e) d) in E4.
  unfold mem_ContainerStart in E4.
  rewrite (find_container_head mc1 _ _ _ Hid1) in E4.
  change (running mc1) with false in E4. cbv iota in E4.
  set (mc2 := started e mc1) in *.
  assert (has_id (env_id e) mc2 = true) as Hid2.
  { unfold has_id. simpl. apply String.eqb_refl. }
  destruct (negb (attachable _ mc1)).
  { simpl in E4. injection E4 as <- <-. injection H as <- <-.
    exists mc1. simpl. repeat (split; [done |]). by intros ? [=]. }
  assert (err = None
          /\ world s4 = {| containers := mc2 :: containers (world st);
                           networks := networks (world st) |}) as [-> W4].
  { simpl in E4. injection E4 as <- <-. split; [done |]. simpl.
    by apply update_container_head. }
  clear E4.
  apply bind_Returned in H as (now & s5 & E5 & H).
  unfold docker in E5. simpl in E5. injection E5 as <- <-.
  apply bind_Returned in H as (werr & s6 & E6 & H).
  destruct werr as [werr |].
  { injection H as <- <-. apply WriteNodeState_mem_failed in E6.
    simpl in E6. rewrite E6, W4.
    exists mc2. simpl. repeat (split; [done |]). by intros ? [=]. }
  apply WriteNodeState_mem_world in E6 as (data & mc & M & F & W6).
  simpl in F, W6, M. rewrite W4 in F, W6.
  rewrite (find_container_head mc2 _ _ _ Hid2) in F. injection F as <-.
  rewrite update_container_head in W6 by done.
  assert (deployed c def e data
          = {| info := info mc2; running := running mc2;
               autoRemove := autoRemove mc2;
               files := <["/var/cbdyncluster/state" := data]> (files mc2);
               iptablesInstalled := iptablesInstalled mc2;
               inputChain := inputChain mc2 |}) as Hmc3 by reflexivity.
  rewrite <- Hmc3 in W6. clear Hmc3.
  apply bind_Returned in H as (rl & s7 & L & H).
  pose proof (mem_ListNodes_world _ _ _ _ L) as W7.
  destruct rl as [allNodes | lerr].
  2: { injection H as <- <-. rewrite W7, W6.
       exists (deployed c def e data). simpl. repeat (split; [done |]).
       by intros ? [=]. }
  assert (Forall (fun node => NodeInfo.ContainerID node <> env_id e) []) as Hnil
    by constructor.
  unfold ListNodes in L.
  apply bind_Returned in L as ([] & l0 & L0 & L). apply Debug_Returned in L0.
  apply bind_Returned in L as (rc & l1 & L1 & L).
  unfold docker in L1. simpl in L1. injection L1 as <- <-.
  rewrite L0, W6 in L. cbn [containers List.map ListNodes_loop] in L.
  apply bind_Returned in L as ([] & l2 & L2 & L). apply Debug_Returned in L2.
  simpl in L2.
  apply bind_Returned in L as (nodes & l3 & L3 & L). injection L as <- _.
  apply bind_Returned in L3 as (pn & l4 & P & L3).
  unfold lift in P. rewrite parseContainerInfo_deployed in P.
  destruct (String.eqb_spec (DeployNodeOptions.ClusterID def) EmptyString)
    as [Hc | Hc]; injection P as <- <-.
  { apply (ListNodes_loop_new c (map info (containers (world st)))) in L3
      as (new & -> & Hnew); [| done].
    apply (node_of_other _ (env_id e)) in Hnew; [| done].
    simpl in H. rewrite (DeployNode_pick_None new _ Hnew) in H.
    injection H as <- <-. rewrite W7, W6.
    exists (deployed c def e data). simpl. repeat (split; [done |]).
    by intros ? [=]. }
  apply bind_Returned in L3 as (rs & l5 & R & L3).
  apply (ListNodes_loop_new c (map info (containers (world st)))) in L3
    as (new & -> & Hnew); [| done].
  apply (node_of_other _ (env_id e)) in Hnew; [| done].
  simpl in H, R.
  assert (match rs with
          | Ok (Some nodeState) =>
              NodeInfo.with_Expiry (deployed_node def e time.zero)
                (DockerNodeState.Expiry nodeState)
          | _ => deployed_node def e time.zero
          end = deployed_node def e (stored_expiry c l2 (env_id e))) as Hnode.
  { unfold stored_expiry. rewrite R. simpl.
    by destruct rs as [[nodeState |] | rerr]. }
  rewrite Hnode in H.
  rewrite (DeployNode_pick_cons _ new _ Hnew) in H. simpl in H.
  rewrite String.eqb_refl in H.
  apply bind_Returned in H as ([] & s8 & E8 & H). apply Debug_Returned in E8.
  apply bind_Returned in H as (rerr & s9 & E9 & H).
  unfold docker in E9. simpl in E9. injection E9 as <- <-.
  assert (world s8 = {| containers := deployed c def e data :: containers (world st);
                        networks := networks (world st) |}) as W8 by congruence.
  destruct (env_ready e (DeployNode_endpoint (env_address e))) as [rerr |] eqn:Rdy.
  { injection H as <- <-. simpl. rewrite W8.
    exists (deployed c def e data). simpl. repeat (split; [done |]).
    by intros ? [=]. }
  apply bind_Returned in H as ([] & s10 & E10 & H). apply Debug_Returned in E10.
  simpl in E10. injection H as <- <-. rewrite E10, W8.
  exists (deployed c def e data). simpl. repeat (split; [done |]).
  intros node [= <-]. exists data. repeat (split; [done |]). split; [| done].
  f_equal. apply stored_expiry_world. congruence.
Qed.

(** When the daemon has a container with the identifier already, nothing is
    created. *)
Lemma DeployNode_mem_conflict c def e st r st' mc :
  DeployNode (E := env e) c (Some def) st = Returned (r, st') ->
  find_container (world st) (env_id e) = Some mc ->
  (exists err, r = Err err) /\ world st' = world st.
Proof.
  intros H F. unfold DeployNode in H.
  apply bind_Returned in H as (nodeID & s0 & E0 & H).
  unfold docker in E0. simpl in E0. injection E0 as <- <-.
  apply bind_Returned in H as ([] & s1 & E1 & H). apply Debug_Returned in E1.
  simpl in E1.
  destruct (DeployNodeOptions.Image def) as [image |] eqn:I; [| done].
  apply bind_Returned in H as (createResult & s2 & E2 & H).
  unfold docker in E2. rewrite E1 in E2. simpl in E2.
  unfold mem_ContainerCreate in E2. rewrite F in E2.
  injection E2 as <- <-. injection H as <- <-. eauto.
Qed.

End DeployNodeMem.

(** X18.  On the reference backend, a call of [DeployNode] that returns a
    node has added one container to the daemon and changed nothing else: the
    container has the identifier the daemon chose, which no container had
    before, the four labels of the options and the new node identifier, it is
    running, it is removed when it stops, and it holds the JSON document of
    the time [time.Now] plus the requested duration.  The node that is
    returned has the identifiers, the cluster, the purpose and the server
    version of the options, no name, creator or owner, the address of the
    container, and the expiry that [json.Unmarshal] reads back from the
    stored document, which is that time whenever the document decodes to it;
    the cluster identifier of the options is not empty and the node was
    ready. *)
Theorem DeployNode_deploys {J : Json} (c : Controller)
    (def : DeployNodeOptions.t) (e : MemDeploy.Env)
    (st st' : state MemDaemon.t) (node : NodeInfo.t) :
  DeployNode (E := MemDeploy.env e) c (Some def) st = Returned (Ok node, st') ->
  DeployNodeOptions.ClusterID def <> EmptyString
  /\ MemDeploy.env_ready e (DeployNode_endpoint (MemDeploy.env_address e)) = None
  /\ MemDaemon.find_container (world st) (MemDeploy.env_id e) = None
  /\ exists data,
        json_Marshal (DockerNodeStateJson.Build
                        (time_Add (MemDeploy.env_now e)
                           (DeployNodeOptions.Expiry def))) = Ok data
        /\ world st'
           = MemDaemon.Build_t
               (deployed c def e data :: MemDaemon.containers (world st))
               (MemDaemon.networks (world st))
        /\ node = deployed_node def e (read_back_expiry data)
        /\ (json_decode data
            = JObject (Some (time_Add (MemDeploy.env_now e)
                               (DeployNodeOptions.Expiry def))) ->
            node = deployed_node def e
                     (time_Add (MemDeploy.env_now e)
                        (DeployNodeOptions.Expiry def))).
Proof.
  intros H.
  destruct (MemDaemon.find_container (world st) (MemDeploy.env_id e))
    as [mc |] eqn:F.
  { by destruct (DeployNode_mem_conflict c def e st _ st' mc H F) as [[err ?] _]. }
  destruct (DeployNode_mem_Returned c def e st _ st' H F)
    as (mc & Hc & Hn & _ & _ & _ & Hok).
  destruct (Hok node eq_refl) as (data & M & -> & Hne & -> & Hr).
  assert (stored_expiry c st' (MemDeploy.env_id e) = read_back_expiry data) as ->.
  { unfold stored_expiry, read_back_expiry.
    rewrite (ReadNodeState_after_write_any c (MemDeploy.env_id e) st'
               (deployed c def e data) data); [done | | done |].
    - unfold MemDaemon.find_container. rewrite Hc. simpl.
      unfold MemDaemon.has_id. simpl. by rewrite String.eqb_refl.
    - simpl. apply lookup_insert_eq. }
  repeat (split; [done |]). exists data. split; [done |]. split.
  { destruct (world st') as [l n]. simpl in *. by rewrite Hc, Hn. }
  split; [done |]. intros Hd. f_equal.
  unfold read_back_expiry, read_back. by rewrite Hd.
Qed.

Lemma DeployNode_deploys_witness :
  exists node st',
    DeployNode (J := NanoCodec.json) (D := MemDaemon.cli)
      (E := MemDeploy.env DeployExamples.env) Examples.ctrl
      (Some DeployExamples.options) (Examples.start Examples.daemon)
    = Returned (Ok node, st')
    /\ node = deployed_node DeployExamples.options DeployExamples.env
                1700003600000000000.
Proof.
  assert (exists node st',
            DeployNode (J := NanoCodec.json) (D := MemDaemon.cli)
              (E := MemDeploy.env DeployExamples.env) Examples.ctrl
              (Some DeployExamples.options) (Examples.start Examples.daemon)
            = Returned (Ok node, st')) as (node & st' & H)
    by (vm_compute; do 2 eexists; reflexivity).
  exists node, st'. split; [exact H |].
  destruct (DeployNode_deploys (J := NanoCodec.json) Examples.ctrl
              DeployExamples.options DeployExamples.env
              (Examples.start Examples.daemon) st' node H)
    as (_ & _ & _ & data & M & _ & _ & Hround).
  apply Hround. vm_compute in M. injection M as <-. vm_compute. reflexivity.
Defined.

(** X19.  On the reference backend, [DeployNode] does not remove the
    container it has created: when the daemon had no container with the
    identifier, then after the call, whether it returns a node or an error
    (the container did not start, the state was not written, the node was not
    found or did not get ready), the container is there, with its labels,
    and the networks and the other containers are as before. *)
Theorem DeployNode_container_stays {J : Json} (c : Controller)
    (def : DeployNodeOptions.t) (e : MemDeploy.Env)
    (st st' : state MemDaemon.t) (r : result NodeInfo.t) :
  MemDaemon.find_container (world st) (MemDeploy.env_id e) = None ->
  DeployNode (E := MemDeploy.env e) c (Some def) st = Returned (r, st') ->
  (exists mc,
     MemDaemon.find_container (world st') (MemDeploy.env_id e) = Some mc
     /\ MemDaemon.autoRemove mc = true
     /\ Labels (MemDaemon.info mc) = DeployNode_labels def (MemDeploy.env_uuid e))
  /\ same_elsewhere (MemDeploy.env_id e) (world st) (world st').
Proof.
  intros F H.
  destruct (DeployNode_mem_Returned c def e st _ st' H F)
    as (mc & Hc & Hn & Hid & Hl & Ha & _).
  assert (MemDaemon.has_id (MemDeploy.env_id e) mc = true) as Hmc.
  { unfold MemDaemon.has_id. rewrite Hid. apply String.eqb_refl. }
  split.
  - exists mc. split; [| done].
    unfold MemDaemon.find_container. rewrite Hc. simpl. by rewrite Hmc.
  - split; [done |]. intros other Hne.
    unfold MemDaemon.find_container. rewrite Hc. simpl.
    by rewrite (has_id_ne _ other mc Hne Hmc).
Qed.

Lemma DeployNode_container_stays_witness :
  exists err st' mc,
    DeployNode (J := NanoCodec.json) (D := MemDaemon.cli)
      (E := MemDeploy.env DeployExamples.env_not_ready) Examples.ctrl
      (Some DeployExamples.options) (Examples.start Examples.daemon)
    = Returned (Err err, st')
    /\ MemDaemon.find_container (world st') "c7" = Some mc.
Proof.
  assert (exists err st',
            DeployNode (J := NanoCodec.json) (D := MemDaemon.cli)
              (E := MemDeploy.env DeployExamples.env_not_ready) Examples.ctrl
              (Some DeployExamples.options) (Examples.start Examples.daemon)
            = Returned (Err err, st')) as (err & st' & H)
    by (vm_compute; do 2 eexists; reflexivity).
  destruct (DeployNode_container_stays (J := NanoCodec.json) Examples.ctrl
              DeployExamples.options DeployExamples.env_not_ready
              (Examples.start Examples.daemon) st' (Err err) eq_refl H)
    as [(mc & Hf & _) _].
  exists err, st', mc. split; [exact H | exact Hf].
Defined.

(** X20.  On the reference backend, [DeployNode] with an empty cluster
    identifier in the options never returns a node: the container it creates
    carries an empty cluster label, [ListNodes] leaves it out, and the call
    ends with an error. *)
Theorem DeployNode_needs_cluster_id {J : Json} (c : Controller)
    (def : DeployNodeOptions.t) (e : MemDeploy.Env)
    (st st' : state MemDaemon.t) (r : result NodeInfo.t) :
  DeployNodeOptions.ClusterID def = EmptyString ->
  DeployNode (E := MemDeploy.env e) c (Some def) st = Returned (r, st') ->
  exists err, r = Err err.
Proof.
  intros Hc H.
  destruct (MemDaemon.find_container (world st) (MemDeploy.env_id e))
    as [mc |] eqn:F.
  { by destruct (DeployNode_mem_conflict c def e st _ st' mc H F). }
  destruct r as [node | err]; [| eauto].
  destruct (DeployNode_mem_Returned c def e st _ st' H F)
    as (mc & _ & _ & _ & _ & _ & Hok).
  by destruct (Hok node eq_refl) as (data & _ & _ & Hne & _).
Qed.

Lemma DeployNode_needs_cluster_id_witness :
  exists err st',
    DeployNode (J := NanoCodec.json) (D := MemDaemon.cli)
      (E := MemDeploy.env DeployExamples.env) Examples.ctrl
      (Some DeployExamples.options_without_cluster)
      (Examples.start Examples.daemon)
    = Returned (Err err, st').
Proof.
  assert (exists r st',
            DeployNode (J := NanoCodec.json) (D := MemDaemon.cli)
              (E := MemDeploy.env DeployExamples.env) Examples.ctrl
              (Some DeployExamples.options_without_cluster)
              (Examples.start Examples.daemon)
            = Returned (r, st')) as (r & st' & H)
    by (vm_compute; do 2 eexists; reflexivity).
  destruct (DeployNode_needs_cluster_id (J := NanoCodec.json) Examples.ctrl
              DeployExamples.options_without_cluster DeployExamples.env
              (Examples.start Examples.daemon) st' r eq_refl H) as [err ->].
  exists err, st'. exact H.
Defined.

(** ** parseContainerInfo: which endpoint gives the address *)

(** X21.  For a container with a cluster label, [parseContainerInfo] takes
    the address from the network that the loop over [Networks] visits last,
    whatever the others are: it returns a node with that address and the
    identifier of the container, and it panics when the endpoint of that
    network is nil, also when other networks have one. *)
Theorem parseContainerInfo_last_network (c : Controller) (container : Container)
    (settings : SummaryNetworkSettings)
    (nets : list (string * option EndpointSettings)) (name : string)
    (ep : option EndpointSettings) :
  label container cluster_id_label <> EmptyString ->
  NetworkSettings container = Some settings ->
  Networks settings = nets ++ [(name, ep)] ->
  match ep with
  | Some picked =>
      exists node,
        parseContainerInfo c container = Returned (Some node)
        /\ NodeInfo.IPAddress node = IPAddress picked
        /\ NodeInfo.ContainerID node = ID container
  | None => parseContainerInfo c container = Panicked nil_dereference
  end.
Proof.
  intros Hl Hs Hn. unfold parseContainerInfo. fold cluster_id_label.
  destruct (String.eqb_spec (label container cluster_id_label) EmptyString);
    [done |].
  rewrite Hs, Hn, fold_left_app. simpl.
  destruct ep as [picked |]; [| done]. eauto.
Qed.

Lemma parseContainerInfo_last_network_witness :
  parseContainerInfo Examples.ctrl
    {| ID := "c3"; Labels := Examples.node_labels;
       NetworkSettings :=
         Some {| Networks := [("dyncluster", Some {| IPAddress := "172.18.0.3" |});
                              ("bridge", None)] |} |}
  = Panicked nil_dereference.
Proof.
  apply (parseContainerInfo_last_network Examples.ctrl
           {| ID := "c3"; Labels := Examples.node_labels;
              NetworkSettings :=
                Some {| Networks :=
                          [("dyncluster", Some {| IPAddress := "172.18.0.3" |});
                           ("bridge", None)] |} |}
           {| Networks := [("dyncluster", Some {| IPAddress := "172.18.0.3" |});
                           ("bridge", None)] |}
           [("dyncluster", Some {| IPAddress := "172.18.0.3" |})] "bridge" None).
  - vm_compute. discriminate.
  - reflexivity.
  - reflexivity.
Defined.

(** ** CompareImageDefs: versions are ordered as numbers *)

Section Numerals.
Import GoString semver.

Lemma is_digit_range c : is_digit c = true -> 0 <= digit c <= 9.
Proof.
  unfold is_digit, Ascii.leb, Ascii.compare, digit.
  change (N_of_ascii "0") with 48%N. change (N_of_ascii "9") with 57%N.
  destruct (N.compare_spec 48 (N_of_ascii c)),
    (N.compare_spec (N_of_ascii c) 57); simpl; intros; try done; lia.
Qed.

Lemma ascii_compare_digit c1 c2 :
  Ascii.compare c1 c2 = (digit c1 ?= digit c2).
Proof.
  unfold Ascii.compare, digit.
  destruct (N.compare_spec (N_of_ascii c1) (N_of_ascii c2)),
    (Z.compare_spec (Z.of_N (N_of_ascii c1) - 48) (Z.of_N (N_of_ascii c2) - 48));
    try done; lia.
Qed.

Lemma digit_zero c : digit c = 0 -> c = "0"%char.
Proof.
  unfold digit. intros H.
  assert (N_of_ascii c = 48%N) as E by lia.
  rewrite <- (ascii_N_embedding c), E. reflexivity.
Qed.

Lemma number_from_pow acc s :
  number_from acc s = acc * 10 ^ Z.of_nat (len s) + number_from 0 s.
Proof.
  revert acc. induction s as [| c s IH]; intros acc; simpl.
  - lia.
  - rewrite (IH (10 * acc + digit c)), (IH (10 * 0 + digit c)).
    rewrite Nat2Z.inj_succ, Z.pow_succ_r by lia. lia.
Qed.

Lemma number_cons c s :
  number (String c s) = digit c * 10 ^ Z.of_nat (len s) + number s.
Proof.
  unfold number. simpl. rewrite number_from_pow. lia.
Qed.

Lemma number_bound s :
  all_digits s = true -> 0 <= number s < 10 ^ Z.of_nat (len s).
Proof.
  induction s as [| c s IH]; simpl.
  - intros _. unfold number. simpl. lia.
  - intros H. apply andb_true_iff in H as [Hc Hs].
    apply is_digit_range in Hc. specialize (IH Hs).
    rewrite number_cons.
    rewrite Nat2Z.inj_succ, Z.pow_succ_r by lia. nia.
Qed.

(** On digit strings of one length, the bytewise order is the order of the
    numbers. *)
Lemma compare_number x y :
  all_digits x = true -> all_digits y = true -> len x = len y ->
  String.compare x y = (number x ?= number y).
Proof.
  revert y. induction x as [| c1 x IH]; intros [| c2 y]; simpl; try done.
  intros Hx Hy Hl.
  apply andb_true_iff in Hx as [Hc1 Hx]. apply andb_true_iff in Hy as [Hc2 Hy].
  injection Hl as Hl.
  rewrite !number_cons, ascii_compare_digit, <- Hl.
  pose proof (number_bound x Hx) as Bx. pose proof (number_bound y Hy) as By.
  rewrite <- Hl in By.
  destruct (Z.compare_spec (digit c1) (digit c2)) as [E | L | G].
  - rewrite E, Z.add_compare_mono_l. by apply IH.
  - symmetry. apply Z.compare_lt_iff. nia.
  - symmetry. apply Z.compare_gt_iff. nia.
Qed.

Lemma numeral_digits s : numeral s = true -> all_digits s = true.
Proof.
  destruct s as [| c s]; [done |]. unfold numeral.
  intros H. by apply andb_true_iff in H as [? _].
Qed.

Lemma numeral_lower y :
  numeral y = true -> (1 < len y)%nat ->
  10 ^ Z.of_nat (len y - 1) <= number y.
Proof.
  destruct y as [| c s]; [done |]. unfold numeral.
  intros H Hl. apply andb_true_iff in H as [Hd Hz].
  simpl in Hd. apply andb_true_iff in Hd as [Hc Hs].
  destruct s as [| c' s']; [simpl in Hl; lia |].
  rewrite orb_false_r in Hz. apply negb_true_iff, Ascii.eqb_neq in Hz.
  apply is_digit_range in Hc.
  assert (digit c <> 0) as Hnz by (intros E; by apply digit_zero in E).
  rewrite number_cons.
  replace (len (String c (String c' s')) - 1)%nat with (len (String c' s'))
    by (simpl; lia).
  pose proof (number_bound _ Hs). nia.
Qed.

Lemma number_len_lt x y :
  numeral x = true -> numeral y = true -> (len x < len y)%nat ->
  number x < number y.
Proof.
  intros Hx Hy Hl.
  pose proof (number_bound x (numeral_digits x Hx)) as Bx.
  assert (1 < len y)%nat as Hy1.
  { destruct x; [done |]. simpl in Hl. lia. }
  pose proof (numeral_lower y Hy Hy1) as By.
  assert (10 ^ Z.of_nat (len x) <= 10 ^ Z.of_nat (len y - 1)).
  { apply Z.pow_le_mono_r; lia. }
  lia.
Qed.

(** [compareInt] orders numerals as numbers. *)
Lemma compareInt_number x y :
  numeral x = true -> numeral y = true ->
  compareInt x y = zcmp (number x) (number y).
Proof.
  intros Hx Hy. unfold compareInt, zcmp.
  destruct (String.eqb_spec x y) as [-> | Hne].
  { by rewrite Z.compare_refl. }
  destruct (Nat.ltb_spec (len x) (len y)) as [L | L].
  { pose proof (number_len_lt x y Hx Hy L) as H.
    apply Z.compare_lt_iff in H. by rewrite H. }
  destruct (Nat.ltb_spec (len y) (len x)) as [G | G].
  { pose proof (number_len_lt y x Hy Hx G) as H.
    apply Z.compare_gt_iff in H. by rewrite H. }
  unfold lt, String.ltb.
  rewrite (compare_number x y) by (try apply numeral_digits; done || lia).
  destruct (number x ?= number y) eqn:E; [| done | done].
  exfalso. apply Hne, String.compare_eq_iff.
  rewrite (compare_number x y) by (try apply numeral_digits; done || lia).
  done.
Qed.

Lemma scan_digits x rest :
  all_digits x = true -> stops rest = true ->
  scan is_digit (x +:+ rest) = len x.
Proof.
  intros Hx Hr. induction x as [| c x IH]; simpl in *.
  - destruct rest as [| c r]; [done |]. simpl.
    by apply negb_true_iff in Hr as ->.
  - apply andb_true_iff in Hx as [-> Hx]. by rewrite IH.
Qed.

Lemma substring_append_l x rest :
  String.substring 0 (len x) (x +:+ rest) = x.
Proof.
  induction x as [| c x IH]; simpl.
  - by destruct rest.
  - by rewrite IH.
Qed.

Lemma substring_append_r x rest :
  String.substring (len x) (len rest) (x +:+ rest) = rest.
Proof.
  induction x as [| c x IH]; simpl; [| done]. apply substring_all.
Qed.

Lemma len_append x rest : len (x +:+ rest) = (len x + len rest)%nat.
Proof. induction x as [| c x IH]; simpl; [done | by rewrite IH]. Qed.

(** [parseInt] reads a numeral up to where it ends. *)
Lemma parseInt_numeral x rest :
  numeral x = true -> stops rest = true ->
  parseInt (x +:+ rest) = Some (x, rest).
Proof.
  intros Hx Hr. pose proof (numeral_digits x Hx) as Hd.
  destruct x as [| c x]; [done |].
  unfold numeral in Hx. apply andb_true_iff in Hx as [_ Hz].
  simpl in Hd. apply andb_true_iff in Hd as [Hc Hd].
  change (String c x +:+ rest) with (String c (x +:+ rest)).
  unfold parseInt. rewrite Hc, (scan_digits x rest Hd Hr). simpl negb.
  cbv iota.
  assert (Ascii.eqb c "0" && negb (Nat.eqb (len x) 0) = false) as ->.
  { destruct (Ascii.eqb c "0"); [| done]. simpl in Hz.
    apply String.eqb_eq in Hz as ->. done. }
  unfold slice, slice_from.
  replace (S (len x) - 0)%nat with (len (String c x)) by (simpl; lia).
  replace (len (String c (x +:+ rest)) - S (len x))%nat with (len rest)
    by (simpl; rewrite len_append; lia).
  change (String c (x +:+ rest)) with (String c x +:+ rest).
  change (S (len x)) with (len (String c x)).
  by rewrite substring_append_l, substring_append_r.
Qed.

Lemma append_nil_r (s : string) : s +:+ EmptyString = s.
Proof.
  induction s as [| c s IH]; [done |].
  change (String c s +:+ EmptyString) with (String c (s +:+ EmptyString)).
  by rewrite IH.
Qed.

Lemma parseInt_numeral_end z :
  numeral z = true -> parseInt z = Some (z, EmptyString).
Proof.
  intros Hz. pose proof (parseInt_numeral z EmptyString Hz eq_refl) as H.
  by rewrite append_nil_r in H.
Qed.

(** [parse] on a version of three numerals. *)
Lemma parse_version x y z :
  numeral x = true -> numeral y = true -> numeral z = true ->
  parse ("v" +:+ version_of x y z)
  = Some (Parsed x y z EmptyString EmptyString EmptyString).
Proof.
  intros Hx Hy Hz. unfold version_of.
  change ("v" +:+ ?s) with (String "v" s).
  unfold parse. simpl negb. cbv iota.
  rewrite (parseInt_numeral x _ Hx) by done.
  change ("." +:+ ?s) with (String "." s).
  simpl negb. cbv iota.
  rewrite (parseInt_numeral y _ Hy) by done.
  change ("." +:+ z) with (String "." z).
  simpl negb. cbv iota.
  rewrite (parseInt_numeral_end z Hz).
  reflexivity.
Qed.

(** [semver.Compare] on versions of three numerals is the order of the
    numbers. *)
Lemma Compare_numbers x1 y1 z1 x2 y2 z2 :
  numeral x1 = true -> numeral y1 = true -> numeral z1 = true ->
  numeral x2 = true -> numeral y2 = true -> numeral z2 = true ->
  Compare ("v" +:+ version_of x1 y1 z1) ("v" +:+ version_of x2 y2 z2)
  = numbers_cmp (number x1, number y1, number z1)
      (number x2, number y2, number z2).
Proof.
  intros. unfold Compare. rewrite !parse_version by done. simpl.
  rewrite !compareInt_number by done.
  unfold numbers_cmp, then_cmp, on_cmp. simpl.
  destruct (negb (zcmp (number x1) (number x2) =? 0)); [done |].
  destruct (negb (zcmp (number y1) (number y2) =? 0)); [done |].
  destruct (negb (zcmp (number z1) (number z2) =? 0)) eqn:E; [done |].
  apply negb_false_iff, Z.eqb_eq in E. by rewrite E.
Qed.

End Numerals.

(** X22.  Versions are ordered as numbers, not as strings: for two
    descriptors whose versions are three numerals each (major, minor, patch;
    decimal, without leading zeros), when the triples of numbers differ,
    [CompareImageDefs] returns their order, major first, then minor, then
    patch, whatever the build numbers and the flags. *)
Theorem CompareImageDefs_numeric_versions (a b : ImageDef)
    (x1 y1 z1 x2 y2 z2 : string) :
  Version a = version_of x1 y1 z1 -> Version b = version_of x2 y2 z2 ->
  numeral x1 && numeral y1 && numeral z1 = true ->
  numeral x2 && numeral y2 && numeral z2 = true ->
  numbers_cmp (number x1, number y1, number z1)
    (number x2, number y2, number z2) <> 0 ->
  CompareImageDefs a b
  = numbers_cmp (number x1, number y1, number z1)
      (number x2, number y2, number z2).
Proof.
  intros Ha Hb H1 H2 Hne.
  apply andb_true_iff in H1 as [H1 Hz1]. apply andb_true_iff in H1 as [Hx1 Hy1].
  apply andb_true_iff in H2 as [H2 Hz2]. apply andb_true_iff in H2 as [Hx2 Hy2].
  unfold CompareImageDefs. cbv zeta. rewrite Ha, Hb.
  rewrite Compare_numbers by done.
  by destruct (Z.eqb_spec (numbers_cmp (number x1, number y1, number z1)
                             (number x2, number y2, number z2)) 0).
Qed.

Lemma CompareImageDefs_numeric_versions_witness :
  image_less image_7_9_0 image_7_10_0.
Proof.
  exact (CompareImageDefs_numeric_versions image_7_9_0 image_7_10_0
           "7" "9" "0" "7" "10" "0" eq_refl eq_refl eq_refl eq_refl
           ltac:(vm_compute; discriminate)).
Defined.
